(** * Funding-catalog dashboard: a shallow embedding of [web/js/main.js]

    The dashboard is a static client: [loadData] fetches thirteen JSON
    documents, stores them in [globalData] and [initializeDashboard] turns
    them into charts, cards and tables.  The embedding follows the script
    function by function.

    Modelling conventions.
    - A JavaScript value is a [value]: [undefined], the JSON values, and
      the built-in objects a property read can reach.  A number is [NaN] or
      a rational; subtraction and division round their exact result to the
      nearest binary64 number ([binary64]), as the arithmetic of the
      language does.  Objects are association lists in property-enumeration
      order; a property read returns the own property, else the member the
      object inherits from [Object.prototype] ([constructor], [toString],
      ...), else [undefined].  Strings are [string]s, one character per code
      unit.
    - An evaluation ends in [Ret v], in [Throw e] (a JavaScript exception)
      or in [Unmodelled]: the last marks the coercions the embedding does not
      cover (string-to-number conversion, identity of objects, infinities,
      the properties of built-in objects).
    - Stateful code runs in the monad [M] over [state]: the script's globals
      ([globalData], [charts], [drilldownChart]), the parts of the page it
      writes, the console and the network.
    - Chart.js, [Intl.NumberFormat] and [Date] are libraries of the platform:
      a chart is the record of what the script passes to [new Chart] (type,
      labels, datasets; styling options, tooltips and axis callbacks are left
      out), the formatters and the browser's reading of an [onclick]
      attribute are variables of the section.
    - The markup the script assigns to [innerHTML] is text: a tag of the
      keyword cloud and a row of the recipients table are records of the
      pieces of text the script puts into its template, and [markup] is the
      string assigned.  The script escapes none of these pieces but the
      quotes of a recipient name inside its handler; what the browser parses
      out of the string is not modelled.
    - The aggregation engine that writes the documents is not among the
      sources; the module [Aggregation] models a grouping pass from the
      specification. *)

From Stdlib Require Import ZArith QArith Qabs Qround Qpower Lqa List String Ascii Lia Bool.
From stdpp Require Import base option list strings gmap pretty.

#[local] Set Warnings "-register-all".
#[local] Open Scope string_scope.

(** ** Values *)

Inductive number :=
| NaN
| Fin (q : Q).

(** [VNative name] is a built-in object of the platform: the function or
    prototype object that a value inherits under [name], as
    [Object.prototype.constructor] or [Object.prototype.toString]. *)
Inductive value :=
| VUndef
| VNull
| VBool (b : bool)
| VNum (n : number)
| VStr (s : string)
| VArr (l : list value)
| VObj (props : list (string * value))
| VNative (name : string).

Definition num (q : Q) : value := VNum (Fin q).
Definition int (z : Z) : value := VNum (Fin (inject_Z z)).

(** ** Outcomes of an evaluation *)

Inductive outcome (A : Type) :=
| Ret (a : A)
| Throw (e : string)
| Unmodelled.
Arguments Ret {A} a.
Arguments Throw {A} e.
Arguments Unmodelled {A}.

#[global] Instance outcome_ret : MRet outcome := fun A a => Ret a.
#[global] Instance outcome_bind : MBind outcome := fun A B f o =>
  match o with
  | Ret a => f a
  | Throw e => Throw e
  | Unmodelled => Unmodelled
  end.
#[global] Instance outcome_fmap : FMap outcome := fun A B f o =>
  match o with
  | Ret a => Ret (f a)
  | Throw e => Throw e
  | Unmodelled => Unmodelled
  end.

Definition TypeError {A} : outcome A := Throw "TypeError".

(** [xs.map(f)] for a callback that can throw: elements are visited in
    order and the first exception ends the loop. *)
Fixpoint mapO {A B} (f : A -> outcome B) (l : list A) : outcome (list B) :=
  match l with
  | [] => Ret []
  | x :: l' => y ← f x; ys ← mapO f l'; Ret (y :: ys)
  end.

Fixpoint filterO {A} (p : A -> outcome bool) (l : list A) : outcome (list A) :=
  match l with
  | [] => Ret []
  | x :: l' => b ← p x; ys ← filterO p l'; Ret (if b : bool then x :: ys else ys)
  end.

(** [xs.find(p)]: the first element satisfying [p], else [undefined]; the
    elements after the match are not visited. *)
Fixpoint findO (p : value -> outcome bool) (l : list value) : outcome value :=
  match l with
  | [] => Ret VUndef
  | x :: l' => b ← p x; if b : bool then Ret x else findO p l'
  end.

(** ** Primitive operations of the language *)

(** [ToBoolean]. *)
Definition truthy (v : value) : bool :=
  match v with
  | VUndef | VNull => false
  | VBool b => b
  | VNum NaN => false
  | VNum (Fin q) => negb (Qeq_bool q 0)
  | VStr s => negb (String.eqb s EmptyString)
  | VArr _ | VObj _ | VNative _ => true
  end.

(** [a || b] *)
Definition or_else (a b : value) : value := if truthy a then a else b.

(** [ToNumber], for the operands that need no parsing. *)
Definition to_number (v : value) : outcome number :=
  match v with
  | VUndef => Ret NaN
  | VNull => Ret (Fin 0)
  | VBool b => Ret (Fin (if b then 1 else 0))
  | VNum n => Ret n
  | VStr _ | VArr _ | VObj _ | VNative _ => Unmodelled
  end.

Definition Qlt_bool (a b : Q) : bool := negb (Qle_bool b a).

(** [v >= c], [v <= c] and [v > c] against a number [c]: false on [NaN]. *)
Definition ge_num (v : value) (c : number) : outcome bool :=
  n ← to_number v;
  Ret match n, c with
      | Fin q, Fin c => Qle_bool c q
      | _, _ => false
      end.

Definition le_num (v : value) (c : number) : outcome bool :=
  n ← to_number v;
  Ret match n, c with
      | Fin q, Fin c => Qle_bool q c
      | _, _ => false
      end.

Definition gt_num (v : value) (c : number) : outcome bool :=
  n ← to_number v;
  Ret match n, c with
      | Fin q, Fin c => Qlt_bool c q
      | _, _ => false
      end.

(** ** Binary64 arithmetic *)

(** [2^e] *)
Definition pow2 (e : Z) : Q := (2 ^ e)%Q.

(** The integer nearest to [x], the even one on a tie. *)
Definition nearest_even (x : Q) : Z :=
  let f := Qfloor x in
  match (x - inject_Z f ?= 1 # 2)%Q with
  | Lt => f
  | Gt => (f + 1)%Z
  | Eq => if Z.even f then f else (f + 1)%Z
  end.

(** The [k] with [2^k <= x < 2^(k+1)], for [x] above zero. *)
Definition floor_log2 (x : Q) : Z :=
  let k := (Z.log2 (Qnum x) - Z.log2 (Zpos (Qden x)))%Z in
  if Qle_bool (pow2 k) x then k else (k - 1)%Z.

(** The exponent of the last of the 53 bits of the binary64 numbers around
    [x]; it does not go below that of the subnormal numbers. *)
Definition ulp_exponent (x : Q) : Z := Z.max (floor_log2 x - 52) (-1074).

(** [x] rounded to the nearest binary64 number, to the one with the even
    mantissa on a tie: what an arithmetic operation of the language returns
    when [x] is its exact result.  Results beyond the largest binary64
    number (an infinity in the language) are not told apart here. *)
Definition binary64 (x : Q) : Q :=
  let a := Qabs x in
  if Qeq_bool a 0 then 0
  else
    let e := ulp_exponent a in
    let y := (inject_Z (nearest_even (a / pow2 e)) * pow2 e)%Q in
    if Qlt_bool x 0 then (- y)%Q else y.

#[global] Arguments binary64 : simpl never.

(** [v - c] and [v / c] for a finite number [c], [c] not zero in the
    division: the exact result rounded to binary64.  The operand is a
    binary64 number, so its difference to, or its quotient by, a constant
    of the script stays within the finite numbers. *)
Definition sub_num (v : value) (c : Q) : outcome number :=
  n ← to_number v;
  Ret match n with
      | NaN => NaN
      | Fin q => Fin (binary64 (q - c))
      end.

Definition div_num (v : value) (c : Q) : outcome number :=
  n ← to_number v;
  Ret match n with
      | NaN => NaN
      | Fin q => Fin (binary64 (q / c))
      end.

(** Own-property lookup in an object. *)
Fixpoint lookup_prop (k : string) (props : list (string * value)) : option value :=
  match props with
  | [] => None
  | (k', v) :: props' => if String.eqb k k' then Some v else lookup_prop k props'
  end.

Definition is_member (k : string) (names : list string) : bool :=
  existsb (String.eqb k) names.

(** The names of the members every object inherits from
    [Object.prototype], and those [Number.prototype] adds for a number. *)
Definition prototype_members : list string :=
  [ "constructor"; "hasOwnProperty"; "isPrototypeOf"; "propertyIsEnumerable";
    "toLocaleString"; "toString"; "valueOf"; "__proto__";
    "__defineGetter__"; "__defineSetter__"; "__lookupGetter__"; "__lookupSetter__" ].

Definition number_members : list string :=
  [ "toExponential"; "toFixed"; "toPrecision" ].

(** What a property read finds up the prototype chain of an object of a
    document, for a name the object has no property of its own for. *)
Definition inherited (k : string) : value :=
  if is_member k prototype_members then VNative k else VUndef.

(** The fields the script reads from the entry of a drill-down: no
    built-in object has a property of these names. *)
Definition trend_fields : list string :=
  [ "total_projects"; "total_funding"; "yearly"; "state" ].

(** [v.k] and [v[k]]: a [TypeError] on [undefined] and [null]; the own
    property of an object, else the inherited member, else [undefined].
    On arrays and strings only [length] is modelled, on a built-in object
    only that it has none of the fields of a drill-down entry. *)
Definition get (v : value) (k : string) : outcome value :=
  match v with
  | VUndef | VNull => TypeError
  | VBool _ => Ret (inherited k)
  | VNum _ => Ret (if is_member k number_members then VNative k else inherited k)
  | VObj props => Ret (default (inherited k) (lookup_prop k props))
  | VArr l => if String.eqb k "length" then Ret (int (Z.of_nat (length l))) else Unmodelled
  | VStr s => if String.eqb k "length" then Ret (int (Z.of_nat (String.length s))) else Unmodelled
  | VNative _ => if is_member k trend_fields then Ret VUndef else Unmodelled
  end.

(** [v?.k] and [v?.[k]] *)
Definition get_opt (v : value) (k : string) : outcome value :=
  match v with
  | VUndef | VNull => Ret VUndef
  | _ => get v k
  end.

(** The receiver of [.map], [.filter], [.find] and [.forEach]: these are
    methods of arrays only, calling them on anything else is a [TypeError]. *)
Definition as_array (v : value) : outcome (list value) :=
  match v with
  | VArr l => Ret l
  | _ => TypeError
  end.

(** [v.slice(0, n)]: on strings [slice] exists too and is left out. *)
Definition slice_to (n : nat) (v : value) : outcome (list value) :=
  match v with
  | VArr l => Ret (take n l)
  | VStr _ => Unmodelled
  | _ => TypeError
  end.

(** [a === b]; the identity of two arrays, two objects or two built-in
    objects is not modelled. *)
Definition strict_eq (a b : value) : outcome bool :=
  match a, b with
  | VUndef, VUndef | VNull, VNull => Ret true
  | VBool x, VBool y => Ret (Bool.eqb x y)
  | VNum (Fin x), VNum (Fin y) => Ret (Qeq_bool x y)
  | VStr x, VStr y => Ret (String.eqb x y)
  | VArr _, VArr _ | VObj _, VObj _ | VNative _, VNative _ => Unmodelled
  | _, _ => Ret false
  end.

(** [SameValueZero], the equality of [Set]: as [===], but [NaN] equals
    itself. *)
Definition same_value_zero (a b : value) : outcome bool :=
  match a, b with
  | VNum NaN, VNum NaN => Ret true
  | _, _ => strict_eq a b
  end.

(** ** [Number.prototype.toFixed] *)

Definition e10 (k : nat) : Q := inject_Z (10 ^ Z.of_nat k).

(** The integer [n] for which [n / 10^f - x] is closest to zero, the larger
    one on a tie; [x] is not negative. *)
Definition round_scaled (x : Q) (f : nat) : Z :=
  (2 * Qnum x * 10 ^ Z.of_nat f + Zpos (Qden x)) / (2 * Zpos (Qden x)).

Fixpoint zeros (k : nat) : string :=
  match k with
  | O => EmptyString
  | S k' => String "0" (zeros k')
  end.

Definition fixed_digits (n : Z) (f : nat) : string :=
  let m := pretty n in
  match f with
  | O => m
  | S _ =>
      let m := zeros (S f - String.length m) ++ m in
      let k := (String.length m - f)%nat in
      substring 0 k m ++ "." ++ substring k f m
  end.

Definition toFixed (x : number) (f : nat) : outcome string :=
  match x with
  | NaN => Ret "NaN"
  | Fin q =>
      if Qle_bool (e10 21) (Qabs q) then Unmodelled
      else if Qlt_bool q 0 then Ret ("-" ++ fixed_digits (round_scaled (- q) f) f)
      else Ret (fixed_digits (round_scaled q f) f)
  end.

(** [v.toFixed(f)] on an arbitrary value: only numbers have the method. *)
Definition call_toFixed (v : value) (f : nat) : outcome string :=
  match v with
  | VNum n => toFixed n f
  | _ => TypeError
  end.

(** ** Charts, the page and the state of the script *)

Record dataset := { ds_label : value; ds_data : list value }.

Record chart := {
  ch_type : string;
  ch_labels : list value;
  ch_datasets : list dataset
}.

(** One tag of the keyword cloud and one row of the recipients table: the
    pieces of text the script puts into the template of the element, as
    they are written.  [onclick] holds the text between the quotes of the
    call in the handler, when the element gets a handler. *)
Record keyword_tag := {
  kw_class : string;
  kw_onclick : option string;
  kw_title : string;
  kw_word : string
}.

Record table_row := {
  row_onclick : option string;
  row_title : string;
  row_rank : nat;
  row_name : string;
  row_funding : string;
  row_projects : string;
  row_average : string
}.

Inductive html :=
| Markup (s : string)
| KeywordTags (tags : list keyword_tag)
| TableRows (rows : list table_row).

Definition dquote : string := String (ascii_of_nat 34) EmptyString.
Definition newline : string := String (ascii_of_nat 10) EmptyString.

(** [name="text"], the text as it is. *)
Definition attribute (name text : string) : string :=
  name ++ "=" ++ dquote ++ text ++ dquote.

(** The template of a tag,
    [<span class="keyword-tag ${sizeClass}" ${clickAttr} ${cursorStyle} title="${titleText}">${keyword.word}</span>]. *)
Definition tag_markup (t : keyword_tag) : string :=
  let clickAttr :=
    match kw_onclick t with
    | Some word => attribute "onclick" ("showKeywordTrends('" ++ word ++ "')")
    | None => EmptyString
    end in
  let cursorStyle :=
    match kw_onclick t with
    | Some _ => EmptyString
    | None => attribute "style" "cursor: default;"
    end in
  "<span " ++ attribute "class" ("keyword-tag " ++ kw_class t) ++ " " ++ clickAttr
  ++ " " ++ cursorStyle ++ " " ++ attribute "title" (kw_title t) ++ ">"
  ++ kw_word t ++ "</span>".

(** A cell of a row, on a line of its own. *)
Definition table_cell (text : string) : string :=
  newline ++ "            <td>" ++ text ++ "</td>".

(** The template of a row: a [tr] with [${rowClass} ${clickAttr}
    title="${titleAttr}"] and five cells. *)
Definition row_markup (r : table_row) : string :=
  let rowClass :=
    match row_onclick r with
    | Some _ => attribute "class" "clickable-row"
    | None => EmptyString
    end in
  let clickAttr :=
    match row_onclick r with
    | Some name => attribute "onclick" ("showRecipientTrends('" ++ name ++ "')")
    | None => EmptyString
    end in
  newline ++ "        <tr " ++ rowClass ++ " " ++ clickAttr ++ " "
  ++ attribute "title" (row_title r) ++ ">"
  ++ table_cell (pretty (row_rank r)) ++ table_cell (row_name r)
  ++ table_cell (row_funding r) ++ table_cell (row_projects r)
  ++ table_cell (row_average r)
  ++ newline ++ "        </tr>".

(** The string assigned to [innerHTML]: the elements joined by [join('')]. *)
Definition markup (h : html) : string :=
  match h with
  | Markup s => s
  | KeywordTags tags => String.concat EmptyString (map tag_markup tags)
  | TableRows rows => String.concat EmptyString (map row_markup rows)
  end.

Inductive log_entry :=
| ConsoleError (msg : string)
| ConsoleLog (msg : string).

Record state := {
  globalData : value;
  charts : gmap string chart;
  drilldownChart : option chart;
  canvas : gmap string chart;
  textContent : gmap string string;
  innerHTML : gmap string html;
  display : gmap string string;
  console : list log_entry;
  network : string -> option value;
  requests : list string
}.

Definition set_globalData (g : value) (s : state) : state :=
  {| globalData := g; charts := charts s; drilldownChart := drilldownChart s;
     canvas := canvas s; textContent := textContent s; innerHTML := innerHTML s;
     display := display s; console := console s; network := network s;
     requests := requests s |}.

Definition set_charts (c : gmap string chart) (s : state) : state :=
  {| globalData := globalData s; charts := c; drilldownChart := drilldownChart s;
     canvas := canvas s; textContent := textContent s; innerHTML := innerHTML s;
     display := display s; console := console s; network := network s;
     requests := requests s |}.

Definition set_drilldownChart (c : option chart) (s : state) : state :=
  {| globalData := globalData s; charts := charts s; drilldownChart := c;
     canvas := canvas s; textContent := textContent s; innerHTML := innerHTML s;
     display := display s; console := console s; network := network s;
     requests := requests s |}.

Definition set_canvas (c : gmap string chart) (s : state) : state :=
  {| globalData := globalData s; charts := charts s; drilldownChart := drilldownChart s;
     canvas := c; textContent := textContent s; innerHTML := innerHTML s;
     display := display s; console := console s; network := network s;
     requests := requests s |}.

Definition set_textContent (t : gmap string string) (s : state) : state :=
  {| globalData := globalData s; charts := charts s; drilldownChart := drilldownChart s;
     canvas := canvas s; textContent := t; innerHTML := innerHTML s;
     display := display s; console := console s; network := network s;
     requests := requests s |}.

Definition set_innerHTML (h : gmap string html) (s : state) : state :=
  {| globalData := globalData s; charts := charts s; drilldownChart := drilldownChart s;
     canvas := canvas s; textContent := textContent s; innerHTML := h;
     display := display s; console := console s; network := network s;
     requests := requests s |}.

Definition set_display (d : gmap string string) (s : state) : state :=
  {| globalData := globalData s; charts := charts s; drilldownChart := drilldownChart s;
     canvas := canvas s; textContent := textContent s; innerHTML := innerHTML s;
     display := d; console := console s; network := network s;
     requests := requests s |}.

Definition set_console (c : list log_entry) (s : state) : state :=
  {| globalData := globalData s; charts := charts s; drilldownChart := drilldownChart s;
     canvas := canvas s; textContent := textContent s; innerHTML := innerHTML s;
     display := display s; console := c; network := network s;
     requests := requests s |}.

Definition set_requests (r : list string) (s : state) : state :=
  {| globalData := globalData s; charts := charts s; drilldownChart := drilldownChart s;
     canvas := canvas s; textContent := textContent s; innerHTML := innerHTML s;
     display := display s; console := console s; network := network s;
     requests := r |}.

(** ** The monad of the script *)

Definition M (A : Type) : Type := state -> outcome A * state.

#[global] Instance M_ret : MRet M := fun A a s => (Ret a, s).
#[global] Instance M_bind : MBind M := fun A B f m s =>
  match m s with
  | (Ret a, s') => f a s'
  | (Throw e, s') => (Throw e, s')
  | (Unmodelled, s') => (Unmodelled, s')
  end.

Definition lift {A} (o : outcome A) : M A := fun s => (o, s).
Definition gets {A} (f : state -> A) : M A := fun s => (Ret (f s), s).
Definition modify (f : state -> state) : M unit := fun s => (Ret tt, f s).

(** [try { body } catch (e) { handler }]: what the body did to the state
    before it threw stays done. *)
Definition try_catch {A} (body : M A) (handler : string -> M A) : M A := fun s =>
  match body s with
  | (Throw e, s') => handler e s'
  | r => r
  end.

(** The page.  Every element the script asks for is taken to be there (the
    page itself is not part of the script). *)
Definition setTextContent (id text : string) : M unit :=
  modify (fun s => set_textContent (<[id := text]> (textContent s)) s).

Definition setInnerHTML (id : string) (h : html) : M unit :=
  modify (fun s => set_innerHTML (<[id := h]> (innerHTML s)) s).

Definition setDisplay (id d : string) : M unit :=
  modify (fun s => set_display (<[id := d]> (display s)) s).

Definition console_error (msg : string) : M unit :=
  modify (fun s => set_console (console s ++ [ConsoleError msg])%list s).

Definition console_log (msg : string) : M unit :=
  modify (fun s => set_console (console s ++ [ConsoleLog msg])%list s).

(** [charts.slot = new Chart(ctx, cfg)], [ctx] the context of the canvas
    [id]. *)
Definition with_chart (slot id : string) (cfg : chart) (s : state) : state :=
  set_charts (<[slot := cfg]> (charts s)) (set_canvas (<[id := cfg]> (canvas s)) s).

Definition newChart (slot id : string) (cfg : chart) : M unit :=
  modify (with_chart slot id cfg).

(** [if (charts.slot) charts.slot.destroy()] *)
Definition without_chart (slot id : string) (s : state) : state :=
  match charts s !! slot with
  | Some _ => set_canvas (delete id (canvas s)) s
  | None => s
  end.

Definition destroyChart (slot id : string) : M unit :=
  modify (without_chart slot id).

(** [globalData.k] *)
Definition document_of (k : string) : M value :=
  g ← gets globalData; lift (get g k).

(** ** More of the language: keys, strings, sorting *)

(** A number without a fractional part. *)
Definition whole (q : Q) : bool := Qeq_bool (inject_Z (Qfloor q)) q.

(** [ToString], the conversion of a value put into a template literal: the
    decimal rendering of a number is modelled for the whole numbers below
    [2^53], which are shown by all their digits; the conversion of arrays
    and objects is left out. *)
Definition to_string (v : value) : outcome string :=
  match v with
  | VStr s => Ret s
  | VUndef => Ret "undefined"
  | VNull => Ret "null"
  | VBool b => Ret (if b then "true" else "false")
  | VNum NaN => Ret "NaN"
  | VNum (Fin q) =>
      if whole q && Qlt_bool (Qabs q) (pow2 53) then Ret (pretty (Qfloor q))
      else Unmodelled
  | VArr _ | VObj _ | VNative _ => Unmodelled
  end.

(** [ToPropertyKey] of a computed key [o[v]]: the same conversion, for the
    values of a document. *)
Definition to_key (v : value) : outcome string := to_string v.

(** [o?.[v]] *)
Definition get_opt_at (o v : value) : outcome value :=
  match o with
  | VUndef | VNull => Ret VUndef
  | _ => k ← to_key v; get o k
  end.

(** [Object.keys(v)] and [Object.values(v)]: numbers and booleans have no
    own enumerable property; arrays and strings are left out. *)
Definition object_entries (v : value) : outcome (list (string * value)) :=
  match v with
  | VObj props => Ret props
  | VNum _ | VBool _ => Ret []
  | VUndef | VNull => TypeError
  | VStr _ | VArr _ | VNative _ => Unmodelled
  end.

(** [keys.sort()]: ascending order of the code units. *)
Fixpoint insert_sorted (k : string) (l : list string) : list string :=
  match l with
  | [] => [k]
  | k' :: l' => if String.ltb k k' then k :: l else k' :: insert_sorted k l'
  end.

Definition sort_strings (l : list string) : list string :=
  foldr insert_sorted [] l.

(** [xs.sort((a, b) => key(b) - key(a))] on finite keys: stable, largest
    first. *)
Fixpoint insert_desc (x : Q * value) (l : list (Q * value)) : list (Q * value) :=
  match l with
  | [] => [x]
  | y :: l' => if Qle_bool (fst y) (fst x) then x :: l else y :: insert_desc x l'
  end.

Definition sort_desc (l : list (Q * value)) : list (Q * value) :=
  foldr insert_desc [] l.

(** [s.replace(/'/g, "\\'")] *)
Fixpoint escape_quotes (s : string) : string :=
  match s with
  | EmptyString => EmptyString
  | String c s' =>
      if Ascii.eqb c "'"%char then String "\"%char (String c (escape_quotes s'))
      else String c (escape_quotes s')
  end.

(** [Math.max(...vs)]: [NaN] as soon as one argument is; the empty maximum
    is an infinity. *)
Fixpoint math_max (vs : list value) : outcome number :=
  match vs with
  | [] => Unmodelled
  | [v] => to_number v
  | v :: vs' =>
      n ← to_number v;
      m ← math_max vs';
      Ret match n, m with
          | Fin a, Fin b => Fin (if Qle_bool a b then b else a)
          | _, _ => NaN
          end
  end.

(** [a / b] where the quotient is a finite number or [NaN]: the exact
    quotient rounded to binary64, an infinity when that is beyond the
    largest binary64 number. *)
Definition div_values (a : value) (b : number) : outcome number :=
  n ← to_number a;
  match n, b with
  | Fin x, Fin y =>
      if Qeq_bool y 0 then Unmodelled
      else if Qle_bool (pow2 1024) (Qabs (binary64 (x / y))) then Unmodelled
      else Ret (Fin (binary64 (x / y)))
  | _, _ => Ret NaN
  end.

(** [data.map(d => d.k)] *)
Definition pluck (k : string) (l : list value) : outcome (list value) :=
  mapO (fun d => get d k) l.

Definition map_field (data : value) (k : string) : outcome (list value) :=
  l ← as_array data; pluck k l.

(** ** The script *)

Record NumberFormatOptions := {
  nf_style : option string;
  nf_currency : option string;
  nf_minimumFractionDigits : option nat;
  nf_maximumFractionDigits : option nat;
  nf_notation : option string;
  nf_compactDisplay : option string
}.

Definition nf_default : NumberFormatOptions :=
  {| nf_style := None; nf_currency := None; nf_minimumFractionDigits := None;
     nf_maximumFractionDigits := None; nf_notation := None; nf_compactDisplay := None |}.

Definition nf_euro : NumberFormatOptions :=
  {| nf_style := Some "currency"; nf_currency := Some "EUR";
     nf_minimumFractionDigits := Some 0%nat; nf_maximumFractionDigits := Some 0%nat;
     nf_notation := None; nf_compactDisplay := None |}.

Definition nf_compact : NumberFormatOptions :=
  {| nf_style := None; nf_currency := None; nf_minimumFractionDigits := None;
     nf_maximumFractionDigits := None; nf_notation := Some "compact";
     nf_compactDisplay := Some "short" |}.

Definition files : list string :=
  [ "summary_stats.json"; "ministry_funding.json"; "geographic_distribution.json";
    "temporal_trends.json"; "top_recipients.json"; "topic_analysis.json";
    "duration_analysis.json"; "funding_types.json"; "joint_projects.json";
    "projekttraeger.json"; "keyword_trends.json"; "entity_trends.json";
    "funding_forecast.json" ].

Definition error_panel : html :=
  Markup "<h2>Error Loading Data</h2><p>Please make sure the data files are in the web/data/ folder.</p>".

Definition no_international_data : html :=
  Markup "<p>No international funding data available</p>".

Definition nth_result (results : list value) (i : nat) : value :=
  default VUndef (results !! i).

(** [fetch(url)] followed by [res.json()]: the request is issued, the
    answer is the parsed document, or nothing when the request fails, the
    status is not ok or the body does not parse. *)
Definition fetch (url : string) : M (option value) := fun s =>
  (Ret (network s url), set_requests (requests s ++ [url])%list s).

Fixpoint fetch_all (fs : list string) : M (list (option value)) :=
  match fs with
  | [] => mret []
  | f :: fs' => r ← fetch ("data/" ++ f); rs ← fetch_all fs'; mret (r :: rs)
  end.

(** [await Promise.all(promises)]: the results in the order of the files,
    or the rejection of a promise that failed. *)
Fixpoint promise_all (fs : list string) (rs : list (option value)) : outcome (list value) :=
  match fs, rs with
  | f :: fs', Some v :: rs' => vs ← promise_all fs' rs'; Ret (v :: vs)
  | f :: _, None :: _ => Throw ("Failed to load " ++ f)
  | _, _ => Ret []
  end.

(** ** Stand-ins for the platform

    Used where the script is run on concrete documents: numbers are shown
    rounded to whole numbers without grouping, a date by its source text.
    In the argument of a handler an escaped quote or backslash is read back
    as that character; a double quote (the end of the attribute), a quote or
    backslash that is not escaped, an ampersand and a line break leave no
    call to make. *)

Definition plain_NumberFormat (locale : string) (o : NumberFormatOptions) (v : value)
  : string :=
  match v with
  | VNum (Fin q) =>
      pretty (round_scaled q 0) ++
      match nf_style o with
      | Some _ => " €"
      | None => EmptyString
      end
  | _ => "NaN"
  end.

Definition plain_Date (v : value) : string :=
  match v with
  | VStr s => s
  | _ => "Invalid Date"
  end.

Fixpoint plain_argument (s : string) : option string :=
  match s with
  | EmptyString => Some EmptyString
  | String c s' =>
      if Ascii.eqb c "\"%char then
        match s' with
        | String d s'' =>
            if Ascii.eqb d "'"%char || Ascii.eqb d "\"%char
            then String d <$> plain_argument s'' else None
        | EmptyString => None
        end
      else if Ascii.eqb c "'"%char || Ascii.eqb c (ascii_of_nat 34)
              || Ascii.eqb c "&"%char || Ascii.eqb c (ascii_of_nat 10)
              || Ascii.eqb c (ascii_of_nat 13)
      then None
      else String c <$> plain_argument s'
  end.

(** ** The aggregation engine *)

Module Aggregation.

(** Modelled from the spec: the aggregation engine ([analyze_funding.py])
    is not among the sources.  The identity of a recipient is a name or the
    anonymization sentinel, which stands for a group of recipients. *)
Inductive recipient_identity :=
| Named (name : string)
| AnonymizedGroup.

(** Modelled from the spec: a record carries the logical fields of the data
    model (ingestion is missing from the sources); a field that failed to
    parse is absent, and the record is kept for the fields that did
    parse. *)
Record FundingRecord := {
  ministry_code : option string;
  sponsor_code : option string;
  recipient_name : recipient_identity;
  topic_code : option string;
  amount : option Q;
  start_year : option Z;
  location_state : option string;
  funding_type : option string;
  is_joint_project : bool
}.

(** Modelled from the spec: the metrics of one group of an aggregation
    result (the passes are missing from the sources), the sum of the amounts
    and the count. *)
Record metrics := { total_funding : Q; project_count : nat }.

(** Modelled from the spec: what a record adds to a sum (the summing code is
    missing); a record with an unparseable amount is excluded from the
    sums. *)
Definition amount_of (r : FundingRecord) : Q := default 0%Q (amount r).

Section Pass.
Context {K : Type} `{EqDecision K}.

(** Modelled from the spec: one record added to the group of its key (the
    grouping code is missing), a new group when the key is new. *)
Fixpoint add_to_group (k : K) (a : Q) (groups : list (K * metrics))
  : list (K * metrics) :=
  match groups with
  | [] => [(k, {| total_funding := a; project_count := 1 |})]
  | (k', m) :: groups' =>
      if decide (k = k') then
        (k', {| total_funding := total_funding m + a;
                project_count := S (project_count m) |}) :: groups'
      else (k', m) :: add_to_group k a groups'
  end.

(** Modelled from the spec: a grouping pass (the passes are missing from
    the sources) maps each grouping key to the sum of the amounts and the
    count of the records with that key.  [key] gets the row number too
    (anonymized rows are kept distinct per row); a record whose grouping
    field did not parse has no key and is in no group of the pass. *)
Fixpoint pass_from (key : nat -> FundingRecord -> option K) (row : nat)
    (records : list FundingRecord) (groups : list (K * metrics))
  : list (K * metrics) :=
  match records with
  | [] => groups
  | r :: records' =>
      pass_from key (S row) records'
        match key row r with
        | Some k => add_to_group k (amount_of r) groups
        | None => groups
        end
  end.

(** Modelled from the spec: the output document of a pass (missing from the
    sources), its groups in order of first appearance. *)
Definition grouping_pass (key : nat -> FundingRecord -> option K)
    (records : list FundingRecord) : list (K * metrics) :=
  pass_from key 0 records [].

(** Modelled from the spec: the sums over the groups of an output document
    that conservation speaks of (no code of the sources computes them). *)
Definition sum_funding (groups : list (K * metrics)) : Q :=
  foldr (fun g acc => (total_funding (snd g) + acc)%Q) 0%Q groups.

Definition sum_count (groups : list (K * metrics)) : nat :=
  foldr (fun g acc => (project_count (snd g) + acc)%nat) 0%nat groups.
End Pass.

(** Modelled from the spec: the grand totals of [summary_stats] (the code
    that writes the summary is missing): the sum of the parsed amounts and
    the number of records. *)
Definition grand_total (records : list FundingRecord) : Q :=
  foldr (fun r acc => (amount_of r + acc)%Q) 0%Q records.


Definition by_state (row : nat) (r : FundingRecord) : option string := location_state r.
Definition by_joint (row : nat) (r : FundingRecord) : option bool :=
  Some (is_joint_project r).
Definition by_recipient (row : nat) (r : FundingRecord) : option (string + nat) :=
  Some match recipient_name r with
       | Named name => inl name
       | AnonymizedGroup => inr row
       end.

(** Three records with every grouping field in place, two of them
    anonymized, and one record whose start date did not parse. *)
Definition sample : list FundingRecord :=
  [ {| ministry_code := Some "BMFTR"; sponsor_code := Some "PT-J";
       recipient_name := AnonymizedGroup; topic_code := Some "EA";
       amount := Some (123456 # 100); start_year := Some 2019%Z;
       location_state := Some "Bayern"; funding_type := Some "Zuwendung";
       is_joint_project := true |};
    {| ministry_code := Some "BMWE"; sponsor_code := Some "PT-J";
       recipient_name := AnonymizedGroup; topic_code := Some "EA";
       amount := Some 500%Q; start_year := Some 2019%Z;
       location_state := Some "Berlin"; funding_type := Some "Zuwendung";
       is_joint_project := false |};
    {| ministry_code := Some "BMFTR"; sponsor_code := Some "DLR";
       recipient_name := Named "Fraunhofer"; topic_code := Some "KA";
       amount := None; start_year := Some 2020%Z;
       location_state := Some "Bayern"; funding_type := Some "Auftrag";
       is_joint_project := false |} ].


End Aggregation.

(** ** A small set of documents

    The documents of a run over a handful of records, used to run the
    script. *)

Module Sample.

Definition trend (projects funding : Z) : value :=
  VObj [ ("total_projects", int projects); ("total_funding", int funding);
         ("yearly", VArr [ VObj [ ("year", int 2024); ("funding", int funding);
                                  ("projects", int projects) ] ]) ].

Definition group (key name : string) (funding projects : Z) : value :=
  VObj [ (key, VStr name); ("total_funding", int funding);
         ("project_count", int projects) ].

Definition year_entry (year funding projects : Z) : value :=
  VObj [ ("year", int year); ("total_funding", int funding);
         ("project_count", int projects) ].

Definition forecast_entry_with (approved_key : string)
    (year predicted lower upper approved : Z) : value :=
  VObj [ ("year", int year); ("predicted_funding", int predicted);
         ("lower_bound", int lower); ("upper_bound", int upper);
         (approved_key, int approved); ("approved_projects", int 3) ].

Definition forecast_entry : Z -> Z -> Z -> Z -> Z -> value :=
  forecast_entry_with "approved_funding".

Definition summary_props : list (string * value) :=
  [ ("generated_at", VStr "2025-12-10T11:44:00");
    ("total_funding", int 125000000000); ("total_projects", int 317000);
    ("unique_recipients", int 42001);
    ("highlights", VObj [ ("avg_project_funding", int 394321) ]) ].

Definition summary : value := VObj summary_props.

Definition ministry : value :=
  VObj [ ("ministries", VArr [ group "code" "BMFTR" 90000000000 200000;
                               group "code" "BMWE" 35000000000 117000 ]) ].

Definition geographic_props : list (string * value) :=
  [ ("states", VArr [ group "name" "Bayern" 20000000000 50000;
                      group "name" "Berlin" 15000000000 40000 ]);
    ("top_cities", VArr [ group "city" "Berlin" 15000000000 40000 ]);
    ("international", VObj [ ("countries", VArr []) ]) ].

Definition geographic : value := VObj geographic_props.

Definition temporal_props : list (string * value) :=
  [ ("yearly_totals", VArr [ year_entry 1999 1000 10; year_entry 2010 2000 20;
                             year_entry 2016 3000 30; year_entry 2024 4000 40;
                             year_entry 2025 5000 50 ]);
    ("monthly_distribution", VArr []);
    ("decade_ministry_share",
     VObj [ ("2010", VArr [ VObj [ ("ministry", VStr "BMFTR");
                                   ("share_pct", num (605 # 10)) ];
                            VObj [ ("ministry", VStr "BMWE");
                                   ("share_pct", num (395 # 10)) ] ]) ]) ].

Definition temporal : value := VObj temporal_props.

Definition recipients : value :=
  VObj [ ("top_by_funding", VArr [ group "name" "Fraunhofer" 9000000000 12000 ]);
         ("top_by_count", VArr [ group "name" "Fraunhofer" 9000000000 12000 ]) ].

Definition topics : value :=
  VObj [ ("classifications",
          VArr [ VObj [ ("code", VStr "EA"); ("description", VStr "Energie");
                        ("total_funding", int 7000000000); ("project_count", int 9000) ] ]);
         ("keywords", VArr [ VObj [ ("word", VStr "energie"); ("count", int 120) ];
                             VObj [ ("word", VStr "wasser"); ("count", int 30) ] ]) ].

Definition duration : value :=
  VObj [ ("distribution", VArr [ VObj [ ("range", VStr "0-12"); ("count", int 1200) ] ]) ].

Definition fundingTypes : value :=
  VObj [ ("funding_types", VArr [ group "name" "Zuwendung" 100000000000 300000 ]);
         ("funding_profiles", VArr [ group "name" "Forschung" 80000000000 250000 ]) ].

Definition jointProjects : value :=
  VObj [ ("summary", VObj [ ("joint_funding", int 60000000000);
                            ("individual_funding", int 65000000000);
                            ("joint_project_count", int 150000);
                            ("individual_project_count", int 167000) ]) ].

Definition projekttraeger : value :=
  VObj [ ("projekttraeger", VArr [ group "code" "PT-J" 30000000000 80000 ]) ].

Definition keywordTrends : value :=
  VObj [ ("keywords", VObj [ ("energie", trend 120 500000000) ]) ].

Definition entityTrends_props : list (string * value) :=
  [ ("states", VObj [ ("Bayern", trend 50000 20000000000) ]);
    ("cities", VObj [ ("Berlin", trend 40000 15000000000) ]);
    ("recipients", VObj [ ("Fraunhofer", trend 12000 9000000000) ]) ].

Definition entityTrends : value := VObj entityTrends_props.

Definition forecast_props : list (string * value) :=
  [ ("current_year", int 2025);
    ("forecast", VArr [ forecast_entry 2026 5200 4800 5600 700;
                        forecast_entry 2027 5400 4700 6100 0 ]) ].

Definition forecast : value := VObj forecast_props.

(** A forecast for years without any approved funding yet. *)
Definition forecast_unapproved_props : list (string * value) :=
  [ ("current_year", int 2025);
    ("forecast", VArr [ forecast_entry 2026 5200 4800 5600 0;
                        forecast_entry 2027 5400 4700 6100 0 ]) ].

Definition forecast_unapproved : value := VObj forecast_unapproved_props.

(** The same forecast from a run that calls the field [approved]. *)
Definition forecast_renamed_props : list (string * value) :=
  [ ("current_year", int 2025);
    ("forecast", VArr [ forecast_entry_with "approved" 2026 5200 4800 5600 0;
                        forecast_entry_with "approved" 2027 5400 4700 6100 0 ]) ].

Definition documents : list (string * value) :=
  [ ("data/summary_stats.json", summary); ("data/ministry_funding.json", ministry);
    ("data/geographic_distribution.json", geographic);
    ("data/temporal_trends.json", temporal); ("data/top_recipients.json", recipients);
    ("data/topic_analysis.json", topics); ("data/duration_analysis.json", duration);
    ("data/funding_types.json", fundingTypes);
    ("data/joint_projects.json", jointProjects);
    ("data/projekttraeger.json", projekttraeger);
    ("data/keyword_trends.json", keywordTrends);
    ("data/entity_trends.json", entityTrends);
    ("data/funding_forecast.json", forecast) ].

(** A server that has every document, and one that lacks one of them. *)
Definition server (url : string) : option value := lookup_prop url documents.

Definition server_without (missing : string) (url : string) : option value :=
  if String.eqb url missing then None else server url.

(** The page before [loadData], over a given network. *)
Definition page (net : string -> option value) : state :=
  {| globalData := VObj []; charts := ∅; drilldownChart := None; canvas := ∅;
     textContent := ∅; innerHTML := ∅; display := ∅; console := [];
     network := net; requests := [] |}.

(** The page with the documents in place. *)
Definition loaded : state :=
  set_globalData
    (VObj [ ("summary", summary); ("ministry", ministry); ("geographic", geographic);
            ("temporal", temporal); ("recipients", recipients); ("topics", topics);
            ("duration", duration); ("fundingTypes", fundingTypes);
            ("jointProjects", jointProjects); ("projekttraeger", projekttraeger);
            ("keywordTrends", keywordTrends); ("entityTrends", entityTrends);
            ("forecast", forecast) ])
    (page server).

End Sample.

Section Dashboard.

(** [new Intl.NumberFormat(locale, options).format(v)] *)
Variable Intl_NumberFormat : string -> NumberFormatOptions -> value -> string.

(** The text [updateLastUpdate] builds from [new Date(v)]: day, month
    name, year and time of day. *)
Variable Date_describe : value -> string.

(** What the browser makes of the text the script writes between the
    quotes of [onclick="show...Trends('...')"]: the argument of the call,
    or nothing when the markup does not read as such a call. *)
Variable handler_argument : string -> option string.

#[local] Set Default Proof Using "Type".

(** *** Utility functions *)

Definition formatCurrency (v : value) (compact : bool) : outcome string :=
  if compact then
    b ← ge_num v (Fin (e10 12));
    if b : bool then q ← div_num v (e10 12); t ← toFixed q 1; Ret ("€" ++ t ++ "T") else
    b ← ge_num v (Fin (e10 9));
    if b : bool then q ← div_num v (e10 9); t ← toFixed q 1; Ret ("€" ++ t ++ "B") else
    b ← ge_num v (Fin (e10 6));
    if b : bool then q ← div_num v (e10 6); t ← toFixed q 1; Ret ("€" ++ t ++ "M") else
    b ← ge_num v (Fin (e10 3));
    if b : bool then q ← div_num v (e10 3); t ← toFixed q 0; Ret ("€" ++ t ++ "K") else
    t ← call_toFixed v 0; Ret ("€" ++ t)
  else Ret (Intl_NumberFormat "de-DE" nf_euro v).

Definition formatNumber (v : value) (compact : bool) : outcome string :=
  if compact then
    b ← ge_num v (Fin (e10 3));
    Ret (Intl_NumberFormat "de-DE" (if b : bool then nf_compact else nf_default) v)
  else Ret (Intl_NumberFormat "de-DE" nf_default v).

Definition truncateLabel (label : value) (maxLength : nat) : outcome value :=
  if negb (truthy label) then Ret (VStr EmptyString)
  else
    len ← get label "length";
    b ← gt_num len (Fin (inject_Z (Z.of_nat maxLength)));
    if b : bool then
      match label with
      | VStr s => Ret (VStr (substring 0 maxLength s ++ "..."))
      | _ => TypeError
      end
    else Ret label.

(** *** Overview cards *)

Definition updateOverviewCards : M unit :=
  summary ← document_of "summary";
  t ← lift (v ← get summary "total_funding"; formatCurrency v true);
  setTextContent "totalFunding" t;;
  t ← lift (v ← get summary "total_projects"; formatNumber v false);
  setTextContent "totalProjects" t;;
  t ← lift (v ← get summary "unique_recipients"; n ← sub_num v 1;
            formatNumber (VNum n) false);
  setTextContent "uniqueRecipients" (t ++ "+");;
  t ← lift (h ← get summary "highlights"; v ← get h "avg_project_funding";
            formatCurrency v true);
  setTextContent "avgFunding" t.

Definition updateLastUpdate : M unit :=
  summary ← document_of "summary";
  v ← lift (get summary "generated_at");
  let formatted := Date_describe v in
  setTextContent "lastUpdate" ("Updated: " ++ formatted);;
  setTextContent "footerUpdate" formatted.

(** *** Charts over one list of entries *)

Definition bar (labels : list value) (label : string) (data : list value) : chart :=
  {| ch_type := "bar"; ch_labels := labels;
     ch_datasets := [ {| ds_label := VStr label; ds_data := data |} ] |}.

Definition createMinistryChart : M unit :=
  ministry ← document_of "ministry";
  cfg ← lift (data ← get ministry "ministries";
              labels ← map_field data "code";
              totals ← map_field data "total_funding";
              Ret (bar labels "Total Funding" totals));
  newChart "ministry" "ministryChart" cfg.

Definition createInternationalChart : M unit :=
  geographic ← document_of "geographic";
  intlData ← lift (get geographic "international");
  empty ← lift (if negb (truthy intlData) then Ret true else
                countries ← get intlData "countries";
                if negb (truthy countries) then Ret true else
                len ← get countries "length";
                strict_eq len (int 0));
  if empty : bool then
    setInnerHTML "internationalChart.parentElement" no_international_data
  else
    cfg ← lift (countries ← get intlData "countries";
                data ← slice_to 15 countries;
                labels ← pluck "name" data;
                totals ← pluck "total_funding" data;
                Ret (bar labels "Total Funding" totals));
    newChart "international" "internationalChart" cfg.

(** The entries [createGeoChart] plots: the first sixteen states, in per
    capita mode those with a per capita figure, largest first. *)
Definition geoData (mode : string) (states : value) : outcome (list value) :=
  rawData ← slice_to 16 states;
  if String.eqb mode "percapita" then
    kept ← filterO (fun d => v ← get d "per_capita_funding"; Ret (truthy v)) rawData;
    keyed ← mapO (fun d => v ← get d "per_capita_funding"; n ← to_number v;
                           match n with
                           | Fin q => Ret (q, d)
                           | NaN => Unmodelled
                           end) kept;
    Ret (map snd (sort_desc keyed))
  else Ret rawData.

Definition createGeoChart (mode : string) : M unit :=
  geographic ← document_of "geographic";
  data ← lift (states ← get geographic "states"; geoData mode states);
  destroyChart "geo" "geoChart";;
  cfg ← lift (chartData ← pluck (if String.eqb mode "percapita"
                                 then "per_capita_funding" else "total_funding") data;
              labels ← pluck "name" data;
              Ret (bar labels (if String.eqb mode "percapita"
                               then "Per Capita Funding (€)" else "Total Funding")
                       chartData));
  newChart "geo" "geoChart" cfg.

Definition createCityChart : M unit :=
  geographic ← document_of "geographic";
  cfg ← lift (cities ← get geographic "top_cities";
              data ← slice_to 15 cities;
              labels ← pluck "city" data;
              totals ← pluck "total_funding" data;
              Ret (bar labels "Funding" totals));
  newChart "city" "cityChart" cfg.

Definition createRecipientChart : M unit :=
  recipients ← document_of "recipients";
  cfg ← lift (top ← get recipients "top_by_funding";
              data ← slice_to 10 top;
              labels ← mapO (fun d => n ← get d "name"; truncateLabel n 30) data;
              totals ← pluck "total_funding" data;
              Ret (bar labels "Total Funding" totals));
  newChart "recipient" "recipientChart" cfg.

Definition createFundingTypeChart : M unit :=
  fundingTypes ← document_of "fundingTypes";
  cfg ← lift (types ← get fundingTypes "funding_types";
              data ← slice_to 5 types;
              labels ← mapO (fun d => n ← get d "name"; truncateLabel n 25) data;
              totals ← pluck "total_funding" data;
              Ret {| ch_type := "doughnut"; ch_labels := labels;
                     ch_datasets := [ {| ds_label := VUndef; ds_data := totals |} ] |});
  newChart "fundingType" "fundingTypeChart" cfg.

Definition createDurationChart : M unit :=
  duration ← document_of "duration";
  cfg ← lift (data ← get duration "distribution";
              labels ← map_field data "range";
              counts ← map_field data "count";
              Ret (bar labels "Projects" counts));
  newChart "duration" "durationChart" cfg.

Definition createTopicChart : M unit :=
  topics ← document_of "topics";
  cfg ← lift (classifications ← get topics "classifications";
              data ← slice_to 10 classifications;
              labels ← mapO (fun d => desc ← get d "description";
                                      l ← (if truthy desc then Ret desc else get d "code");
                                      truncateLabel l 40) data;
              totals ← pluck "total_funding" data;
              Ret (bar labels "Funding" totals));
  newChart "topic" "topicChart" cfg.

Definition createJointChart : M unit :=
  jointProjects ← document_of "jointProjects";
  cfg ← lift (data ← get jointProjects "summary";
              joint ← get data "joint_funding";
              individual ← get data "individual_funding";
              Ret {| ch_type := "pie";
                     ch_labels := [VStr "Verbundprojekt (Joint)"; VStr "Individual Projects"];
                     ch_datasets := [ {| ds_label := VUndef;
                                         ds_data := [joint; individual] |} ] |});
  newChart "joint" "jointChart" cfg.

Definition createProjekttraegerChart : M unit :=
  projekttraeger ← document_of "projekttraeger";
  cfg ← lift (sponsors ← get projekttraeger "projekttraeger";
              data ← slice_to 12 sponsors;
              labels ← pluck "code" data;
              totals ← pluck "total_funding" data;
              Ret (bar labels "Total Funding" totals));
  newChart "projekttraeger" "projekttraegerChart" cfg.

Definition createFoerderprofilChart : M unit :=
  fundingTypes ← document_of "fundingTypes";
  cfg ← lift (profiles ← get fundingTypes "funding_profiles";
              data ← slice_to 6 profiles;
              labels ← mapO (fun d => n ← get d "name"; truncateLabel n 30) data;
              totals ← pluck "total_funding" data;
              Ret {| ch_type := "doughnut"; ch_labels := labels;
                     ch_datasets := [ {| ds_label := VUndef; ds_data := totals |} ] |});
  newChart "foerderprofil" "foerderprofilChart" cfg.

(** *** Temporal charts *)

Definition currentYear : Q := 2025.

(** The entries [createTemporalChart] keeps for a range. *)
Definition temporalData (range : string) (yearly_totals : value) : outcome value :=
  if String.eqb range "recent" then
    l ← as_array yearly_totals;
    VArr <$> filterO (fun d => y ← get d "year"; ge_num y (Fin (currentYear - 20))) l
  else if String.eqb range "decade" then
    l ← as_array yearly_totals;
    VArr <$> filterO (fun d => y ← get d "year"; ge_num y (Fin (currentYear - 10))) l
  else Ret yearly_totals.

Definition nulls {A} (l : list A) : list value := map (fun _ => VNull) l.

(** [a <= b] between two values. *)
Definition le_values (a b : value) : outcome bool :=
  match a, b with
  | VStr _, VStr _ => Unmodelled
  | _, _ => m ← to_number b; le_num a m
  end.

(** The last ten years of history up to [current_year]. *)
Definition recentHistoryOf (historicalData cy : value) : outcome (list value) :=
  l ← as_array historicalData;
  filterO (fun d => y ← get d "year";
                    lo ← sub_num cy 10;
                    b ← ge_num y lo;
                    if b : bool then y' ← get d "year"; le_values y' cy
                    else Ret false) l.

(** [recentHistory[recentHistory.length - 1]?.total_funding || 0] *)
Definition lastHistoricalValueOf (recentHistory : list value) : outcome value :=
  v ← get_opt (default VUndef (last recentHistory)) "total_funding";
  Ret (or_else v (int 0)).

Definition forecastConfig (forecast temporal : value) : outcome chart :=
  historicalData ← get temporal "yearly_totals";
  cy ← get forecast "current_year";
  recentHistory ← recentHistoryOf historicalData cy;
  forecastData ← get forecast "forecast";
  historyYears ← pluck "year" recentHistory;
  forecastYears ← map_field forecastData "year";
  let allYears := (historyYears ++ forecastYears)%list in
  history ← pluck "total_funding" recentHistory;
  fd ← as_array forecastData;
  let historicalFunding := (history ++ nulls fd)%list in
  lastHistoricalValue ← lastHistoricalValueOf recentHistory;
  let lead := nulls (take (length recentHistory - 1) recentHistory) in
  predicted ← map_field forecastData "predicted_funding";
  let predictedFunding := (lead ++ [lastHistoricalValue] ++ predicted)%list in
  upper ← map_field forecastData "upper_bound";
  let upperBound := (lead ++ [lastHistoricalValue] ++ upper)%list in
  lower ← map_field forecastData "lower_bound";
  let lowerBound := (lead ++ [lastHistoricalValue] ++ lower)%list in
  approved ← mapO (fun d => v ← get d "approved_funding"; Ret (or_else v VNull)) fd;
  let approvedFunding := (nulls recentHistory ++ approved)%list in
  Ret {| ch_type := "line"; ch_labels := allYears;
         ch_datasets :=
           [ {| ds_label := VStr "Historical Funding"; ds_data := historicalFunding |};
             {| ds_label := VStr "Forecast (Prophet ML)"; ds_data := predictedFunding |};
             {| ds_label := VStr "80% Confidence Upper"; ds_data := upperBound |};
             {| ds_label := VStr "80% Confidence Lower"; ds_data := lowerBound |};
             {| ds_label := VStr "Already Approved"; ds_data := approvedFunding |} ] |}.

Definition createForecastChart : M unit :=
  forecast ← document_of "forecast";
  temporal ← document_of "temporal";
  cfg ← lift (forecastConfig forecast temporal);
  newChart "temporal" "temporalChart" cfg.

Definition createTemporalChart (range : string) : M unit :=
  destroyChart "temporal" "temporalChart";;
  if String.eqb range "forecast" then createForecastChart
  else
    temporal ← document_of "temporal";
    cfg ← lift (yearly ← get temporal "yearly_totals";
                data ← temporalData range yearly;
                labels ← map_field data "year";
                totals ← map_field data "total_funding";
                counts ← map_field data "project_count";
                Ret {| ch_type := "line"; ch_labels := labels;
                       ch_datasets :=
                         [ {| ds_label := VStr "Total Funding (€)"; ds_data := totals |};
                           {| ds_label := VStr "Project Count"; ds_data := counts |} ] |});
    newChart "temporal" "temporalChart" cfg.

Definition createMonthlyChart : M unit :=
  temporal ← document_of "temporal";
  md ← lift (get temporal "monthly_distribution");
  let data := or_else md (VArr []) in
  empty ← lift (len ← get data "length"; strict_eq len (int 0));
  if empty : bool then console_log "No monthly data available"
  else
    cfg ← lift (labels ← map_field data "month_name";
                counts ← map_field data "project_count";
                totals ← map_field data "total_funding";
                Ret {| ch_type := "bar"; ch_labels := labels;
                       ch_datasets :=
                         [ {| ds_label := VStr "Projects"; ds_data := counts |};
                           {| ds_label := VStr "Funding (€)"; ds_data := totals |} ] |});
    newChart "monthly" "monthlyChart" cfg.

(** [allMinistries.add(v)] on the insertion-ordered [Set]. *)
Fixpoint set_add (v : value) (set : list value) : outcome (list value) :=
  match set with
  | [] => Ret [v]
  | w :: set' =>
      b ← same_value_zero w v;
      if b : bool then Ret set else rest ← set_add v set'; Ret (w :: rest)
  end.

Fixpoint add_ministries (entries : list value) (set : list value) : outcome (list value) :=
  match entries with
  | [] => Ret set
  | entry :: entries' =>
      m ← get entry "ministry"; set' ← set_add m set; add_ministries entries' set'
  end.

Fixpoint collect_ministries (decades : list value) (set : list value) : outcome (list value) :=
  match decades with
  | [] => Ret set
  | entries :: decades' =>
      l ← as_array entries; set' ← add_ministries l set; collect_ministries decades' set'
  end.

(** The share of [ministry] in [decade], [0] when the decade has no entry
    for it. *)
Definition decadeShare (decadeData ministry : value) (decade : string) : outcome value :=
  info ← get decadeData decade;
  l ← as_array (or_else info (VArr []));
  ministryInfo ← findO (fun m => v ← get m "ministry"; strict_eq v ministry) l;
  if truthy ministryInfo then get ministryInfo "share_pct" else Ret (int 0).

Definition decadeMinistryConfig (temporal : value) : outcome chart :=
  share ← get temporal "decade_ministry_share";
  let decadeData := or_else share (VObj []) in
  entries ← object_entries decadeData;
  let decades := sort_strings (map fst entries) in
  ministries ← collect_ministries (map snd entries) [];
  datasets ← mapO (fun ministry =>
                     data ← mapO (decadeShare decadeData ministry) decades;
                     Ret {| ds_label := ministry; ds_data := data |}) ministries;
  Ret {| ch_type := "bar";
         ch_labels := map (fun d => VStr (d ++ "s")) decades;
         ch_datasets := datasets |}.

Definition createDecadeMinistryChart : M unit :=
  temporal ← document_of "temporal";
  cfg ← lift (decadeMinistryConfig temporal);
  newChart "decadeMinistry" "decadeMinistryChart" cfg.

(** *** Keyword cloud and recipients table *)

(** The literals [0.7], [0.4] and [0.2] are the binary64 numbers nearest
    to these fractions. *)
Definition sizeClass (ratio : number) : string :=
  match ratio with
  | Fin r =>
      if Qlt_bool (binary64 (7 # 10)) r then "keyword-xlarge"
      else if Qlt_bool (binary64 (4 # 10)) r then "keyword-large"
      else if Qlt_bool (binary64 (2 # 10)) r then "keyword-medium"
      else "keyword-small"
  | NaN => "keyword-small"
  end.

Definition keywordTag (keywordTrends : value) (maxCount : number) (keyword : value)
  : outcome keyword_tag :=
  count ← get keyword "count";
  ratio ← div_values count maxCount;
  word ← get keyword "word";
  known ← get_opt keywordTrends "keywords";
  hasTrends ← get_opt_at known word;
  clickAttr ← (if truthy hasTrends then w ← to_string word; Ret (Some w)
               else Ret None);
  matches ← to_string count;
  text ← to_string word;
  Ret {| kw_class := sizeClass ratio;
         kw_onclick := clickAttr;
         kw_title := matches ++ (if truthy hasTrends
                                 then " word matches - Click to see related projects"
                                 else " word matches");
         kw_word := text |}.

Definition createKeywordsCloud : M unit :=
  topics ← document_of "topics";
  keywords ← lift (all ← get topics "keywords"; slice_to 50 all);
  counts ← lift (pluck "count" keywords);
  keywordTrends ← document_of "keywordTrends";
  tags ← lift match keywords with
              | [] => Ret []
              | _ => maxCount ← math_max counts;
                     mapO (keywordTag keywordTrends maxCount) keywords
              end;
  setInnerHTML "keywordsCloud" (KeywordTags tags).

Definition recipientRow (entityTrends : value) (index : nat) (recipient : value)
  : outcome table_row :=
  name ← get recipient "name";
  known ← get_opt entityTrends "recipients";
  hasTrends ← get_opt_at known name;
  clickAttr ← (if truthy hasTrends then
                 match name with
                 | VStr s => Ret (Some (escape_quotes s))
                 | _ => TypeError
                 end
               else Ret None);
  titleAttr ← (if truthy hasTrends then Ret "Click to see funding trends"
               else to_string name);
  label ← truncateLabel name 50;
  cell ← to_string label;
  total ← get recipient "total_funding";
  funding ← formatCurrency total false;
  count ← get recipient "project_count";
  projects ← formatNumber count false;
  avg ← get recipient "avg_funding";
  average ← (if truthy avg then formatCurrency avg false
             else n ← to_number count; q ← div_values total n;
                  formatCurrency (VNum q) false);
  Ret {| row_onclick := clickAttr; row_title := titleAttr; row_rank := S index;
         row_name := cell; row_funding := funding; row_projects := projects;
         row_average := average |}.

Fixpoint recipientRows (entityTrends : value) (index : nat) (data : list value)
  : outcome (list table_row) :=
  match data with
  | [] => Ret []
  | recipient :: data' =>
      row ← recipientRow entityTrends index recipient;
      rows ← recipientRows entityTrends (S index) data';
      Ret (row :: rows)
  end.

Definition populateRecipientsTable (sortBy : string) : M unit :=
  recipients ← document_of "recipients";
  data ← lift (top ← get recipients (if String.eqb sortBy "funding"
                                     then "top_by_funding" else "top_by_count");
               slice_to 20 top);
  entityTrends ← document_of "entityTrends";
  rows ← lift (recipientRows entityTrends 0 data);
  setInnerHTML "recipientTable.tbody" (TableRows rows).

(** *** Drill-down modal *)

(** The entry, title and subtitle [showDrilldown] selects for a type, or
    nothing for a type it does not know. *)
Definition drilldownSelect (type name : string) : M (option (value * string * string)) :=
  if String.eqb type "keyword" then
    trends ← document_of "keywordTrends";
    data ← lift (known ← get_opt trends "keywords"; get_opt known name);
    mret (Some (data, dquote ++ name ++ dquote,
                "Projects containing this keyword (includes compound words)"))
  else if String.eqb type "state" then
    trends ← document_of "entityTrends";
    data ← lift (known ← get_opt trends "states"; get_opt known name);
    mret (Some (data, name, "State funding trends over time"))
  else if String.eqb type "city" then
    trends ← document_of "entityTrends";
    data ← lift (known ← get_opt trends "cities"; get_opt known name);
    suffix ← lift (st ← get_opt data "state";
                   if truthy st then t ← to_key st; Ret (" (" ++ t ++ ")")
                   else Ret EmptyString);
    mret (Some (data, name ++ suffix, "City funding trends over time"))
  else if String.eqb type "recipient" then
    trends ← document_of "entityTrends";
    data ← lift (known ← get_opt trends "recipients"; get_opt known name);
    mret (Some (data,
                if (50 <? String.length name)%nat then substring 0 47 name ++ "..." else name,
                "Recipient funding trends over time"))
  else mret None.

Definition drilldownConfig (data : value) : outcome chart :=
  yearly ← get data "yearly";
  labels ← map_field yearly "year";
  funding ← map_field yearly "funding";
  projects ← map_field yearly "projects";
  Ret {| ch_type := "bar"; ch_labels := labels;
         ch_datasets := [ {| ds_label := VStr "Funding (€)"; ds_data := funding |};
                          {| ds_label := VStr "Projects"; ds_data := projects |} ] |}.

(** The part of [showDrilldown] after the entry is found. *)
Definition presentDrilldown (data : value) (title subtitle : string) : M unit :=
  setTextContent "modalTitle" title;;
  setTextContent "modalSubtitle" subtitle;;
  t ← lift (v ← get data "total_projects"; formatNumber v false);
  setTextContent "modalTotalProjects" t;;
  t ← lift (v ← get data "total_funding"; formatCurrency v true);
  setTextContent "modalTotalFunding" t;;
  setDisplay "drilldownModal" "flex";;
  modify (fun s => match drilldownChart s with
                   | Some _ => set_canvas (delete "drilldownChart" (canvas s)) s
                   | None => s
                   end);;
  cfg ← lift (drilldownConfig data);
  modify (fun s => set_drilldownChart (Some cfg)
                     (set_canvas (<["drilldownChart" := cfg]> (canvas s)) s)).

Definition showDrilldown (type name : string) : M unit :=
  sel ← drilldownSelect type name;
  match sel with
  | None => console_error ("Unknown drilldown type: " ++ type)
  | Some (data, title, subtitle) =>
      if negb (truthy data) then
        console_error ("No trend data for " ++ type ++ ": " ++ name)
      else presentDrilldown data title subtitle
  end.

Definition showKeywordTrends (keyword : string) : M unit := showDrilldown "keyword" keyword.
Definition showStateTrends (st : string) : M unit := showDrilldown "state" st.
Definition showCityTrends (city : string) : M unit := showDrilldown "city" city.
Definition showRecipientTrends (recipient : string) : M unit :=
  showDrilldown "recipient" recipient.

Definition closeModal : M unit :=
  setDisplay "drilldownModal" "none";;
  modify (fun s => match drilldownChart s with
                   | Some _ => set_drilldownChart None
                                 (set_canvas (delete "drilldownChart" (canvas s)) s)
                   | None => s
                   end).

(** *** Click handlers *)

(** A name taken from the data and handed to a [show...Trends] wrapper. *)
Definition as_string (v : value) : outcome string :=
  match v with
  | VStr s => Ret s
  | _ => Unmodelled
  end.

(** The [onClick] of a bar chart whose bars are the entries [data]:
    [elements] holds the indices of the bars under the pointer. *)
Definition barClick (kind field : string) (show : string -> M unit)
    (data : list value) (elements : list nat) : M unit :=
  match elements with
  | [] => mret tt
  | index :: _ =>
      name ← lift (get (default VUndef (data !! index)) field);
      trends ← document_of "entityTrends";
      hit ← lift (known ← get_opt trends kind; get_opt_at known name);
      if truthy hit then n ← lift (as_string name); show n else mret tt
  end.

Definition geoChart_onClick (mode : string) (data : list value) (elements : list nat)
  : M unit :=
  if String.eqb mode "total" then barClick "states" "name" showStateTrends data elements
  else mret tt.

Definition cityChart_onClick (data : list value) (elements : list nat) : M unit :=
  barClick "cities" "city" showCityTrends data elements.

(** A click on a row of the recipients table, on a tag of the cloud. *)
Definition handler_click (show : string -> M unit) (onclick : option string) : M unit :=
  match onclick with
  | Some text =>
      match handler_argument text with
      | Some argument => show argument
      | None => mret tt
      end
  | None => mret tt
  end.

Definition recipientRow_click (row : table_row) : M unit :=
  handler_click showRecipientTrends (row_onclick row).

Definition keywordTag_click (tag : keyword_tag) : M unit :=
  handler_click showKeywordTrends (kw_onclick tag).

(** *** Start-up *)

(** Registering the listeners of the buttons changes nothing by itself. *)
Definition initializeEventListeners : M unit := mret tt.

Definition initializeDashboard : M unit :=
  updateOverviewCards;;
  updateLastUpdate;;
  createTemporalChart "all";;
  createMonthlyChart;;
  createDecadeMinistryChart;;
  createMinistryChart;;
  createInternationalChart;;
  createGeoChart "total";;
  createCityChart;;
  createRecipientChart;;
  createFundingTypeChart;;
  createDurationChart;;
  createTopicChart;;
  createJointChart;;
  createProjekttraegerChart;;
  createFoerderprofilChart;;
  createKeywordsCloud;;
  populateRecipientsTable "funding";;
  initializeEventListeners.

Definition loadedData (results : list value) : value :=
  VObj [ ("summary", nth_result results 0);
         ("ministry", nth_result results 1);
         ("geographic", nth_result results 2);
         ("temporal", nth_result results 3);
         ("recipients", nth_result results 4);
         ("topics", nth_result results 5);
         ("duration", nth_result results 6);
         ("fundingTypes", nth_result results 7);
         ("jointProjects", nth_result results 8);
         ("projekttraeger", nth_result results 9);
         ("keywordTrends", nth_result results 10);
         ("entityTrends", nth_result results 11);
         ("forecast", nth_result results 12) ].

Definition loadData : M unit :=
  try_catch
    (answers ← fetch_all files;
     results ← lift (promise_all files answers);
     modify (set_globalData (loadedData results));;
     initializeDashboard)
    (fun _ =>
       console_error "Error loading data:";;
       setInnerHTML ".main-content" error_panel).

(** *** Shapes of documents the properties speak about *)



(** The property [k] of an entry that is an object. *)
Definition field (k : string) (d : value) : value :=
  match d with
  | VObj props => default (inherited k) (lookup_prop k props)
  | _ => VUndef
  end.

Definition is_object (d : value) : bool :=
  match d with
  | VObj _ => true
  | _ => false
  end.

(** The year of an entry that has a number as its [year]. *)
Definition year_of (d : value) : option Q :=
  match d with
  | VObj props =>
      match lookup_prop "year" props with
      | Some (VNum (Fin y)) => Some y
      | _ => None
      end
  | _ => None
  end.

Definition dated (d : value) : bool := bool_decide (is_Some (year_of d)).

(** [year >= c] *)
Definition year_from (c : Q) (d : value) : bool :=
  match year_of d with
  | Some y => Qle_bool c y
  | None => false
  end.

(** The chart [createTemporalChart] draws for the entries [data]. *)
Definition temporalChartOf (data : list value) : chart :=
  {| ch_type := "line"; ch_labels := map (field "year") data;
     ch_datasets :=
       [ {| ds_label := VStr "Total Funding (€)";
            ds_data := map (field "total_funding") data |};
         {| ds_label := VStr "Project Count";
            ds_data := map (field "project_count") data |} ] |}.

(** [lo <= year <= hi] *)
Definition year_within (lo hi : Q) (d : value) : bool :=
  match year_of d with
  | Some y => Qle_bool lo y && Qle_bool y hi
  | None => false
  end.

(** The value that joins the forecast to the history: the funding of the
    last year of the window, [0] when there is none. *)
Definition joint_value (recent : list value) : value :=
  or_else (field "total_funding" (default VUndef (last recent))) (int 0).

(** A forecast series: nothing over the history but for its last year. *)
Definition stitched (recent : list value) (series : list value) : list value :=
  (nulls (take (length recent - 1) recent) ++ [joint_value recent] ++ series)%list.

(** The chart [createForecastChart] draws for the window [recent] of the
    history and the forecast entries [fd]. *)
Definition forecastChartOf (recent fd : list value) : chart :=
  {| ch_type := "line";
     ch_labels := (map (field "year") recent ++ map (field "year") fd)%list;
     ch_datasets :=
       [ {| ds_label := VStr "Historical Funding";
            ds_data := (map (field "total_funding") recent ++ nulls fd)%list |};
         {| ds_label := VStr "Forecast (Prophet ML)";
            ds_data := stitched recent (map (field "predicted_funding") fd) |};
         {| ds_label := VStr "80% Confidence Upper";
            ds_data := stitched recent (map (field "upper_bound") fd) |};
         {| ds_label := VStr "80% Confidence Lower";
            ds_data := stitched recent (map (field "lower_bound") fd) |};
         {| ds_label := VStr "Already Approved";
            ds_data := (nulls recent
                        ++ map (fun d => or_else (field "approved_funding" d) VNull) fd)%list |} ] |}.

(** *** What a computation leaves alone, what it reads *)

(** [m] leaves the part [proj] of the state as it was. *)
Definition preserves {A X} (proj : state -> X) (m : M A) : Prop :=
  forall s, proj (snd (m s)) = proj s.

(** The addresses [loadData] asks for. *)
Definition urls : list string := map (String.append "data/") files.

(** *** Drill-down lookups *)

(** Where [showDrilldown] looks a name of a given type up: the document
    and the collection in it. *)
Definition trend_source (type : string) : option (string * string) :=
  if String.eqb type "keyword" then Some ("keywordTrends", "keywords")
  else if String.eqb type "state" then Some ("entityTrends", "states")
  else if String.eqb type "city" then Some ("entityTrends", "cities")
  else if String.eqb type "recipient" then Some ("entityTrends", "recipients")
  else None.

(** The entry under the key [name] of the collection [kind] of the
    document [doc] of [globalData]. *)
Definition entry_of (g : value) (doc kind name : string) : option value :=
  match field doc g with
  | VObj d =>
      match lookup_prop kind d with
      | Some (VObj known) => lookup_prop name known
      | _ => None
      end
  | _ => None
  end.

(** [name] is a key of the collection for [type]. *)
Definition is_key (g : value) (type name : string) : bool :=
  match trend_source type with
  | Some (doc, kind) => bool_decide (is_Some (entry_of g doc kind name))
  | None => false
  end.

(** The document holds the collection as an object, or not at all. *)
Definition keyed (trends : value) (kind : string) : bool :=
  match trends with
  | VUndef | VNull => true
  | VObj d =>
      match lookup_prop kind d with
      | None | Some VNull | Some (VObj _) => true
      | Some _ => false
      end
  | _ => false
  end.

(** The modal as the user sees it: shown or hidden, and its chart. *)
Definition modal (s : state) : gmap string string * option chart * gmap string chart :=
  (display s, drilldownChart s, canvas s).

(** The name of the bar a click hits. *)
Definition clicked (fld : string) (data : list value) (elements : list nat) : value :=
  match elements with
  | index :: _ => field fld (default VUndef (data !! index))
  | [] => VUndef
  end.

(** *** Renaming a field *)

Definition rename_prop (k k' : string) (props : list (string * value))
  : list (string * value) :=
  map (fun p => (if String.eqb (fst p) k then k' else fst p, snd p)) props.

(** The entry [d] with its field [k] renamed to [k']. *)
Definition rename_field (k k' : string) (d : value) : value :=
  match d with
  | VObj props => VObj (rename_prop k k' props)
  | _ => d
  end.

(** The fields of a forecast entry that [createForecastChart] reads. *)
Definition forecast_fields : list string :=
  [ "year"; "predicted_funding"; "upper_bound"; "lower_bound"; "approved_funding" ].

(** [m] reads [globalData] through the documents [docs] only: with any
    other [globalData] that holds the same documents under these keys it
    does the same, and it does not assign [globalData]. *)
Definition reads_only {A} (docs : list string) (m : M A) : Prop :=
  forall s g',
    (forall k, k ∈ docs -> get g' k = get (globalData s) k) ->
    m (set_globalData g' s) = (fst (m s), set_globalData g' (snd (m s))) /\
    globalData (snd (m s)) = globalData s.

(** What the [catch] of [loadData] leaves behind after the requests. *)
Definition load_failed (s : state) : state :=
  set_innerHTML (<[".main-content" := error_panel]> (innerHTML s))
    (set_console (console s ++ [ConsoleError "Error loading data:"])%list
       (set_requests (requests s ++ urls)%list s)).

(** *** Listeners of the document *)

(** The [click] listener of the document, [id] the [id] of the element
    under the pointer. *)
Definition document_onClick (id : string) : M unit :=
  if String.eqb id "drilldownModal" then closeModal else mret tt.

(** The [keydown] listener of the document, [key] the key pressed. *)
Definition document_onKeydown (key : string) : M unit :=
  if String.eqb key "Escape" then closeModal else mret tt.

(** *** Shapes of charts and lists *)

(** Every series of the chart has one value per label. *)
Definition aligned (c : chart) : Prop :=
  Forall (fun ds => length (ds_data ds) = length (ch_labels c)) (ch_datasets c).

(** A chart of at most [n] bars. *)
Definition limited (n : nat) (c : chart) : Prop :=
  (length (ch_labels c) <= n)%nat /\ aligned c.

(** [a] is not after [b] in the order of the code units. *)
Definition string_le (a b : string) : Prop := String.ltb b a = false.

(** Every element of the list is related to those after it. *)
Definition ordered {A} (R : A -> A -> Prop) (l : list A) : Prop :=
  forall i j a b, (i < j)%nat -> l !! i = Some a -> l !! j = Some b -> R a b.

Definition is_string (v : value) : bool :=
  match v with
  | VStr _ => true
  | _ => false
  end.

(** *** The shares of the ministries by decade *)

(** The shares of one decade: an array of objects that name their ministry
    by a string. *)
Definition decade_shares (v : value) : bool :=
  match v with
  | VArr l => forallb (fun e => is_object e && is_string (field "ministry" e)) l
  | _ => false
  end.

(** The entry is that of the ministry [m]. *)
Definition named (m : string) (e : value) : bool :=
  match field "ministry" e with
  | VStr x => String.eqb x m
  | _ => false
  end.

(** The share of the ministry [m] in the decade [d]: that of the first
    entry of the decade for [m], [0] without one. *)
Definition share_of (share : list (string * value)) (m d : string) : value :=
  match lookup_prop d share with
  | Some (VArr l) =>
      match List.find (named m) l with
      | Some e => field "share_pct" e
      | None => int 0
      end
  | _ => int 0
  end.

(** The ministry [m] has an entry in some decade. *)
Definition has_share (share : list (string * value)) (m : string) : Prop :=
  exists d l e, (d, VArr l) ∈ share /\ e ∈ l /\ field "ministry" e = VStr m.

(** *** The states of the geographic document *)

(** An entry of [states]: an object whose per capita figure, when it has
    one, is a number. *)
Definition state_entry (d : value) : bool :=
  is_object d &&
  match field "per_capita_funding" d with
  | VNum _ | VUndef | VNull => true
  | _ => false
  end.

Definition per_capita (d : value) : option Q :=
  match field "per_capita_funding" d with
  | VNum (Fin q) => Some q
  | _ => None
  end.

(** [d.per_capita_funding] is truthy. *)
Definition has_per_capita (d : value) : bool := truthy (field "per_capita_funding" d).

(** [m], when it returns, has put a chart with the property [P] in
    [charts.slot]. *)
Definition draws (slot : string) (P : chart -> Prop) (m : M unit) : Prop :=
  forall s, fst (m s) = Ret tt ->
            exists c, charts (snd (m s)) !! slot = Some c /\ P c.

(** *** Loading *)

(** The documents [loadData] stores when every request is answered: the
    answer to the request for [data/f]. *)
Definition answer (s : state) (f : string) : value :=
  default VUndef (network s ("data/" ++ f)).

(** The state in which [loadData] starts [initializeDashboard]. *)
Definition stored (s : state) : state :=
  set_globalData (loadedData (map (answer s) files))
    (set_requests (requests s ++ urls)%list s).

(** The sample server with the document at [url] replaced. *)
Definition server_with (url : string) (doc : value) (u : string) : option value :=
  if String.eqb u url then Some doc else Sample.server u.

(** *** Invariants *)

(** [m] keeps the invariant [I], also when it throws. *)
Definition keeps {A} (I : state -> Prop) (m : M A) : Prop :=
  forall s, I s -> I (snd (m s)).

(** The canvas of the modal holds a chart only while [drilldownChart]
    does. *)
Definition modal_consistent (s : state) : Prop :=
  drilldownChart s = None -> canvas s !! "drilldownChart" = None.

(** *** Redrawing *)

(** [m] computes a chart from [globalData] and puts it in [charts.slot]
    after destroying the chart that was there; when it does not return, it
    has at most destroyed that chart. *)
Definition redraws (slot id : string) (m : M unit) : Prop :=
  forall s, exists o : outcome chart,
    forall s', globalData s' = globalData s ->
      match o with
      | Ret c => m s' = (Ret tt, with_chart slot id c (without_chart slot id s'))
      | _ => fst (m s') <> Ret tt /\
             (snd (m s') = s' \/ snd (m s') = without_chart slot id s')
      end.

(** *** Keywords, recipients and their trends *)

(** What the collection [kind] of a trend document gives under [name]: the
    entry of that name, without one the member of that name every object
    inherits, and else [undefined]. *)
Definition trend_of (trends : value) (kind name : string) : value :=
  match trends with
  | VObj d =>
      match lookup_prop kind d with
      | Some (VObj known) => default (inherited name) (lookup_prop name known)
      | _ => VUndef
      end
  | _ => VUndef
  end.

Definition count_of (k : value) : option Q :=
  match field "count" k with
  | VNum (Fin q) => Some q
  | _ => None
  end.

(** A keyword of the topics document: an object with a word and, as its
    count, a whole number above zero and below [2^53]. *)
Definition keyword_entry (k : value) : bool :=
  is_object k && is_string (field "word" k) &&
  match count_of k with
  | Some q => Qlt_bool 0 q && whole q && Qlt_bool q (pow2 53)
  | None => false
  end.

(** [m] is the largest count among the keywords [l]. *)
Definition max_count (m : Q) (l : list value) : Prop :=
  (exists k, k ∈ l /\ count_of k = Some m) /\
  forall k c, k ∈ l -> count_of k = Some c -> (c <= m)%Q.

(** The average funding shown for a recipient: its [avg_funding] when
    that is truthy, else the quotient of its total by its count, where
    these are numbers with a finite quotient. *)
Definition average_of (r : value) : option value :=
  if truthy (field "avg_funding" r) then Some (field "avg_funding" r)
  else
    match field "total_funding" r, field "project_count" r with
    | VNum NaN, VNum (Fin c) => if Qeq_bool c 0 then None else Some (VNum NaN)
    | VNum (Fin t), VNum (Fin c) =>
        if Qeq_bool c 0 || Qle_bool (pow2 1024) (Qabs (binary64 (t / c))) then None
        else Some (num (binary64 (t / c)))
    | _, _ => None
    end.

(** A recipient of the ranking: an object with a name, and either an
    average or the numbers to take it from. *)
Definition recipient_entry (r : value) : bool :=
  is_object r && is_string (field "name" r) && bool_decide (is_Some (average_of r)).

(** The row of the table for the recipient [r] at the rank [rank]: the
    name is cut to fifty characters in its cell, and written as it is in
    the handler, its quotes escaped, and in the title, nothing escaped. *)
Definition row_for (trends : value) (rank : nat) (r : value) (row : table_row) : Prop :=
  exists n average,
    field "name" r = VStr n /\
    average_of r = Some average /\
    let clickable := truthy (trend_of trends "recipients" n) in
    row_rank row = rank /\
    truncateLabel (VStr n) 50 = Ret (VStr (row_name row)) /\
    row_onclick row = (if clickable then Some (escape_quotes n) else None) /\
    row_title row = (if clickable then "Click to see funding trends" else n) /\
    row_funding row = Intl_NumberFormat "de-DE" nf_euro (field "total_funding" r) /\
    row_projects row = Intl_NumberFormat "de-DE" nf_default (field "project_count" r) /\
    row_average row = Intl_NumberFormat "de-DE" nf_euro average /\
    row_markup row
    = newline ++ "        <tr "
      ++ (if clickable then attribute "class" "clickable-row" else EmptyString) ++ " "
      ++ (if clickable
          then attribute "onclick" ("showRecipientTrends('" ++ escape_quotes n ++ "')")
          else EmptyString) ++ " "
      ++ attribute "title" (if clickable then "Click to see funding trends" else n)
      ++ ">"
      ++ table_cell (pretty rank) ++ table_cell (row_name row)
      ++ table_cell (row_funding row) ++ table_cell (row_projects row)
      ++ table_cell (row_average row)
      ++ newline ++ "        </tr>".

(** A label that is a string has at most [n] characters. *)
Definition fits (n : nat) (v : value) : Prop :=
  forall t, v = VStr t -> (String.length t <= n)%nat.

(** *** Documents that lack a list *)

(** [m] throws a [TypeError], and changes nothing, when the document [doc]
    is an object without the property [key]. *)
Definition throws_without (doc key : string) (m : M unit) : Prop :=
  forall s d,
    get (globalData s) doc = Ret (VObj d) -> lookup_prop key d = None ->
    m s = (TypeError, s).

(** *** Further documents to run the script on *)

Definition share (ministry : string) (pct : Z) : value :=
  VObj [ ("ministry", VStr ministry); ("share_pct", int pct) ].

(** Shares by decade, the later decade first in the document, and one
    ministry without an entry in the earlier decade. *)
Definition decade_share_props : list (string * value) :=
  [ ("2010", VArr [ share "BMFTR" 60; share "BMWE" 40 ]);
    ("1990", VArr [ share "BMFTR" 100 ]) ].

Definition temporal_by_decade_props : list (string * value) :=
  [ ("decade_ministry_share", VObj decade_share_props) ].

Definition state_with (name : string) (funding : Z) (per_capita : option Z) : value :=
  VObj ([ ("name", VStr name); ("total_funding", int funding) ]
        ++ match per_capita with
           | Some p => [ ("per_capita_funding", int p) ]
           | None => []
           end)%list.

(** Three states, one of them without a per capita figure. *)
Definition states_sample : list value :=
  [ state_with "Bayern" 20000 (Some 150%Z); state_with "Ausland" 100 None;
    state_with "Berlin" 15000 (Some 400%Z) ].

Definition geographic_states_props : list (string * value) :=
  [ ("states", VArr states_sample) ].

(** A history that ended long before the current year of the forecast. *)
Definition temporal_old_props : list (string * value) :=
  [ ("yearly_totals", VArr [ Sample.year_entry 1999 1000 10 ]) ].

(** The page with [globalData] holding the documents [g]. *)
Definition on_documents (g : list (string * value)) : state :=
  set_globalData (VObj g) (Sample.page Sample.server).


(** Keywords one of which has the name of a member every object
    inherits, and no entry in the keyword trends. *)
Definition keywords_inherited : list value :=
  [ VObj [ ("word", VStr "energie"); ("count", int 120) ];
    VObj [ ("word", VStr "constructor"); ("count", int 30) ] ].

(** A recipient without trends whose name holds double quotes. *)
Definition quoted_recipient : value :=
  Sample.group "name" ("Verein " ++ dquote ++ "Pro Natur" ++ dquote ++ " eV") 3000 4.


(** * Properties *)

(** ** Running the monad *)

Lemma run_bind {A B} (m : M A) (f : A -> M B) (s : state) :
  (m ≫= f) s
  = match m s with
    | (Ret a, s') => f a s'
    | (Throw e, s') => (Throw e, s')
    | (Unmodelled, s') => (Unmodelled, s')
    end.
Proof. reflexivity. Qed.

Lemma run_lift {A} (o : outcome A) (s : state) : lift o s = (o, s).
Proof. reflexivity. Qed.

Lemma run_modify (f : state -> state) (s : state) : modify f s = (Ret tt, f s).
Proof. reflexivity. Qed.

Lemma run_document_of (k : string) (s : state) :
  document_of k s = (get (globalData s) k, s).
Proof. reflexivity. Qed.

Lemma run_destroyChart (slot id : string) (s : state) :
  destroyChart slot id s = (Ret tt, without_chart slot id s).
Proof. reflexivity. Qed.

Lemma globalData_without_chart (slot id : string) (s : state) :
  globalData (without_chart slot id s) = globalData s.
Proof. unfold without_chart. by destruct (charts s !! slot). Qed.

Lemma charts_with_chart (slot id : string) (cfg : chart) (s : state) :
  charts (with_chart slot id cfg s) !! slot = Some cfg.
Proof. cbn. apply lookup_insert_eq. Qed.

(** ** Facts about the primitives *)

Lemma Qle_bool_true (a b : Q) : (a <= b)%Q -> Qle_bool a b = true.
Proof. intros H. by apply Qle_bool_iff. Qed.

Lemma Qle_bool_false (a b : Q) : (b < a)%Q -> Qle_bool a b = false.
Proof.
  intros H. destruct (Qle_bool a b) eqn:E; [|done].
  apply Qle_bool_iff in E. exfalso. by apply (Qlt_not_le b a).
Qed.

(** [toFixed] rounds to the nearest multiple of [10^-f], upwards on a
    tie. *)
Lemma round_scaled_nearest (x : Q) (f : nat) :
  (inject_Z (round_scaled x f) - (1 # 2) <= x * inject_Z (10 ^ Z.of_nat f))%Q /\
  (x * inject_Z (10 ^ Z.of_nat f) < inject_Z (round_scaled x f) + (1 # 2))%Q.
Proof.
  unfold round_scaled. destruct x as [n d]. cbn [Qnum Qden].
  set (p := (10 ^ Z.of_nat f)%Z).
  set (N := (2 * n * p + Z.pos d)%Z).
  set (D := (2 * Z.pos d)%Z).
  assert (HD : (0 < D)%Z) by (unfold D; lia).
  pose proof (Z.mul_div_le N D HD) as Hlo.
  pose proof (Z.mul_succ_div_gt N D HD) as Hhi.
  set (r := (N / D)%Z) in *.
  unfold Qle, Qlt, Qminus, Qplus, Qopp, Qmult, inject_Z. cbn [Qnum Qden].
  rewrite ?Pos.mul_1_r, ?Pos.mul_1_l. rewrite ?Pos2Z.inj_mul.
  unfold N, D in *. split; nia.
Qed.

(** ** Binary64 rounding *)

Lemma two_not_zero : ~ (2 == 0)%Q.
Proof. intros H. discriminate H. Qed.

Lemma pow2_pos (e : Z) : (0 < pow2 e)%Q.
Proof. apply Qpower_0_lt. reflexivity. Qed.

Lemma pow2_add (a b : Z) : (pow2 (a + b) == pow2 a * pow2 b)%Q.
Proof. apply Qpower_plus, two_not_zero. Qed.

Lemma pow2_le (a b : Z) : (a <= b)%Z -> (pow2 a <= pow2 b)%Q.
Proof. intros H. apply Qpower_le_compat_l; [exact H|discriminate]. Qed.

Lemma pow2_lt_inv (a b : Z) : (pow2 a < pow2 b)%Q -> (a < b)%Z.
Proof. intros H. eapply Qpower_lt_compat_l_inv; [exact H|reflexivity]. Qed.

Lemma pow2_Z (k : Z) : (0 <= k)%Z -> (pow2 k == inject_Z (2 ^ k))%Q.
Proof. intros H. unfold pow2. by rewrite (Zpower_Qpower 2 k H). Qed.

Lemma floor_log2_spec (x : Q) :
  (0 < x)%Q -> (pow2 (floor_log2 x) <= x)%Q /\ (x < pow2 (floor_log2 x + 1))%Q.
Proof.
  intros Hx. destruct x as [n d]. unfold floor_log2. cbn [Qnum Qden].
  assert (Hn : (0 < n)%Z) by (unfold Qlt in Hx; cbn in Hx; lia).
  set (ln := Z.log2 n). set (ld := Z.log2 (Z.pos d)).
  assert (Hln : (0 <= ln)%Z) by apply Z.log2_nonneg.
  assert (Hld : (0 <= ld)%Z) by apply Z.log2_nonneg.
  destruct (Z.log2_spec n Hn) as [Hn1 Hn2]. fold ln in Hn1, Hn2.
  destruct (Z.log2_spec (Z.pos d) (Pos2Z.is_pos d)) as [Hd1 Hd2]. fold ld in Hd1, Hd2.
  assert (Hpn : (0 < 2 ^ ln)%Z) by (apply Z.pow_pos_nonneg; lia).
  assert (Hpd : (0 < 2 ^ ld)%Z) by (apply Z.pow_pos_nonneg; lia).
  rewrite !Z.pow_succ_r in * by lia.
  (* comparisons of [n # d] with [pow2 k] go through a product by [pow2 ld] *)
  assert (Hscale : forall k,
             ((pow2 k <= n # d)%Q <-> (pow2 (k + ld) <= (n # d) * inject_Z (2 ^ ld))%Q) /\
             ((n # d < pow2 k)%Q <-> ((n # d) * inject_Z (2 ^ ld) < pow2 (k + ld))%Q)).
  { intros k. rewrite pow2_add, (pow2_Z ld Hld).
    assert (H0 : (0 < inject_Z (2 ^ ld))%Q) by (unfold Qlt, inject_Z; cbn [Qnum Qden]; lia).
    split; split; intros H.
    - by apply Qmult_le_compat_r; [|apply Qlt_le_weak].
    - by apply Qmult_le_r in H.
    - by apply Qmult_lt_r.
    - by apply Qmult_lt_r in H. }
  assert (Hupper : ((n # d) < pow2 (ln - ld + 1))%Q).
  { apply (proj2 (Hscale _)). replace (ln - ld + 1 + ld)%Z with (ln + 1)%Z by lia.
    rewrite (pow2_Z (ln + 1)) by lia. rewrite Z.pow_add_r by lia.
    unfold Qlt, Qmult, inject_Z. cbn [Qnum Qden]. nia. }
  assert (Hlower : (pow2 (ln - ld - 1) <= (n # d))%Q).
  { apply (proj1 (Hscale _)). replace (ln - ld - 1 + ld)%Z with (ln - 1)%Z by lia.
    destruct (Z.eq_dec ln 0%Z) as [E|E].
    - rewrite E in *. change (pow2 (0 - 1)) with (1 # 2)%Q.
      unfold Qle, Qmult, inject_Z. cbn [Qnum Qden]. nia.
    - rewrite (pow2_Z (ln - 1)) by lia.
      assert (H2 : (2 ^ ln = 2 * 2 ^ (ln - 1))%Z).
      { rewrite <- Z.pow_succ_r by lia. f_equal. lia. }
      unfold Qle, Qmult, inject_Z. cbn [Qnum Qden]. nia. }
  destruct (Qle_bool (pow2 (ln - ld)) (n # d)) eqn:E.
  - apply Qle_bool_iff in E. split; [exact E|exact Hupper].
  - split; [exact Hlower|].
    replace (ln - ld - 1 + 1)%Z with (ln - ld)%Z by lia.
    apply Qnot_le_lt. intros H. apply Qle_bool_iff in H. congruence.
Qed.

Lemma floor_log2_unique (x : Q) (k : Z) :
  (pow2 k <= x)%Q -> (x < pow2 (k + 1))%Q -> floor_log2 x = k.
Proof.
  intros H1 H2.
  assert (Hx : (0 < x)%Q) by (eapply Qlt_le_trans; [apply (pow2_pos k)|exact H1]).
  destruct (floor_log2_spec x Hx) as [H3 H4].
  assert (k < floor_log2 x + 1)%Z
    by (apply pow2_lt_inv; eapply Qle_lt_trans; [exact H1|exact H4]).
  assert (floor_log2 x < k + 1)%Z
    by (apply pow2_lt_inv; eapply Qle_lt_trans; [exact H3|exact H2]).
  lia.
Qed.

Lemma floor_log2_proper (x y : Q) : (0 < x)%Q -> (x == y)%Q -> floor_log2 x = floor_log2 y.
Proof.
  intros Hx Hxy. symmetry. destruct (floor_log2_spec x Hx) as [H1 H2].
  apply floor_log2_unique; by rewrite <- Hxy.
Qed.

#[local] Instance nearest_even_proper : Proper (Qeq ==> eq) nearest_even.
Proof.
  intros x y Hxy. unfold nearest_even. rewrite (Qfloor_comp x y Hxy).
  assert (H : (x - inject_Z (Qfloor y) ?= 1 # 2)%Q = (y - inject_Z (Qfloor y) ?= 1 # 2)%Q)
    by (by rewrite Hxy).
  by rewrite H.
Qed.

Lemma nearest_even_near (x : Q) :
  (inject_Z (nearest_even x) - (1 # 2) <= x)%Q /\ (x <= inject_Z (nearest_even x) + (1 # 2))%Q.
Proof.
  unfold nearest_even.
  pose proof (Qfloor_le x) as Hlo. pose proof (Qlt_floor x) as Hhi.
  set (f := Qfloor x) in *.
  assert (Hsucc : (inject_Z (f + 1) == inject_Z f + 1)%Q) by (by rewrite inject_Z_plus).
  rewrite Hsucc in Hhi.
  destruct (Qcompare_spec (x - inject_Z f) (1 # 2)) as [E|E|E].
  - destruct (Z.even f); rewrite ?Hsucc; split; lra.
  - split; lra.
  - rewrite Hsucc. split; lra.
Qed.

Lemma nearest_even_nonneg (x : Q) : (0 <= x)%Q -> (0 <= nearest_even x)%Z.
Proof.
  intros Hx. unfold nearest_even.
  assert (H : (0 <= Qfloor x)%Z).
  { change 0%Z with (Qfloor 0). by apply Qfloor_resp_le. }
  destruct (x - inject_Z (Qfloor x) ?= 1 # 2)%Q; [destruct (Z.even (Qfloor x))|..]; lia.
Qed.

Lemma nearest_even_Z (z : Z) : nearest_even (inject_Z z) = z.
Proof.
  unfold nearest_even. rewrite Qfloor_Z.
  assert (H : (inject_Z z - inject_Z z ?= 1 # 2)%Q = Lt).
  { apply Qlt_alt. assert (E : (inject_Z z - inject_Z z == 0)%Q) by ring.
    by rewrite E. }
  by rewrite H.
Qed.


Lemma Qabs_nonzero (x : Q) : Qeq_bool (Qabs x) 0 = false -> (0 < Qabs x)%Q.
Proof.
  intros H. destruct (Qlt_le_dec 0 (Qabs x)) as [Hlt|Hle]; [exact Hlt|].
  assert (E : (Qabs x == 0)%Q) by (apply Qle_antisym; [exact Hle|apply Qabs_nonneg]).
  apply Qeq_bool_iff in E. congruence.
Qed.

Lemma Qlt_bool_true (a b : Q) : (a < b)%Q -> Qlt_bool a b = true.
Proof.
  intros H. unfold Qlt_bool. destruct (Qle_bool b a) eqn:E; [|done].
  apply Qle_bool_iff in E. exfalso. by apply (Qlt_not_le a b).
Qed.

Lemma Qlt_bool_false (a b : Q) : (b <= a)%Q -> Qlt_bool a b = false.
Proof. intros H. unfold Qlt_bool. apply Qle_bool_iff in H. by rewrite H. Qed.

#[local] Instance Qlt_bool_proper : Proper (Qeq ==> Qeq ==> eq) Qlt_bool.
Proof. intros a b Hab c d Hcd. unfold Qlt_bool. by rewrite Hab, Hcd. Qed.

Lemma ulp_exponent_proper (x y : Q) :
  (0 < x)%Q -> (x == y)%Q -> ulp_exponent x = ulp_exponent y.
Proof. intros Hx Hxy. unfold ulp_exponent. by rewrite (floor_log2_proper x y Hx Hxy). Qed.

#[local] Instance binary64_proper : Proper (Qeq ==> Qeq) binary64.
Proof.
  intros x y Hxy. unfold binary64.
  assert (Ha : (Qabs x == Qabs y)%Q) by (by rewrite Hxy).
  rewrite <- (Qlt_bool_proper x y Hxy 0%Q 0%Q (Qeq_refl 0%Q)).
  assert (Hz : Qeq_bool (Qabs x) 0 = Qeq_bool (Qabs y) 0).
  { destruct (Qeq_bool (Qabs x) 0) eqn:E1, (Qeq_bool (Qabs y) 0) eqn:E2; try done.
    - apply Qeq_bool_iff in E1. rewrite Ha in E1. apply Qeq_bool_iff in E1. congruence.
    - apply Qeq_bool_iff in E2. rewrite <- Ha in E2. apply Qeq_bool_iff in E2. congruence. }
  rewrite <- Hz. destruct (Qeq_bool (Qabs x) 0) eqn:E; [reflexivity|].
  rewrite <- (ulp_exponent_proper (Qabs x) (Qabs y) (Qabs_nonzero x E) Ha).
  assert (Hn : nearest_even (Qabs x / pow2 (ulp_exponent (Qabs x)))
               = nearest_even (Qabs y / pow2 (ulp_exponent (Qabs x))))
    by (apply nearest_even_proper, Qdiv_comp; [exact Ha|reflexivity]).
  rewrite Hn. reflexivity.
Qed.

(** The rounding error is at most half a unit in the last place. *)
Lemma binary64_error (x : Q) :
  ~ (x == 0)%Q ->
  (Qabs (binary64 x - x) <= pow2 (ulp_exponent (Qabs x)) * (1 # 2))%Q.
Proof.
  intros Hx. unfold binary64.
  destruct (Qeq_bool (Qabs x) 0) eqn:E.
  { apply Qeq_bool_iff in E. exfalso. apply Hx.
    assert (H : (Qabs x <= 0)%Q) by (rewrite E; apply Qle_refl).
    apply Qabs_Qle_condition in H. lra. }
  set (e := ulp_exponent (Qabs x)).
  pose proof (pow2_pos e) as He.
  destruct (nearest_even_near (Qabs x / pow2 e)) as [H1 H2].
  set (m := inject_Z (nearest_even (Qabs x / pow2 e))) in *.
  assert (Hdiv : (Qabs x / pow2 e * pow2 e == Qabs x)%Q) by (field; lra).
  assert (H3 : ((m - (1 # 2)) * pow2 e <= Qabs x)%Q).
  { rewrite <- Hdiv. apply Qmult_le_compat_r; [exact H1|lra]. }
  assert (H4 : (Qabs x <= (m + (1 # 2)) * pow2 e)%Q).
  { rewrite <- Hdiv at 1. apply Qmult_le_compat_r; [exact H2|lra]. }
  apply Qabs_Qle_condition.
  destruct (Qlt_bool x 0) eqn:Es.
  - assert (Hneg : (x < 0)%Q).
    { unfold Qlt_bool in Es. apply negb_true_iff in Es.
      apply Qnot_le_lt. intros H. apply Qle_bool_iff in H. congruence. }
    rewrite (Qabs_neg x) in H3, H4 by lra. split; lra.
  - assert (Hpos : (0 <= x)%Q).
    { unfold Qlt_bool in Es. apply negb_false_iff in Es. by apply Qle_bool_iff in Es. }
    rewrite (Qabs_pos x) in H3, H4 by lra. split; lra.
Qed.

Lemma binary64_nonneg (x : Q) : (0 <= x)%Q -> (0 <= binary64 x)%Q.
Proof.
  intros Hx. unfold binary64.
  destruct (Qeq_bool (Qabs x) 0); [lra|].
  rewrite (Qlt_bool_false x 0 Hx).
  apply Qmult_le_0_compat; [|apply Qlt_le_weak, pow2_pos].
  change 0%Q with (inject_Z 0). rewrite <- Zle_Qle.
  apply nearest_even_nonneg. apply Qle_shift_div_l; [apply pow2_pos|].
  rewrite Qmult_0_l. apply Qabs_nonneg.
Qed.

Lemma ulp_exponent_bound (x : Q) :
  (0 < x)%Q -> (pow2 (ulp_exponent x) <= x + 1)%Q.
Proof.
  intros Hx. unfold ulp_exponent.
  destruct (floor_log2_spec x Hx) as [H _].
  destruct (Z.max_spec (floor_log2 x - 52) (-1074)) as [[_ ->]|[_ ->]].
  - assert (pow2 (-1074) <= 1)%Q by (change 1%Q with (pow2 0); by apply pow2_le). lra.
  - assert (pow2 (floor_log2 x - 52) <= pow2 (floor_log2 x))%Q by (apply pow2_le; lia). lra.
Qed.

(** A bound that is enough to stay below [1e21]. *)
Lemma binary64_bound (x : Q) : (0 <= x)%Q -> (binary64 x <= 2 * x + 1)%Q.
Proof.
  intros Hx. destruct (Qeq_dec x 0) as [E|E].
  - rewrite E. by vm_compute.
  - pose proof (binary64_error x E) as Herr. apply Qabs_Qle_condition in Herr.
    assert (Hpos : (0 < x)%Q) by lra.
    pose proof (Qabs_pos x Hx) as Ha.
    assert (He : ulp_exponent (Qabs x) = ulp_exponent x)
      by (apply ulp_exponent_proper; [by rewrite Ha|exact Ha]).
    rewrite He in Herr.
    pose proof (ulp_exponent_bound x Hpos). lra.
Qed.

(** A number of 53 bits at an exponent of the format is its own
    rounding. *)
Lemma binary64_exact (x : Q) (m e : Z) :
  (x == inject_Z m * pow2 e)%Q -> (Z.abs m < 2 ^ 53)%Z -> (-1074 <= e)%Z ->
  (binary64 x == x)%Q.
Proof.
  intros Hx Hm He.
  destruct (Qeq_dec x 0) as [E|E]; [by rewrite E|].
  pose proof (pow2_pos e) as Hpe.
  assert (Ha : (Qabs x == inject_Z (Z.abs m) * pow2 e)%Q).
  { rewrite Hx, Qabs_Qmult, (Qabs_pos (pow2 e)) by lra.
    reflexivity. }
  assert (Hapos : (0 < Qabs x)%Q).
  { destruct (Qlt_le_dec 0 (Qabs x)) as [H|H]; [exact H|].
    apply Qabs_Qle_condition in H. exfalso. apply E. lra. }
  set (u := ulp_exponent (Qabs x)).
  assert (Hu : (u <= e)%Z).
  { unfold u, ulp_exponent. apply Z.max_lub; [|exact He].
    destruct (floor_log2_spec (Qabs x) Hapos) as [H1 _].
    assert (H2 : (Qabs x < pow2 (e + 53))%Q).
    { rewrite Ha, pow2_add, (Qmult_comm (pow2 e)).
      apply Qmult_lt_compat_r; [exact Hpe|].
      rewrite (pow2_Z 53) by lia. by rewrite <- Zlt_Qlt. }
    assert (floor_log2 (Qabs x) < e + 53)%Z
      by (apply pow2_lt_inv; eapply Qle_lt_trans; [exact H1|exact H2]).
    lia. }
  pose proof (pow2_pos u) as Hpu.
  assert (Hsplit : (pow2 e == inject_Z (2 ^ (e - u)) * pow2 u)%Q).
  { rewrite <- (pow2_Z (e - u)) by lia. rewrite <- pow2_add. by replace (e - u + u)%Z with e by lia. }
  assert (Hq : (Qabs x / pow2 u == inject_Z (Z.abs m * 2 ^ (e - u)))%Q).
  { rewrite Ha, Hsplit, inject_Z_mult. field. lra. }
  assert (Hy : (inject_Z (nearest_even (Qabs x / pow2 u)) * pow2 u == Qabs x)%Q).
  { rewrite (nearest_even_proper _ _ Hq), nearest_even_Z.
    rewrite Ha, Hsplit, inject_Z_mult. ring. }
  unfold binary64. fold u.
  destruct (Qeq_bool (Qabs x) 0) eqn:Ez.
  { apply Qeq_bool_iff in Ez. lra. }
  destruct (Qlt_bool x 0) eqn:Es; rewrite Hy.
  - assert (Hneg : (x <= 0)%Q).
    { unfold Qlt_bool in Es. apply negb_true_iff in Es. apply Qlt_le_weak.
      apply Qnot_le_lt. intros H. apply Qle_bool_iff in H. congruence. }
    rewrite (Qabs_neg x Hneg). ring.
  - assert (Hpos : (0 <= x)%Q).
    { unfold Qlt_bool in Es. apply negb_false_iff in Es. by apply Qle_bool_iff in Es. }
    by rewrite (Qabs_pos x Hpos).
Qed.

(** Whole numbers up to [2^53] are their own rounding. *)
Lemma binary64_Z (z : Z) : (Z.abs z < 2 ^ 53)%Z -> (binary64 (inject_Z z) == inject_Z z)%Q.
Proof.
  intros H. apply (binary64_exact _ z 0); [|exact H|lia].
  change (pow2 0) with 1%Q. ring.
Qed.

Lemma nearest_even_le (x : Q) (n : Z) : (x < inject_Z n)%Q -> (nearest_even x <= n)%Z.
Proof.
  intros H. unfold nearest_even.
  assert (Hf : (Qfloor x < n)%Z).
  { rewrite Zlt_Qlt. eapply Qle_lt_trans; [apply Qfloor_le|exact H]. }
  destruct (x - inject_Z (Qfloor x) ?= 1 # 2)%Q; [destruct (Z.even (Qfloor x))|..]; lia.
Qed.

(** The rounding keeps 53 bits: it is a whole multiple, of at most [2^53],
    of the unit in the last place. *)
Lemma binary64_format (x : Q) :
  exists m : Z,
    (binary64 x == inject_Z m * pow2 (ulp_exponent (Qabs x)))%Q /\ (Z.abs m <= 2 ^ 53)%Z.
Proof.
  unfold binary64. destruct (Qeq_bool (Qabs x) 0) eqn:E.
  { exists 0%Z. split; [ring|lia]. }
  pose proof (Qabs_nonzero x E) as Ha.
  set (e := ulp_exponent (Qabs x)).
  pose proof (pow2_pos e) as He.
  set (m := nearest_even (Qabs x / pow2 e)).
  assert (Hm0 : (0 <= m)%Z).
  { apply nearest_even_nonneg, Qle_shift_div_l; [exact He|lra]. }
  assert (Hm : (m <= 2 ^ 53)%Z).
  { apply nearest_even_le. apply Qlt_shift_div_r; [exact He|].
    destruct (floor_log2_spec (Qabs x) Ha) as [_ H].
    eapply Qlt_le_trans; [exact H|].
    rewrite <- (pow2_Z 53) by lia. rewrite <- pow2_add. apply pow2_le.
    unfold e, ulp_exponent. lia. }
  destruct (Qlt_bool x 0).
  - exists (- m)%Z. split; [rewrite inject_Z_opp; ring|lia].
  - exists m. split; [reflexivity|lia].
Qed.

Lemma Qlt_bool_lt (a b : Q) : Qlt_bool a b = true -> (a < b)%Q.
Proof.
  unfold Qlt_bool. intros H. apply Qnot_le_lt. intros Hle.
  apply Qle_bool_iff in Hle. by rewrite Hle in H.
Qed.

(** ** Decimal digits *)

Lemma substring_length (n : nat) (s : string) :
  (n <= String.length s)%nat -> String.length (substring 0 n s) = n.
Proof.
  revert s. induction n as [|n IH]; intros s H.
  - by destruct s.
  - destruct s as [|c s]; cbn in H; [lia|]. cbn. rewrite IH; [done|lia].
Qed.

Lemma string_app_length (a b : string) :
  String.length (a ++ b) = (String.length a + String.length b)%nat.
Proof. induction a as [|c a IH]; [done|]. cbn. by rewrite <- IH. Qed.














Lemma pretty_N_go_length (k : nat) (x : N) (s : string) :
  (x < 10 ^ N.of_nat k)%N ->
  (String.length (pretty_N_go x s) <= String.length s + k)%nat.
Proof.
  revert x s. induction k as [|k IH]; intros x s H.
  - assert (x = 0%N) as -> by (cbn in H; lia). rewrite pretty_N_go_0. lia.
  - destruct (N.eq_dec x 0%N) as [->|Hx]; [rewrite pretty_N_go_0; lia|].
    rewrite pretty_N_go_step by lia.
    etrans; [apply IH|cbn; lia].
    rewrite Nat2N.inj_succ, N.pow_succ_r' in H.
    apply N.Div0.div_lt_upper_bound. lia.
Qed.

(** A whole number below [10^k] has at most [k] digits, and a sign. *)
Lemma pretty_Z_length (k : nat) (z : Z) :
  (Z.abs z < 10 ^ Z.of_nat k)%Z -> (String.length (pretty z) <= S k)%nat.
Proof.
  intros H.
  assert (Hp : forall p, (Z.pos p < 10 ^ Z.of_nat k)%Z ->
                         (String.length (pretty (N.pos p)) <= k)%nat).
  { intros p Hp. unfold pretty, pretty_N.
    destruct (decide (N.pos p = 0%N)); [done|].
    etrans; [apply (pretty_N_go_length k)|cbn; lia].
    apply N2Z.inj_lt. rewrite N2Z.inj_pow, nat_N_Z. exact Hp. }
  destruct z as [|p|p]; cbn [pretty pretty_Z].
  - cbn. lia.
  - etrans; [apply Hp; lia|lia].
  - cbn [String.length String.append]. apply le_n_S, Hp. lia.
Qed.

(** ** Compact currency *)




Lemma e10_pos (k : nat) : (0 < e10 k)%Q.
Proof.
  unfold e10. change 0%Q with (inject_Z 0). rewrite <- Zlt_Qlt.
  apply Z.pow_pos_nonneg; lia.
Qed.



(** *** Overview cards *)

Lemma toFixed_total (q : Q) (f : nat) :
  (Qabs q < e10 21)%Q -> exists t, toFixed (Fin q) f = Ret t.
Proof.
  intros H. unfold toFixed. rewrite (Qle_bool_false _ _ H).
  destruct (Qlt_bool q 0); eauto.
Qed.

Lemma formatCurrency_total (q : Q) :
  (0 <= q)%Q -> (q < e10 21)%Q -> exists t, formatCurrency (num q) true = Ret t.
Proof.
  intros H0 H1.
  assert (Hscaled : forall k, (3 <= k)%nat -> (Qabs (binary64 (q / e10 k)) < e10 21)%Q).
  { intros k Hk. pose proof (e10_pos k) as Hpos.
    assert (Hk3 : (e10 3 <= e10 k)%Q).
    { unfold e10. rewrite <- Zle_Qle. apply Z.pow_le_mono_r; lia. }
    assert (Hq0 : (0 <= q / e10 k)%Q)
      by (apply Qle_shift_div_l; [exact Hpos|by rewrite Qmult_0_l]).
    assert (Hq1 : (q / e10 k < e10 18)%Q).
    { apply Qlt_shift_div_r; [exact Hpos|].
      assert (E : (e10 21 == e10 18 * e10 3)%Q) by reflexivity.
      assert (H18 : (0 < e10 18)%Q) by reflexivity.
      assert (e10 18 * e10 3 <= e10 18 * e10 k)%Q
        by (apply Qmult_le_l; [exact H18|exact Hk3]).
      lra. }
    rewrite Qabs_pos by (by apply binary64_nonneg).
    eapply Qle_lt_trans; [by apply binary64_bound|].
    assert (2 * e10 18 + 1 < e10 21)%Q by reflexivity. lra. }
  unfold formatCurrency, num, ge_num, div_num, call_toFixed, to_number.
  cbn [mbind outcome_bind].
  repeat match goal with
  | |- context [Qle_bool ?a ?b] => destruct (Qle_bool a b)
  end;
  match goal with
  | |- context [toFixed (Fin (binary64 (q / e10 ?k))) ?f] =>
      destruct (toFixed_total (binary64 (q / e10 k)) f (Hscaled k ltac:(lia))) as [t ->]
  | |- context [toFixed (Fin q) ?f] =>
      destruct (toFixed_total q f) as [t ->]; [by rewrite Qabs_pos|]
  end; cbn; eauto.
Qed.

(** C1.  For a summary document whose [total_funding] and
    [unique_recipients] are numbers, [updateOverviewCards] shows in the
    unique-recipients card [formatNumber(unique_recipients - 1)] followed
    by [+]: the count less the anonymization sentinel, marked as a
    minimum.  The difference is that of the language, the exact one
    rounded to binary64 (itself for a count below [2^53]). *)
Theorem uniqueRecipients_minimum (s : state) (summary : list (string * value))
    (tf ur : Q) :
  get (globalData s) "summary" = Ret (VObj summary) ->
  lookup_prop "total_funding" summary = Some (num tf) ->
  (0 <= tf)%Q -> (tf < e10 21)%Q ->
  lookup_prop "unique_recipients" summary = Some (num ur) ->
  exists t,
    formatNumber (num (binary64 (ur - 1))) false = Ret t /\
    textContent (snd (updateOverviewCards s)) !! "uniqueRecipients" = Some (t ++ "+").
Proof.
  intros Hdoc Htf H0 H1 Hur.
  destruct (formatCurrency_total tf H0 H1) as [t1 Ht1].
  eexists. split; [reflexivity|].
  unfold updateOverviewCards, document_of, setTextContent.
  unfold mbind, M_bind, lift, gets, modify. cbn [fst snd].
  rewrite Hdoc. cbn [get from_option id mbind outcome_bind].
  rewrite Htf, Hur. cbn [from_option id]. rewrite Ht1.
  cbn [sub_num to_number num mbind outcome_bind formatNumber].
  match goal with
  | |- context [match ?o with Ret _ => _ | Throw _ => _ | Unmodelled => _ end] =>
      destruct o
  end; cbn; by simplify_map_eq.
Qed.

(** *** The paths without data *)




(** *** Loops over entries *)

Lemma mapO_ret {A B} (f : A -> outcome B) (g : A -> B) (l : list A) :
  Forall (fun x => f x = Ret (g x)) l -> mapO f l = Ret (map g l).
Proof.
  induction 1 as [|x l Hx _ IH]; [done|].
  cbn [mapO map]. rewrite Hx. cbn [mbind outcome_bind]. by rewrite IH.
Qed.

Lemma filterO_ret {A} (p : A -> outcome bool) (q : A -> bool) (l : list A) :
  Forall (fun x => p x = Ret (q x)) l -> filterO p l = Ret (List.filter q l).
Proof.
  induction 1 as [|x l Hx _ IH]; [done|].
  cbn [filterO List.filter]. rewrite Hx. cbn [mbind outcome_bind]. by rewrite IH.
Qed.

Lemma get_object (k : string) (d : value) :
  is_object d = true -> get d k = Ret (field k d).
Proof. by destruct d. Qed.

Lemma pluck_objects (k : string) (l : list value) :
  Forall (fun d => is_object d = true) l -> pluck k l = Ret (map (field k) l).
Proof.
  intros H. apply mapO_ret. eapply Forall_impl; [exact H|].
  intros d Hd. by apply get_object.
Qed.

Lemma dated_object (d : value) : dated d = true -> is_object d = true.
Proof.
  unfold dated, year_of. intros H. apply bool_decide_eq_true in H.
  destruct d; try done; by destruct H.
Qed.

Lemma Forall_filter_keep {A} (P : A -> Prop) (q : A -> bool) (l : list A) :
  Forall P l -> Forall P (List.filter q l).
Proof.
  induction 1 as [|x l Hx _ IH]; [done|].
  cbn. destruct (q x); [by constructor|done].
Qed.

Lemma temporalData_recent (l : list value) :
  Forall (fun d => dated d = true) l ->
  temporalData "recent" (VArr l) = Ret (VArr (List.filter (year_from 2005) l)).
Proof.
  intros H. unfold temporalData. cbn [String.eqb Ascii.eqb Bool.eqb as_array mbind outcome_bind].
  rewrite (filterO_ret _ (year_from 2005)); [done|].
  eapply Forall_impl; [exact H|]. intros d Hd.
  unfold dated in Hd. apply bool_decide_eq_true in Hd. destruct Hd as [y Hy].
  unfold year_from. rewrite Hy. unfold year_of in Hy.
  destruct d as [| | | | | |props|]; try discriminate Hy. cbn [get].
  destruct (lookup_prop "year" props) as [[| | |[|q]| | | |]|]; try discriminate Hy.
  by injection Hy as ->.
Qed.

Lemma temporalData_decade (l : list value) :
  Forall (fun d => dated d = true) l ->
  temporalData "decade" (VArr l) = Ret (VArr (List.filter (year_from 2015) l)).
Proof.
  intros H. unfold temporalData. cbn [String.eqb Ascii.eqb Bool.eqb as_array mbind outcome_bind].
  rewrite (filterO_ret _ (year_from 2015)); [done|].
  eapply Forall_impl; [exact H|]. intros d Hd.
  unfold dated in Hd. apply bool_decide_eq_true in Hd. destruct Hd as [y Hy].
  unfold year_from. rewrite Hy. unfold year_of in Hy.
  destruct d as [| | | | | |props|]; try discriminate Hy. cbn [get].
  destruct (lookup_prop "year" props) as [[| | |[|q]| | | |]|]; try discriminate Hy.
  by injection Hy as ->.
Qed.

Lemma createTemporalChart_draws (s : state) (temporal : list (string * value))
    (range : string) (l data : list value) :
  get (globalData s) "temporal" = Ret (VObj temporal) ->
  lookup_prop "yearly_totals" temporal = Some (VArr l) ->
  String.eqb range "forecast" = false ->
  temporalData range (VArr l) = Ret (VArr data) ->
  Forall (fun d => is_object d = true) data ->
  createTemporalChart range s
  = (Ret tt, with_chart "temporal" "temporalChart" (temporalChartOf data)
               (without_chart "temporal" "temporalChart" s)).
Proof.
  intros Hdoc Hl Hrange Hdata Hobj.
  unfold createTemporalChart. rewrite run_bind, run_destroyChart, Hrange.
  rewrite run_bind, run_document_of, globalData_without_chart, Hdoc.
  rewrite run_bind, run_lift. cbn [get]. rewrite Hl.
  cbn [from_option id mbind outcome_bind]. rewrite Hdata.
  cbn [mbind outcome_bind]. unfold map_field. cbn [as_array mbind outcome_bind].
  rewrite !(pluck_objects _ data Hobj). reflexivity.
Qed.

(** C7.  The range filter of [createTemporalChart] works from a current
    year fixed at 2025 in the script: over a [yearly_totals] series whose
    entries carry a numeric year, the range [recent] draws exactly the
    entries with [year >= 2005], the range [decade] exactly those with
    [year >= 2015], and the range [all] every entry. *)
Theorem temporal_ranges (s : state) (temporal : list (string * value)) (l : list value) :
  get (globalData s) "temporal" = Ret (VObj temporal) ->
  lookup_prop "yearly_totals" temporal = Some (VArr l) ->
  Forall (fun d => dated d = true) l ->
  let drawn data :=
    (Ret tt, with_chart "temporal" "temporalChart" (temporalChartOf data)
               (without_chart "temporal" "temporalChart" s)) in
  currentYear = 2025%Q /\
  createTemporalChart "recent" s = drawn (List.filter (year_from 2005) l) /\
  createTemporalChart "decade" s = drawn (List.filter (year_from 2015) l) /\
  createTemporalChart "all" s = drawn l /\
  (forall d, year_from (currentYear - 20) d = year_from 2005 d) /\
  (forall d, year_from (currentYear - 10) d = year_from 2015 d).
Proof.
  intros Hdoc Hl Hdated drawn.
  assert (Hobj : Forall (fun d => is_object d = true) l)
    by (eapply Forall_impl; [exact Hdated|apply dated_object]).
  split; [reflexivity|]. repeat split.
  - apply (createTemporalChart_draws s temporal "recent" l _ Hdoc Hl); [done| |].
    + by apply temporalData_recent.
    + by apply Forall_filter_keep.
  - apply (createTemporalChart_draws s temporal "decade" l _ Hdoc Hl); [done| |].
    + by apply temporalData_decade.
    + by apply Forall_filter_keep.
  - by apply (createTemporalChart_draws s temporal "all" l _ Hdoc Hl).
Qed.

(** *** The forecast chart *)

Lemma recentHistoryOf_ret (h : list value) (cy : Q) :
  Forall (fun d => dated d = true) h ->
  recentHistoryOf (VArr h) (num cy) = Ret (List.filter (year_within (binary64 (cy - 10)) cy) h).
Proof.
  intros H. unfold recentHistoryOf. cbn [as_array mbind outcome_bind].
  apply filterO_ret. eapply Forall_impl; [exact H|]. intros d Hd.
  unfold dated in Hd. apply bool_decide_eq_true in Hd. destruct Hd as [y Hy].
  unfold year_within. rewrite Hy. unfold year_of in Hy.
  destruct d as [| | | | | |props|]; try discriminate Hy. cbn [get].
  destruct (lookup_prop "year" props) as [[| | |[|q]| | | |]|]; try discriminate Hy.
  injection Hy as ->. cbn [from_option id mbind outcome_bind sub_num num to_number ge_num].
  destruct (Qle_bool (binary64 (cy - 10)) y); reflexivity.
Qed.

Lemma last_object (l : list value) :
  Forall (fun d => is_object d = true) l ->
  get_opt (default VUndef (last l)) "total_funding"
  = Ret (field "total_funding" (default VUndef (last l))).
Proof.
  intros H. destruct (last l) as [d|] eqn:E; [|done].
  cbn [from_option id]. apply last_Some in E as [l' ->].
  apply Forall_app in H as [_ H]. apply Forall_inv in H.
  by destruct d.
Qed.

Lemma forecastConfig_ret (forecast temporal : list (string * value))
    (h fd : list value) (cy : Q) :
  lookup_prop "yearly_totals" temporal = Some (VArr h) ->
  Forall (fun d => dated d = true) h ->
  lookup_prop "current_year" forecast = Some (num cy) ->
  lookup_prop "forecast" forecast = Some (VArr fd) ->
  Forall (fun d => is_object d = true) fd ->
  forecastConfig (VObj forecast) (VObj temporal)
  = Ret (forecastChartOf (List.filter (year_within (binary64 (cy - 10)) cy) h) fd).
Proof.
  intros Hh Hdated Hcy Hfd Hobj.
  set (recent := List.filter (year_within (binary64 (cy - 10)) cy) h).
  assert (Hrecent : Forall (fun d => is_object d = true) recent).
  { apply Forall_filter_keep. eapply Forall_impl; [exact Hdated|apply dated_object]. }
  unfold forecastConfig. cbn [get]. rewrite Hh, Hcy, Hfd.
  cbn [from_option id mbind outcome_bind].
  rewrite (recentHistoryOf_ret h cy Hdated). fold recent.
  cbn [mbind outcome_bind]. unfold map_field. cbn [as_array mbind outcome_bind].
  rewrite !(pluck_objects _ recent Hrecent), !(pluck_objects _ fd Hobj).
  cbn [mbind outcome_bind].
  unfold lastHistoricalValueOf. rewrite (last_object recent Hrecent).
  cbn [mbind outcome_bind].
  rewrite (mapO_ret _ (fun d => or_else (field "approved_funding" d) VNull)).
  - reflexivity.
  - eapply Forall_impl; [exact Hobj|]. intros d Hd.
    by rewrite (get_object _ d Hd).
Qed.

Lemma createForecastChart_draws (s : state) (forecast temporal : list (string * value))
    (h fd : list value) (cy : Q) :
  get (globalData s) "forecast" = Ret (VObj forecast) ->
  get (globalData s) "temporal" = Ret (VObj temporal) ->
  lookup_prop "yearly_totals" temporal = Some (VArr h) ->
  Forall (fun d => dated d = true) h ->
  lookup_prop "current_year" forecast = Some (num cy) ->
  lookup_prop "forecast" forecast = Some (VArr fd) ->
  Forall (fun d => is_object d = true) fd ->
  createForecastChart s
  = (Ret tt, with_chart "temporal" "temporalChart"
               (forecastChartOf (List.filter (year_within (binary64 (cy - 10)) cy) h) fd) s).
Proof.
  intros Hf Ht Hh Hdated Hcy Hfd Hobj.
  unfold createForecastChart.
  rewrite run_bind, run_document_of, Hf, run_bind, run_document_of, Ht.
  rewrite run_bind, run_lift.
  by rewrite (forecastConfig_ret forecast temporal h fd cy).
Qed.


Lemma nulls_length {A} (l : list A) : length (nulls l) = length l.
Proof. unfold nulls. apply length_map. Qed.







(** *** Frames *)

Lemma preserves_ret {A X} (proj : state -> X) (a : A) : preserves proj (mret a).
Proof. by intros s. Qed.

Lemma preserves_lift {A X} (proj : state -> X) (o : outcome A) : preserves proj (lift o).
Proof. by intros s. Qed.

Lemma preserves_gets {A X} (proj : state -> X) (f : state -> A) : preserves proj (gets f).
Proof. by intros s. Qed.

Lemma preserves_modify {X} (proj : state -> X) (f : state -> state) :
  (forall s, proj (f s) = proj s) -> preserves proj (modify f).
Proof. intros H s. apply H. Qed.

Lemma preserves_bind {A B X} (proj : state -> X) (m : M A) (f : A -> M B) :
  preserves proj m -> (forall a, preserves proj (f a)) -> preserves proj (m ≫= f).
Proof.
  intros Hm Hf s. rewrite run_bind. specialize (Hm s).
  destruct (m s) as [[a|e|] s']; cbn [snd] in *; [|done..].
  by rewrite Hf.
Qed.


Lemma try_catch_frame {A X} (proj : state -> X) (m : M A) (h : string -> M A)
    (s : state) :
  (forall e, preserves proj (h e)) -> proj (snd (try_catch m h s)) = proj (snd (m s)).
Proof.
  intros Hh. unfold try_catch. destruct (m s) as [[a|e|] s']; cbn [snd]; [done| |done].
  apply Hh.
Qed.

Ltac frame_step :=
  lazymatch goal with
  | |- preserves _ (_ ≫= _) => apply preserves_bind; [|intros ?]
  | |- preserves _ (mret _) => apply preserves_ret
  | |- preserves _ (lift _) => apply preserves_lift
  | |- preserves _ (gets _) => apply preserves_gets
  | |- preserves _ (modify _) =>
      apply preserves_modify; intros ?; unfold with_chart, without_chart;
      repeat case_match; reflexivity
  | |- preserves _ (if ?b then _ else _) => destruct b
  | |- preserves _ (match ?x with _ => _ end) => destruct x
  end.

Ltac frame := repeat frame_step.


Lemma fetch_all_run (fs : list string) (s : state) :
  fetch_all fs s
  = (Ret (map (fun f => network s ("data/" ++ f)) fs),
     set_requests (requests s ++ map (String.append "data/") fs)%list s).
Proof.
  revert s. induction fs as [|f fs IH]; intros s.
  - cbn. rewrite app_nil_r. by destruct s.
  - cbn [fetch_all map]. rewrite run_bind. unfold fetch at 1.
    rewrite run_bind, IH. cbn. by rewrite <- app_assoc.
Qed.


(** *** Drill-down *)

Lemma presentDrilldown_needs_object (data : value) (title subtitle : string) (s : state) :
  is_object data = false ->
  modal (snd (presentDrilldown data title subtitle s)) = modal s.
Proof.
  intros H. unfold presentDrilldown, setTextContent, setDisplay.
  rewrite !run_bind, !run_modify.
  destruct data; try discriminate H; reflexivity.
Qed.

(** Only a property of its own gives an object or a string. *)
Lemma get_object_inv (v : value) (k : string) (d : list (string * value)) :
  get v k = Ret (VObj d) ->
  exists props, v = VObj props /\ lookup_prop k props = Some (VObj d).
Proof.
  unfold get, inherited. intros H. destruct v as [| |b|n|t|l|props|m]; try discriminate H.
  - destruct (is_member k prototype_members); discriminate H.
  - destruct (is_member k number_members), (is_member k prototype_members);
      discriminate H.
  - destruct (String.eqb k "length"); discriminate H.
  - destruct (String.eqb k "length"); discriminate H.
  - exists props. split; [done|].
    destruct (lookup_prop k props) as [v|]; cbn [from_option id] in H.
    + by injection H as ->.
    + destruct (is_member k prototype_members); discriminate H.
  - destruct (is_member k trend_fields); discriminate H.
Qed.

Lemma get_opt_object_inv (v : value) (k : string) (d : list (string * value)) :
  get_opt v k = Ret (VObj d) ->
  exists props, v = VObj props /\ lookup_prop k props = Some (VObj d).
Proof. intros H. apply get_object_inv. by destruct v. Qed.

Lemma get_string_field (v : value) (k n : string) :
  get v k = Ret (VStr n) -> field k v = VStr n.
Proof.
  unfold get, field, inherited. intros H.
  destruct v as [| |b|x|t|l|props|m]; try discriminate H.
  - destruct (is_member k prototype_members); discriminate H.
  - destruct (is_member k number_members), (is_member k prototype_members);
      discriminate H.
  - destruct (String.eqb k "length"); discriminate H.
  - destruct (String.eqb k "length"); discriminate H.
  - by injection H.
  - destruct (is_member k trend_fields); discriminate H.
Qed.

Lemma lookup_chain (g trends known data : value) (doc kind name : string) :
  get g doc = Ret trends ->
  get_opt trends kind = Ret known ->
  get_opt known name = Ret data ->
  is_object data = true ->
  entry_of g doc kind name = Some data.
Proof.
  intros Hg Hk Hd Hobj. destruct data as [| | | | | |e|]; try discriminate Hobj.
  apply get_opt_object_inv in Hd as (kn & -> & Hname).
  apply get_opt_object_inv in Hk as (d & -> & Hkind).
  apply get_object_inv in Hg as (props & -> & Hdoc).
  unfold entry_of. cbn [field]. rewrite Hdoc. cbn [from_option id]. by rewrite Hkind.
Qed.

Lemma drilldownSelect_run (type name : string) (s : state) :
  exists o, drilldownSelect type name s = (o, s) /\
    forall data title subtitle,
      o = Ret (Some (data, title, subtitle)) -> is_object data = true ->
      is_key (globalData s) type name = true.
Proof.
  unfold drilldownSelect, is_key, trend_source.
  repeat match goal with
  | |- context [if String.eqb type ?k then _ else _] => destruct (String.eqb type k)
  end;
  try (eexists; split; [reflexivity|]; intros; discriminate);
  rewrite run_bind, run_document_of;
  (destruct (get (globalData s) _) as [trends| |] eqn:Hg;
     [|eexists; split; [reflexivity|]; intros; discriminate..]);
  rewrite run_bind, run_lift;
  (destruct (get_opt trends _) as [known| |] eqn:Hk; cbn [mbind outcome_bind];
     [|eexists; split; [reflexivity|]; intros; discriminate..]);
  (destruct (get_opt known name) as [data| |] eqn:Hd;
     [|eexists; split; [reflexivity|]; intros; discriminate..]);
  try rewrite run_bind, run_lift;
  try (match goal with
       | |- context [mbind _ (get_opt data "state")] =>
           destruct (mbind _ (get_opt data "state")) as [suffix| |];
             [|eexists; split; [reflexivity|]; intros; discriminate..]
       end);
  (eexists; split; [reflexivity|]);
  intros data' title subtitle [= <- _ _] Hobj;
  apply bool_decide_eq_true;
  rewrite (lookup_chain _ _ _ _ _ _ _ Hg Hk Hd Hobj); eauto.
Qed.

Lemma showDrilldown_needs_key (type name : string) (s : state) :
  is_key (globalData s) type name = false ->
  modal (snd (showDrilldown type name s)) = modal s.
Proof.
  intros Hkey. unfold showDrilldown. rewrite run_bind.
  destruct (drilldownSelect_run type name s) as (o & -> & Ho).
  destruct o as [[[[data title] subtitle]|]| |]; try reflexivity.
  destruct (truthy data); cbn [negb]; [|reflexivity].
  destruct (is_object data) eqn:Hobj.
  - rewrite (Ho data title subtitle eq_refl Hobj) in Hkey. discriminate.
  - by apply presentDrilldown_needs_object.
Qed.

(** A property read by a name that is no member of a prototype gives the
    field. *)
Lemma get_field (g v : value) (k : string) :
  get g k = Ret v -> String.eqb k "length" = false ->
  is_member k number_members = false -> is_member k prototype_members = false ->
  field k g = v.
Proof.
  intros Hg Hl Hn Hp. unfold get, field, inherited in *.
  destruct g; rewrite ?Hl, ?Hn, ?Hp in *; try discriminate Hg; try (by injection Hg).
  destruct (is_member k trend_fields); [by injection Hg|discriminate Hg].
Qed.

Lemma trend_source_cases (type doc kind : string) :
  trend_source type = Some (doc, kind) ->
  (type = "keyword" /\ doc = "keywordTrends" /\ kind = "keywords") \/
  (type = "state" /\ doc = "entityTrends" /\ kind = "states") \/
  (type = "city" /\ doc = "entityTrends" /\ kind = "cities") \/
  (type = "recipient" /\ doc = "entityTrends" /\ kind = "recipients").
Proof.
  unfold trend_source.
  destruct (String.eqb_spec type "keyword") as [->|_]; [intros [= <- <-]; tauto|].
  destruct (String.eqb_spec type "state") as [->|_]; [intros [= <- <-]; tauto|].
  destruct (String.eqb_spec type "city") as [->|_]; [intros [= <- <-]; tauto|].
  destruct (String.eqb_spec type "recipient") as [->|_]; [intros [= <- <-]; tauto|].
  discriminate.
Qed.

Lemma trend_source_kind (type doc kind : string) :
  trend_source type = Some (doc, kind) ->
  is_member kind prototype_members = false /\
  String.eqb doc "length" = false /\ is_member doc number_members = false /\
  is_member doc prototype_members = false.
Proof.
  intros H. apply trend_source_cases in H
    as [(_ & -> & ->)|[(_ & -> & ->)|[(_ & -> & ->)|(_ & -> & ->)]]]; done.
Qed.

(** What the chain [trends?.kind?.[name]] finds in a document that holds
    the collection as an object, or not at all. *)
Lemma trend_lookup (trends : value) (kind : string) :
  is_member kind prototype_members = false ->
  keyed trends kind = true ->
  exists known, get_opt trends kind = Ret known /\
    (forall name, get_opt known name = Ret (trend_of trends kind name)) /\
    (forall name, get_opt_at known (VStr name) = Ret (trend_of trends kind name)).
Proof.
  intros Hkind H. destruct trends as [| | | | | |d|]; try discriminate H.
  - by exists VUndef.
  - by exists VUndef.
  - cbn in H |- *. unfold inherited. rewrite Hkind.
    destruct (lookup_prop kind d) as [[| | | | | |known|]|]; try discriminate H.
    + by exists VNull.
    + by exists (VObj known).
    + by exists VUndef.
Qed.

(** Without an own entry the chain finds the inherited member, if the
    name is that of one, and else nothing. *)
Lemma trend_of_missing (g trends : value) (doc kind name : string) :
  field doc g = trends -> entry_of g doc kind name = None ->
  trend_of trends kind name = VUndef \/
  (trend_of trends kind name = VNative name /\
   is_member name prototype_members = true).
Proof.
  unfold entry_of, trend_of, inherited. intros -> H.
  destruct trends as [| | | | | |d|]; try (by left).
  destruct (lookup_prop kind d) as [[| | | | | |known|]|]; try (by left).
  rewrite H. cbn [from_option id].
  destruct (is_member name prototype_members); [by right|by left].
Qed.

Lemma drilldownSelect_plain (type doc kind name : string) (trends data : value)
    (s : state) :
  trend_source type = Some (doc, kind) ->
  get (globalData s) doc = Ret trends ->
  keyed trends kind = true ->
  trend_of trends kind name = data ->
  get_opt data "state" = Ret VUndef ->
  exists title subtitle,
    drilldownSelect type name s = (Ret (Some (data, title, subtitle)), s).
Proof.
  intros Hsrc Hg Hkeyed Hdata Hstate.
  destruct (trend_source_kind _ _ _ Hsrc) as (Hkind & _).
  destruct (trend_lookup trends kind Hkind Hkeyed) as (known & Hknown & Hhit & _).
  apply trend_source_cases in Hsrc
    as [(-> & -> & ->)|[(-> & -> & ->)|[(-> & -> & ->)|(-> & -> & ->)]]];
    unfold drilldownSelect; cbn [String.eqb Ascii.eqb Bool.eqb];
    rewrite !run_bind, run_document_of, Hg, run_bind, run_lift, Hknown;
    cbn [mbind outcome_bind]; rewrite Hhit, Hdata;
    rewrite ?run_bind, ?run_lift, ?Hstate; by do 2 eexists.
Qed.

Lemma showDrilldown_no_entry (type doc kind name : string) (trends : value) (s : state) :
  trend_source type = Some (doc, kind) ->
  get (globalData s) doc = Ret trends ->
  keyed trends kind = true ->
  entry_of (globalData s) doc kind name = None ->
  is_member name prototype_members = false ->
  showDrilldown type name s
  = (Ret tt,
     set_console (console s ++ [ConsoleError ("No trend data for " ++ type ++ ": " ++ name)])%list
       s).
Proof.
  intros Hsrc Hg Hkeyed Hnone Hname.
  destruct (trend_source_kind _ _ _ Hsrc) as (_ & H1 & H2 & H3).
  destruct (trend_of_missing _ trends _ _ _ (get_field _ _ _ Hg H1 H2 H3) Hnone)
    as [Hdata|[_ Hmember]]; [|congruence].
  destruct (drilldownSelect_plain _ _ _ name _ _ s Hsrc Hg Hkeyed Hdata eq_refl)
    as (title & subtitle & Hsel).
  unfold showDrilldown. by rewrite run_bind, Hsel.
Qed.

(** On a built-in object the texts are written up to the total funding,
    which throws. *)
Lemma presentDrilldown_native (m title subtitle : string) (s : state) :
  let r := presentDrilldown (VNative m) title subtitle s in
  fst r = TypeError /\
  textContent (snd r) !! "modalTitle" = Some title /\
  modal (snd r) = modal s /\ console (snd r) = console s.
Proof.
  cbv zeta. unfold presentDrilldown, setTextContent, setDisplay.
  rewrite run_bind, run_modify, run_bind, run_modify, run_bind, run_lift.
  change (get (VNative m) "total_projects") with (Ret VUndef : outcome value).
  cbn [mbind outcome_bind formatNumber].
  rewrite run_bind, run_modify, run_bind, run_lift.
  change (get (VNative m) "total_funding") with (Ret VUndef : outcome value).
  cbn [mbind outcome_bind].
  change (formatCurrency VUndef true) with (Throw "TypeError" : outcome string).
  cbn [fst snd textContent set_textContent].
  repeat match goal with |- _ /\ _ => split end; try reflexivity.
  by rewrite lookup_insert_ne, lookup_insert_ne, lookup_insert_eq.
Qed.

Lemma showDrilldown_inherited (type doc kind name : string) (trends : value) (s : state) :
  trend_source type = Some (doc, kind) ->
  get (globalData s) doc = Ret trends ->
  keyed trends kind = true ->
  trend_of trends kind name = VNative name ->
  let r := showDrilldown type name s in
  fst r = TypeError /\
  is_Some (textContent (snd r) !! "modalTitle") /\
  modal (snd r) = modal s /\ console (snd r) = console s.
Proof.
  intros Hsrc Hg Hkeyed Hdata r. subst r.
  destruct (drilldownSelect_plain _ _ _ name _ _ s Hsrc Hg Hkeyed Hdata eq_refl)
    as (title & subtitle & Hsel).
  unfold showDrilldown. rewrite run_bind, Hsel. cbn [truthy negb].
  destruct (presentDrilldown_native name title subtitle s) as (H1 & H2 & H3 & H4).
  repeat match goal with |- _ /\ _ => split end; eauto.
Qed.

Lemma barClick_needs_key (kind fld type : string) (data : list value)
    (elements : list nat) (s : state) :
  (forall n, clicked fld data elements = VStr n ->
             is_key (globalData s) type n = false) ->
  modal (snd (barClick kind fld (showDrilldown type) data elements s)) = modal s.
Proof.
  intros Hkey. unfold barClick. destruct elements as [|index rest]; [reflexivity|].
  rewrite run_bind, run_lift.
  destruct (get (default VUndef (data !! index)) fld) as [name| |] eqn:Hname;
    [|reflexivity..].
  rewrite run_bind, run_document_of.
  destruct (get (globalData s) "entityTrends") as [trends| |]; [|reflexivity..].
  rewrite run_bind, run_lift.
  destruct (mbind _ (get_opt trends kind)) as [hit| |]; [|reflexivity..].
  destruct (truthy hit); [|reflexivity].
  rewrite run_bind, run_lift.
  destruct name; try reflexivity. cbn [as_string].
  apply showDrilldown_needs_key, Hkey. cbn [clicked].
  by apply get_string_field.
Qed.

Lemma bind_Ret_inv {A B} (o : outcome A) (f : A -> outcome B) (r : B) :
  o ≫= f = Ret r -> exists a, o = Ret a /\ f a = Ret r.
Proof. destruct o; cbn; [eauto|discriminate..]. Qed.

Lemma handler_click_needs_key (type text : string) (s : state) :
  (forall argument, handler_argument text = Some argument ->
                    is_key (globalData s) type argument = false) ->
  modal (snd (handler_click (showDrilldown type) (Some text) s)) = modal s.
Proof.
  intros H. unfold handler_click.
  destruct (handler_argument text) as [argument|] eqn:E; [|reflexivity].
  by apply showDrilldown_needs_key, H.
Qed.

Lemma recipientRow_onclick (entityTrends recipient : value) (index : nat)
    (row : table_row) :
  recipientRow entityTrends index recipient = Ret row ->
  row_onclick row = None \/
  exists n, field "name" recipient = VStr n /\ row_onclick row = Some (escape_quotes n).
Proof.
  intros Hrow. unfold recipientRow in Hrow.
  apply bind_Ret_inv in Hrow as (name & Hname & Hrow).
  apply bind_Ret_inv in Hrow as (known & Hknown & Hrow).
  apply bind_Ret_inv in Hrow as (hit & Hhit & Hrow).
  apply bind_Ret_inv in Hrow as (clickAttr & Hclick & Hrow).
  repeat (apply bind_Ret_inv in Hrow as (? & _ & Hrow)).
  injection Hrow as <-. cbn [row_onclick].
  destruct (truthy hit); [|left; by injection Hclick as <-].
  destruct name as [| | | |n| | |]; try discriminate Hclick. injection Hclick as <-.
  right. exists n. split; [by apply get_string_field|done].
Qed.

Lemma recipientRow_click_needs_key (entityTrends recipient : value) (index : nat)
    (row : table_row) (s : state) :
  recipientRow entityTrends index recipient = Ret row ->
  (forall n, field "name" recipient = VStr n ->
             is_key (globalData s) "recipient" n = false /\
             forall argument, handler_argument (escape_quotes n) = Some argument ->
                              argument = n) ->
  modal (snd (recipientRow_click row s)) = modal s.
Proof.
  intros Hrow Hkey. unfold recipientRow_click.
  destruct (recipientRow_onclick _ _ _ _ Hrow) as [->|(n & Hn & ->)]; [reflexivity|].
  destruct (Hkey n Hn) as [Hno Hback].
  apply (handler_click_needs_key "recipient"). intros argument Ha.
  by rewrite (Hback argument Ha).
Qed.

Lemma keywordTag_onclick (keywordTrends keyword : value) (maxCount : number)
    (tag : keyword_tag) :
  keywordTag keywordTrends maxCount keyword = Ret tag ->
  kw_onclick tag = None \/
  exists w, to_string (field "word" keyword) = Ret w /\ kw_onclick tag = Some w.
Proof.
  intros Htag. unfold keywordTag in Htag.
  apply bind_Ret_inv in Htag as (count & _ & Htag).
  apply bind_Ret_inv in Htag as (ratio & _ & Htag).
  apply bind_Ret_inv in Htag as (word & Hword & Htag).
  apply bind_Ret_inv in Htag as (known & _ & Htag).
  apply bind_Ret_inv in Htag as (hit & _ & Htag).
  apply bind_Ret_inv in Htag as (clickAttr & Hclick & Htag).
  apply bind_Ret_inv in Htag as (matches & _ & Htag).
  apply bind_Ret_inv in Htag as (text & Htext & Htag).
  injection Htag as <-. cbn [kw_onclick].
  destruct (truthy hit); [|left; by injection Hclick as <-].
  apply bind_Ret_inv in Hclick as (w & Hw & [= <-]).
  right. exists w. split; [|done].
  rewrite <- Hw. f_equal.
  destruct keyword as [| |b|x|t|l|props|m]; cbn in Hword |- *;
    try discriminate Hword; by injection Hword as <-.
Qed.

Lemma keywordTag_click_needs_key (keywordTrends keyword : value) (maxCount : number)
    (tag : keyword_tag) (s : state) :
  keywordTag keywordTrends maxCount keyword = Ret tag ->
  (forall w, to_string (field "word" keyword) = Ret w ->
             is_key (globalData s) "keyword" w = false /\
             forall argument, handler_argument w = Some argument -> argument = w) ->
  modal (snd (keywordTag_click tag s)) = modal s.
Proof.
  intros Htag Hkey. unfold keywordTag_click.
  destruct (keywordTag_onclick _ _ _ _ Htag) as [->|(w & Hw & ->)]; [reflexivity|].
  destruct (Hkey w Hw) as [Hno Hback].
  apply (handler_click_needs_key "keyword"). intros argument Ha.
  by rewrite (Hback argument Ha).
Qed.

(** X24.  Drill-down entries are looked up by name, in the collection of
    the type ([keywordTrends.keywords], [entityTrends.states],
    [entityTrends.cities], [entityTrends.recipients]).  Wherever the
    evaluation is modelled, [showDrilldown] leaves the modal hidden and
    builds no chart for a name that is not a key of the collection; so do
    a click on a state or city bar whose name is not such a key, and a
    click on a row of the recipients table or on a tag of the keyword
    cloud whose name is not such a key and is read back by the browser as
    it is, or not at all.  Where the collection is an object, or is not
    there, a name that is not among its keys makes [showDrilldown] log an
    error and return, unless it is the name of a member every object
    inherits ([constructor], [toString], ...): for such a name the lookup
    finds the inherited member, and [showDrilldown] writes the title and
    throws a [TypeError] at the total funding, before the modal is shown
    and without logging. *)
Theorem drilldown_by_key :
  (forall (type name : string) (s : state),
      fst (showDrilldown type name s) <> Unmodelled ->
      is_key (globalData s) type name = false ->
      modal (snd (showDrilldown type name s)) = modal s) /\
  (forall (mode : string) (data : list value) (elements : list nat) (s : state),
      fst (geoChart_onClick mode data elements s) <> Unmodelled ->
      (forall n, clicked "name" data elements = VStr n ->
                 is_key (globalData s) "state" n = false) ->
      modal (snd (geoChart_onClick mode data elements s)) = modal s) /\
  (forall (data : list value) (elements : list nat) (s : state),
      fst (cityChart_onClick data elements s) <> Unmodelled ->
      (forall n, clicked "city" data elements = VStr n ->
                 is_key (globalData s) "city" n = false) ->
      modal (snd (cityChart_onClick data elements s)) = modal s) /\
  (forall (entityTrends recipient : value) (index : nat) (row : table_row) (s : state),
      recipientRow entityTrends index recipient = Ret row ->
      fst (recipientRow_click row s) <> Unmodelled ->
      (forall n, field "name" recipient = VStr n ->
                 is_key (globalData s) "recipient" n = false /\
                 forall argument, handler_argument (escape_quotes n) = Some argument ->
                                  argument = n) ->
      modal (snd (recipientRow_click row s)) = modal s) /\
  (forall (keywordTrends keyword : value) (maxCount : number) (tag : keyword_tag)
          (s : state),
      keywordTag keywordTrends maxCount keyword = Ret tag ->
      fst (keywordTag_click tag s) <> Unmodelled ->
      (forall w, to_string (field "word" keyword) = Ret w ->
                 is_key (globalData s) "keyword" w = false /\
                 forall argument, handler_argument w = Some argument -> argument = w) ->
      modal (snd (keywordTag_click tag s)) = modal s) /\
  (forall (type doc kind name : string) (trends : value) (s : state),
      trend_source type = Some (doc, kind) ->
      get (globalData s) doc = Ret trends ->
      keyed trends kind = true ->
      entry_of (globalData s) doc kind name = None ->
      is_member name prototype_members = false ->
      showDrilldown type name s
      = (Ret tt,
         set_console
           (console s ++ [ConsoleError ("No trend data for " ++ type ++ ": " ++ name)])%list
           s)) /\
  (forall (type doc kind name : string) (trends : value) (s : state),
      trend_source type = Some (doc, kind) ->
      get (globalData s) doc = Ret trends ->
      keyed trends kind = true ->
      trend_of trends kind name = VNative name ->
      let r := showDrilldown type name s in
      fst r = TypeError /\
      is_Some (textContent (snd r) !! "modalTitle") /\
      modal (snd r) = modal s /\ console (snd r) = console s).
Proof.
  split; [intros type name s _; apply showDrilldown_needs_key|].
  split.
  { intros mode data elements s _ Hkey. unfold geoChart_onClick.
    destruct (String.eqb mode "total"); [|reflexivity].
    by apply (barClick_needs_key "states" "name" "state"). }
  split.
  { intros data elements s _ Hkey.
    by apply (barClick_needs_key "cities" "city" "city"). }
  split.
  { intros entityTrends recipient index row s Hrow _.
    by apply (recipientRow_click_needs_key entityTrends recipient index). }
  split.
  { intros keywordTrends keyword maxCount tag s Htag _.
    by apply (keywordTag_click_needs_key keywordTrends keyword maxCount). }
  split; [exact showDrilldown_no_entry|exact showDrilldown_inherited].
Qed.

(** *** Fields are read by name *)

Lemma lookup_rename_gone (k k' : string) (props : list (string * value)) :
  k' <> k -> lookup_prop k (rename_prop k k' props) = None.
Proof.
  intros Hne. induction props as [|[x v] props IH]; [done|].
  cbn [rename_prop map lookup_prop fst snd]. fold (rename_prop k k' props).
  destruct (String.eqb_spec x k) as [->|Hx].
  - destruct (String.eqb_spec k k') as [->|_]; [done|exact IH].
  - destruct (String.eqb_spec k x) as [->|_]; [done|exact IH].
Qed.

Lemma lookup_rename_other (x k k' : string) (props : list (string * value)) :
  x <> k -> x <> k' ->
  lookup_prop x (rename_prop k k' props) = lookup_prop x props.
Proof.
  intros Hk Hk'. induction props as [|[y v] props IH]; [done|].
  cbn [rename_prop map lookup_prop fst snd]. fold (rename_prop k k' props).
  destruct (String.eqb_spec y k) as [->|Hy].
  - destruct (String.eqb_spec x k') as [->|_]; [done|].
    destruct (String.eqb_spec x k) as [->|_]; [done|exact IH].
  - destruct (String.eqb_spec x y) as [->|_]; [done|exact IH].
Qed.

Lemma field_rename_gone (k k' : string) (d : value) :
  is_member k prototype_members = false -> k' <> k ->
  field k (rename_field k k' d) = VUndef.
Proof.
  intros Hk Hne. destruct d; try reflexivity.
  cbn [rename_field field]. unfold inherited. by rewrite lookup_rename_gone, Hk.
Qed.

Lemma field_rename_other (x k k' : string) (d : value) :
  x <> k -> x <> k' -> field x (rename_field k k' d) = field x d.
Proof.
  intros Hk Hk'. destruct d; try reflexivity.
  cbn [rename_field field]. by rewrite lookup_rename_other.
Qed.

Lemma is_object_rename (k k' : string) (d : value) :
  is_object (rename_field k k' d) = is_object d.
Proof. by destruct d. Qed.

Lemma Forall_object_rename (k k' : string) (l : list value) :
  Forall (fun d => is_object d = true) l ->
  Forall (fun d => is_object d = true) (map (rename_field k k') l).
Proof.
  intros H. apply Forall_map. eapply Forall_impl; [exact H|].
  intros d Hd. cbn. by rewrite is_object_rename.
Qed.

(** A series read through [k] is not the same once [k] is renamed in the
    entries, as soon as one entry had the field. *)
Lemma series_changes (k k' : string) (l : list value) :
  k' <> k -> Exists (fun d => field k d <> VUndef) l ->
  is_member k prototype_members = false ->
  map (field k) (map (rename_field k k') l) <> map (field k) l.
Proof.
  intros Hne Hex Hk Heq. induction Hex as [d l Hd|d l _ IH].
  - cbn in Heq. injection Heq as Heq _. by rewrite field_rename_gone in Heq.
  - cbn in Heq. injection Heq as _ Heq. by apply IH.
Qed.

Lemma series_same (x k k' : string) (l : list value) :
  x <> k -> x <> k' ->
  map (field x) (map (rename_field k k') l) = map (field x) l.
Proof.
  intros Hk Hk'. rewrite map_map. apply map_ext. intros d.
  by apply field_rename_other.
Qed.

Lemma approved_changes (k' : string) (l : list value) :
  k' <> "approved_funding" ->
  Exists (fun d => truthy (field "approved_funding" d) = true) l ->
  map (fun d => or_else (field "approved_funding" d) VNull)
      (map (rename_field "approved_funding" k') l)
  <> map (fun d => or_else (field "approved_funding" d) VNull) l.
Proof.
  intros Hne Hex Heq. induction Hex as [d l Hd|d l _ IH].
  - cbn in Heq. injection Heq as Heq _. rewrite field_rename_gone in Heq by done.
    unfold or_else in Heq. rewrite Hd in Heq. cbn in Heq.
    rewrite <- Heq in Hd. discriminate Hd.
  - cbn in Heq. injection Heq as _ Heq. by apply IH.
Qed.

Lemma approved_same (k' : string) (l : list value) :
  k' <> "approved_funding" ->
  Forall (fun d => truthy (field "approved_funding" d) = false) l ->
  map (fun d => or_else (field "approved_funding" d) VNull)
      (map (rename_field "approved_funding" k') l)
  = map (fun d => or_else (field "approved_funding" d) VNull) l.
Proof.
  intros Hne H. induction H as [|d l Hd _ IH]; [done|].
  cbn [map]. rewrite IH. f_equal.
  rewrite field_rename_gone by done. unfold or_else. by rewrite Hd.
Qed.

Lemma nulls_map {A B} (f : A -> B) (l : list A) : nulls (map f l) = nulls l.
Proof. unfold nulls. by rewrite map_map. Qed.

Lemma forecast_bound_renamed (forecast forecast' temporal : list (string * value))
    (h fd : list value) (cy : Q) (k k' : string) :
  k = "upper_bound" \/ k = "lower_bound" -> k' <> k ->
  lookup_prop "yearly_totals" temporal = Some (VArr h) ->
  Forall (fun d => dated d = true) h ->
  lookup_prop "current_year" forecast = Some (num cy) ->
  lookup_prop "forecast" forecast = Some (VArr fd) ->
  lookup_prop "current_year" forecast' = Some (num cy) ->
  lookup_prop "forecast" forecast' = Some (VArr (map (rename_field k k') fd)) ->
  Forall (fun d => is_object d = true) fd ->
  Exists (fun d => field k d <> VUndef) fd ->
  forecastConfig (VObj forecast') (VObj temporal)
  <> forecastConfig (VObj forecast) (VObj temporal).
Proof.
  intros Hk Hne Hh Hdated Hcy Hfd Hcy' Hfd' Hobj Hex.
  rewrite (forecastConfig_ret forecast temporal h fd cy) by done.
  rewrite (forecastConfig_ret forecast' temporal h _ cy)
    by (try done; by apply Forall_object_rename).
  unfold forecastChartOf, stitched. intros Heq.
  destruct Hk as [-> | ->];
    [apply (f_equal (fun o => c ← o; Ret (ds_data <$> ch_datasets c !! 2%nat))) in Heq
    |apply (f_equal (fun o => c ← o; Ret (ds_data <$> ch_datasets c !! 3%nat))) in Heq];
    cbn in Heq; injection Heq as Heq; apply app_inv_head in Heq;
    injection Heq as Heq; by eapply series_changes.
Qed.

Lemma forecast_approved_renamed (forecast forecast' temporal : list (string * value))
    (h fd : list value) (cy : Q) (k' : string) :
  k' <> "approved_funding" ->
  lookup_prop "yearly_totals" temporal = Some (VArr h) ->
  Forall (fun d => dated d = true) h ->
  lookup_prop "current_year" forecast = Some (num cy) ->
  lookup_prop "forecast" forecast = Some (VArr fd) ->
  lookup_prop "current_year" forecast' = Some (num cy) ->
  lookup_prop "forecast" forecast'
    = Some (VArr (map (rename_field "approved_funding" k') fd)) ->
  Forall (fun d => is_object d = true) fd ->
  (Exists (fun d => truthy (field "approved_funding" d) = true) fd ->
     forecastConfig (VObj forecast') (VObj temporal)
     <> forecastConfig (VObj forecast) (VObj temporal)) /\
  (Forall (fun d => truthy (field "approved_funding" d) = false) fd ->
   k' ∉ forecast_fields ->
     forecastConfig (VObj forecast') (VObj temporal)
     = forecastConfig (VObj forecast) (VObj temporal)).
Proof.
  intros Hne Hh Hdated Hcy Hfd Hcy' Hfd' Hobj.
  rewrite (forecastConfig_ret forecast temporal h fd cy) by done.
  rewrite (forecastConfig_ret forecast' temporal h _ cy)
    by (try done; by apply Forall_object_rename).
  unfold forecastChartOf, stitched. split.
  - intros Hex Heq.
    apply (f_equal (fun o => c ← o; Ret (ds_data <$> ch_datasets c !! 4%nat))) in Heq.
    cbn in Heq. injection Heq as Heq.
    apply app_inv_head in Heq. by eapply approved_changes.
  - intros Hall Hfresh. unfold forecast_fields in Hfresh.
    rewrite !not_elem_of_cons in Hfresh.
    destruct Hfresh as (H1 & H2 & H3 & H4 & _).
    rewrite !(series_same _ "approved_funding" k') by (try done; by apply not_eq_sym).
    rewrite nulls_map. by rewrite approved_same.
Qed.

Lemma temporal_field_renamed (s s' : state) (temporal temporal' : list (string * value))
    (l : list value) (k k' : string) :
  k = "total_funding" \/ k = "project_count" -> k' <> k ->
  get (globalData s) "temporal" = Ret (VObj temporal) ->
  lookup_prop "yearly_totals" temporal = Some (VArr l) ->
  get (globalData s') "temporal" = Ret (VObj temporal') ->
  lookup_prop "yearly_totals" temporal' = Some (VArr (map (rename_field k k') l)) ->
  Forall (fun d => is_object d = true) l ->
  Exists (fun d => field k d <> VUndef) l ->
  charts (snd (createTemporalChart "all" s')) !! "temporal"
  <> charts (snd (createTemporalChart "all" s)) !! "temporal".
Proof.
  intros Hk Hne Hdoc Hl Hdoc' Hl' Hobj Hex.
  rewrite (createTemporalChart_draws s temporal "all" l l) by done.
  rewrite (createTemporalChart_draws s' temporal' "all" _ (map (rename_field k k') l))
    by (try done; by apply Forall_object_rename).
  cbn [snd]. rewrite !charts_with_chart. intros Heq.
  destruct Hk as [-> | ->];
    [apply (f_equal (fun o => c ← o; Some (ds_data <$> ch_datasets c !! 0%nat))) in Heq
    |apply (f_equal (fun o => c ← o; Some (ds_data <$> ch_datasets c !! 1%nat))) in Heq];
    cbn in Heq; injection Heq as Heq; by eapply series_changes.
Qed.

Lemma findO_first (p : value -> outcome bool) (before after : list value) (e : value) :
  Forall (fun b => p b = Ret false) before -> p e = Ret true ->
  findO p (before ++ e :: after) = Ret e.
Proof.
  intros Hb He. induction Hb as [|b before Hb _ IH]; cbn [app findO].
  - by rewrite He.
  - by rewrite Hb.
Qed.

Lemma decadeShare_reads (decadeData : list (string * value)) (decade : string)
    (before after : list value) (e ministry : value) :
  lookup_prop decade decadeData = Some (VArr (before ++ e :: after)) ->
  Forall (fun b => is_object b = true /\
                   strict_eq (field "ministry" b) ministry = Ret false) before ->
  is_object e = true ->
  strict_eq (field "ministry" e) ministry = Ret true ->
  decadeShare (VObj decadeData) ministry decade = Ret (field "share_pct" e).
Proof.
  intros Hl Hb He Hm. unfold decadeShare. cbn [get]. rewrite Hl.
  cbn [from_option id or_else truthy as_array mbind outcome_bind].
  rewrite findO_first.
  - cbn [mbind outcome_bind]. destruct e; try discriminate He. reflexivity.
  - eapply Forall_impl; [exact Hb|]. intros b [Hobj Hne].
    by rewrite (get_object _ b Hobj).
  - by rewrite (get_object _ e He).
Qed.

Lemma drilldownConfig_reads (data : list (string * value)) (ys : list value) :
  lookup_prop "yearly" data = Some (VArr ys) ->
  Forall (fun d => is_object d = true) ys ->
  drilldownConfig (VObj data)
  = Ret {| ch_type := "bar"; ch_labels := map (field "year") ys;
           ch_datasets :=
             [ {| ds_label := VStr "Funding (€)"; ds_data := map (field "funding") ys |};
               {| ds_label := VStr "Projects"; ds_data := map (field "projects") ys |} ] |}.
Proof.
  intros Hy Hobj. unfold drilldownConfig, map_field. cbn [get]. rewrite Hy.
  cbn [from_option id as_array mbind outcome_bind].
  by rewrite !(pluck_objects _ ys Hobj).
Qed.

Lemma drilldownConfig_renamed (data : list (string * value)) (k' : string) :
  k' <> "yearly" ->
  drilldownConfig (VObj (rename_prop "yearly" k' data)) = TypeError.
Proof.
  intros Hne. unfold drilldownConfig. cbn [get].
  by rewrite lookup_rename_gone.
Qed.

(** C3.  The charts read their documents by field name.  The temporal
    chart draws [total_funding] and [project_count], the forecast chart
    [upper_bound], [lower_bound] and [approved_funding] of the forecast
    entries, the decade chart [share_pct] of the entry of a ministry, the
    drill-down chart the list [yearly] of a trend entry.  Renaming one of
    these fields in entries that carry it changes what is drawn: the value
    becomes [undefined], the drill-down chart is not built at all; only
    [approved_funding] is drawn as [null] both before and after, where its
    value is falsy ([0], [null]), so there the renaming changes the chart
    when some entry has a truthy value and not otherwise. *)
Theorem fields_by_name :
  (forall (s s' : state) (temporal temporal' : list (string * value))
          (l : list value) (k k' : string),
      k = "total_funding" \/ k = "project_count" -> k' <> k ->
      get (globalData s) "temporal" = Ret (VObj temporal) ->
      lookup_prop "yearly_totals" temporal = Some (VArr l) ->
      get (globalData s') "temporal" = Ret (VObj temporal') ->
      lookup_prop "yearly_totals" temporal' = Some (VArr (map (rename_field k k') l)) ->
      Forall (fun d => is_object d = true) l ->
      Exists (fun d => field k d <> VUndef) l ->
      charts (snd (createTemporalChart "all" s)) !! "temporal" = Some (temporalChartOf l) /\
      charts (snd (createTemporalChart "all" s')) !! "temporal"
      <> charts (snd (createTemporalChart "all" s)) !! "temporal") /\
  (forall (forecast forecast' temporal : list (string * value))
          (h fd : list value) (cy : Q) (k k' : string),
      k = "upper_bound" \/ k = "lower_bound" -> k' <> k ->
      lookup_prop "yearly_totals" temporal = Some (VArr h) ->
      Forall (fun d => dated d = true) h ->
      lookup_prop "current_year" forecast = Some (num cy) ->
      lookup_prop "forecast" forecast = Some (VArr fd) ->
      lookup_prop "current_year" forecast' = Some (num cy) ->
      lookup_prop "forecast" forecast' = Some (VArr (map (rename_field k k') fd)) ->
      Forall (fun d => is_object d = true) fd ->
      Exists (fun d => field k d <> VUndef) fd ->
      forecastConfig (VObj forecast') (VObj temporal)
      <> forecastConfig (VObj forecast) (VObj temporal)) /\
  (forall (forecast forecast' temporal : list (string * value))
          (h fd : list value) (cy : Q) (k' : string),
      k' <> "approved_funding" ->
      lookup_prop "yearly_totals" temporal = Some (VArr h) ->
      Forall (fun d => dated d = true) h ->
      lookup_prop "current_year" forecast = Some (num cy) ->
      lookup_prop "forecast" forecast = Some (VArr fd) ->
      lookup_prop "current_year" forecast' = Some (num cy) ->
      lookup_prop "forecast" forecast'
        = Some (VArr (map (rename_field "approved_funding" k') fd)) ->
      Forall (fun d => is_object d = true) fd ->
      (Exists (fun d => truthy (field "approved_funding" d) = true) fd ->
         forecastConfig (VObj forecast') (VObj temporal)
         <> forecastConfig (VObj forecast) (VObj temporal)) /\
      (Forall (fun d => truthy (field "approved_funding" d) = false) fd ->
       k' ∉ forecast_fields ->
         forecastConfig (VObj forecast') (VObj temporal)
         = forecastConfig (VObj forecast) (VObj temporal))) /\
  (forall (decadeData decadeData' : list (string * value)) (decade k' : string)
          (before after : list value) (e ministry : value),
      k' <> "share_pct" -> k' <> "ministry" ->
      lookup_prop decade decadeData = Some (VArr (before ++ e :: after)) ->
      lookup_prop decade decadeData'
        = Some (VArr (before ++ rename_field "share_pct" k' e :: after)) ->
      Forall (fun b => is_object b = true /\
                       strict_eq (field "ministry" b) ministry = Ret false) before ->
      is_object e = true ->
      strict_eq (field "ministry" e) ministry = Ret true ->
      decadeShare (VObj decadeData) ministry decade = Ret (field "share_pct" e) /\
      decadeShare (VObj decadeData') ministry decade = Ret VUndef) /\
  (forall (data : list (string * value)) (ys : list value) (k' : string),
      k' <> "yearly" ->
      lookup_prop "yearly" data = Some (VArr ys) ->
      Forall (fun d => is_object d = true) ys ->
      (exists c, drilldownConfig (VObj data) = Ret c /\
                 ch_labels c = map (field "year") ys) /\
      drilldownConfig (VObj (rename_prop "yearly" k' data)) = TypeError).
Proof.
  split; [|split; [|split; [|split]]].
  - intros s s' temporal temporal' l k k' Hk Hne Hdoc Hl Hdoc' Hl' Hobj Hex. split.
    + rewrite (createTemporalChart_draws s temporal "all" l l) by done.
      apply charts_with_chart.
    + by apply (temporal_field_renamed s s' temporal temporal' l k k').
  - exact forecast_bound_renamed.
  - exact forecast_approved_renamed.
  - intros decadeData decadeData' decade k' before after e ministry
      Hk1 Hk2 Hl Hl' Hb He Hm. split.
    + by apply (decadeShare_reads decadeData decade before after).
    + rewrite (decadeShare_reads decadeData' decade before after
                 (rename_field "share_pct" k' e) ministry Hl' Hb).
      * by rewrite field_rename_gone.
      * by rewrite is_object_rename.
      * by rewrite field_rename_other.
  - intros data ys k' Hne Hy Hobj. split.
    + eexists. split; [by apply drilldownConfig_reads|reflexivity].
    + by apply drilldownConfig_renamed.
Qed.

(** *** Which documents a function reads *)

Lemma reads_only_ret {A} (docs : list string) (a : A) : reads_only docs (mret a).
Proof. by intros s g' _. Qed.

Lemma reads_only_lift {A} (docs : list string) (o : outcome A) : reads_only docs (lift o).
Proof. by intros s g' _. Qed.

Lemma reads_only_document_of (docs : list string) (k : string) :
  k ∈ docs -> reads_only docs (document_of k).
Proof.
  intros Hk s g' Hagree. rewrite !run_document_of. cbn. by rewrite Hagree.
Qed.

Lemma reads_only_modify (docs : list string) (f : state -> state) :
  (forall s g', f (set_globalData g' s) = set_globalData g' (f s) /\
                globalData (f s) = globalData s) ->
  reads_only docs (modify f).
Proof.
  intros Hf s g' _. rewrite !run_modify. cbn. destruct (Hf s g') as [-> ->]. done.
Qed.

Lemma reads_only_bind {A B} (docs : list string) (m : M A) (f : A -> M B) :
  reads_only docs m -> (forall a, reads_only docs (f a)) -> reads_only docs (m ≫= f).
Proof.
  intros Hm Hf s g' Hagree. rewrite !run_bind.
  destruct (Hm s g' Hagree) as [Hrun Hsame]. rewrite Hrun.
  destruct (m s) as [[a|e|] s1]; cbn [fst snd] in *; [|done..].
  assert (Hagree1 : forall k, k ∈ docs -> get g' k = get (globalData s1) k)
    by (intros k Hk; rewrite Hsame; by apply Hagree).
  destruct (Hf a s1 g' Hagree1) as [Hrun1 Hsame1]. rewrite Hrun1.
  split; [by destruct (f a s1)|congruence].
Qed.

Ltac reads_step :=
  lazymatch goal with
  | |- reads_only _ (_ ≫= _) => apply reads_only_bind; [|intros ?]
  | |- reads_only _ (mret _) => apply reads_only_ret
  | |- reads_only _ (lift _) => apply reads_only_lift
  | |- reads_only _ (document_of _) =>
      apply reads_only_document_of; repeat constructor
  | |- reads_only _ (modify _) =>
      apply reads_only_modify; intros ? ?; unfold with_chart, without_chart;
      cbn; repeat case_match; done
  | |- reads_only _ (if ?b then _ else _) => destruct b
  | |- reads_only _ (match ?x with _ => _ end) => destruct x
  end.

Ltac reads :=
  unfold setTextContent, setInnerHTML, setDisplay, console_log, console_error,
    newChart, destroyChart;
  repeat reads_step.

Lemma createForecastChart_reads : reads_only ["forecast"; "temporal"] createForecastChart.
Proof. unfold createForecastChart. reads. Qed.

Lemma createTemporalChart_reads (range : string) :
  String.eqb range "forecast" = false ->
  reads_only ["temporal"] (createTemporalChart range).
Proof. intros H. unfold createTemporalChart. rewrite H. reads. Qed.

Lemma createMonthlyChart_reads : reads_only ["temporal"] createMonthlyChart.
Proof. unfold createMonthlyChart. reads. Qed.

Lemma createDecadeMinistryChart_reads : reads_only ["temporal"] createDecadeMinistryChart.
Proof. unfold createDecadeMinistryChart. reads. Qed.

Lemma createMinistryChart_reads : reads_only ["ministry"] createMinistryChart.
Proof. unfold createMinistryChart. reads. Qed.

Lemma createInternationalChart_reads : reads_only ["geographic"] createInternationalChart.
Proof. unfold createInternationalChart. reads. Qed.

Lemma createGeoChart_reads (mode : string) : reads_only ["geographic"] (createGeoChart mode).
Proof. unfold createGeoChart. reads. Qed.

Lemma createCityChart_reads : reads_only ["geographic"] createCityChart.
Proof. unfold createCityChart. reads. Qed.

Lemma createRecipientChart_reads : reads_only ["recipients"] createRecipientChart.
Proof. unfold createRecipientChart. reads. Qed.

Lemma createFundingTypeChart_reads : reads_only ["fundingTypes"] createFundingTypeChart.
Proof. unfold createFundingTypeChart. reads. Qed.

Lemma createDurationChart_reads : reads_only ["duration"] createDurationChart.
Proof. unfold createDurationChart. reads. Qed.

Lemma createTopicChart_reads : reads_only ["topics"] createTopicChart.
Proof. unfold createTopicChart. reads. Qed.

Lemma createJointChart_reads : reads_only ["jointProjects"] createJointChart.
Proof. unfold createJointChart. reads. Qed.

Lemma createProjekttraegerChart_reads :
  reads_only ["projekttraeger"] createProjekttraegerChart.
Proof. unfold createProjekttraegerChart. reads. Qed.

Lemma createFoerderprofilChart_reads :
  reads_only ["fundingTypes"] createFoerderprofilChart.
Proof. unfold createFoerderprofilChart. reads. Qed.

Lemma createKeywordsCloud_reads : reads_only ["topics"; "keywordTrends"] createKeywordsCloud.
Proof. unfold createKeywordsCloud. reads. Qed.

Lemma populateRecipientsTable_reads (sortBy : string) :
  reads_only ["recipients"; "entityTrends"] (populateRecipientsTable sortBy).
Proof. unfold populateRecipientsTable. reads. Qed.

(** *** Loading is all or nothing *)

Lemma promise_all_fails (net : string -> option value) (fs : list string) :
  Exists (fun f => net ("data/" ++ f) = None) fs ->
  exists e, promise_all fs (map (fun f => net ("data/" ++ f)) fs) = Throw e.
Proof.
  induction fs as [|f fs IH]; intros H; [by apply Exists_nil in H|].
  cbn [map promise_all]. destruct (net ("data/" ++ f)) as [v|] eqn:Hf; [|eauto].
  apply Exists_cons in H as [H|H]; [congruence|].
  destruct (IH H) as [e ->]. eauto.
Qed.

Lemma promise_all_ok (net : string -> option value) (fs : list string) :
  Forall (fun f => is_Some (net ("data/" ++ f))) fs ->
  promise_all fs (map (fun f => net ("data/" ++ f)) fs)
  = Ret (map (fun f => default VUndef (net ("data/" ++ f))) fs).
Proof.
  induction 1 as [|f fs [v Hf] _ IH]; [done|].
  cbn [map promise_all]. rewrite Hf, IH. reflexivity.
Qed.

Lemma loadData_fails (s : state) :
  Exists (fun f => network s ("data/" ++ f) = None) files ->
  loadData s = (Ret tt, load_failed s).
Proof.
  intros H. unfold loadData, try_catch. rewrite run_bind, fetch_all_run.
  rewrite run_bind, run_lift. cbn [network set_requests].
  destruct (promise_all_fails (network s) files H) as [e ->].
  reflexivity.
Qed.

Lemma loadData_ok (s : state) :
  Forall (fun f => is_Some (network s ("data/" ++ f))) files ->
  loadData s
  = try_catch initializeDashboard
      (fun _ => console_error "Error loading data:";;
                setInnerHTML ".main-content" error_panel)
      (set_globalData
         (loadedData (map (fun f => default VUndef (network s ("data/" ++ f))) files))
         (set_requests (requests s ++ urls)%list s)).
Proof.
  intros H. unfold loadData, try_catch. rewrite run_bind, fetch_all_run.
  rewrite run_bind, run_lift. cbn [network set_requests].
  rewrite (promise_all_ok (network s) files H).
  rewrite run_bind, run_modify. reflexivity.
Qed.

(** C2.  Which documents the rendering needs.  Every chart-construction
    function but the forecast chart builds its labels and series from one
    document of [globalData]; the forecast chart reads two, the forecast
    and the temporal document; the keyword cloud and the recipients table
    read their own document and look names up in a drill-down document.
    Loading is all or nothing: when one of the thirteen fetches fails,
    [loadData] logs the error and shows the error panel, and no chart is
    constructed; when all succeed it stores the documents and runs
    [initializeDashboard]. *)
Theorem documents_per_chart :
  ((forall range, String.eqb range "forecast" = false ->
                  reads_only ["temporal"] (createTemporalChart range)) /\
   reads_only ["temporal"] createMonthlyChart /\
   reads_only ["temporal"] createDecadeMinistryChart /\
   reads_only ["ministry"] createMinistryChart /\
   reads_only ["geographic"] createInternationalChart /\
   (forall mode, reads_only ["geographic"] (createGeoChart mode)) /\
   reads_only ["geographic"] createCityChart /\
   reads_only ["recipients"] createRecipientChart /\
   reads_only ["fundingTypes"] createFundingTypeChart /\
   reads_only ["duration"] createDurationChart /\
   reads_only ["topics"] createTopicChart /\
   reads_only ["jointProjects"] createJointChart /\
   reads_only ["projekttraeger"] createProjekttraegerChart /\
   reads_only ["fundingTypes"] createFoerderprofilChart) /\
  reads_only ["forecast"; "temporal"] createForecastChart /\
  (reads_only ["topics"; "keywordTrends"] createKeywordsCloud /\
   forall sortBy, reads_only ["recipients"; "entityTrends"]
                    (populateRecipientsTable sortBy)) /\
  (forall s, Exists (fun f => network s ("data/" ++ f) = None) files ->
             loadData s = (Ret tt, load_failed s) /\
             charts (snd (loadData s)) = charts s /\
             canvas (snd (loadData s)) = canvas s) /\
  (forall s, Forall (fun f => is_Some (network s ("data/" ++ f))) files ->
             loadData s
             = try_catch initializeDashboard
                 (fun _ => console_error "Error loading data:";;
                           setInnerHTML ".main-content" error_panel)
                 (set_globalData
                    (loadedData
                       (map (fun f => default VUndef (network s ("data/" ++ f))) files))
                    (set_requests (requests s ++ urls)%list s))).
Proof.
  split.
  { repeat match goal with |- _ /\ _ => split end;
      eauto using createTemporalChart_reads, createMonthlyChart_reads,
        createDecadeMinistryChart_reads, createMinistryChart_reads,
        createInternationalChart_reads, createGeoChart_reads, createCityChart_reads,
        createRecipientChart_reads, createFundingTypeChart_reads,
        createDurationChart_reads, createTopicChart_reads, createJointChart_reads,
        createProjekttraegerChart_reads, createFoerderprofilChart_reads. }
  split; [exact createForecastChart_reads|].
  split; [split; [exact createKeywordsCloud_reads|exact populateRecipientsTable_reads]|].
  split.
  - intros s H. rewrite (loadData_fails s H). done.
  - exact loadData_ok.
Qed.

(** ** Labels and handler arguments *)

Lemma gt_length (len n : nat) :
  gt_num (int (Z.of_nat len)) (Fin (inject_Z (Z.of_nat n)))
  = Ret (bool_decide (n < len)%nat).
Proof.
  unfold gt_num, int. cbn [to_number mbind outcome_bind]. f_equal.
  unfold Qlt_bool. case_bool_decide as H.
  - rewrite Qle_bool_false; [done|]. rewrite <- Zlt_Qlt. lia.
  - rewrite Qle_bool_true; [done|]. rewrite <- Zle_Qle. lia.
Qed.

Lemma truncateLabel_string (s : string) (maxLength : nat) :
  exists t,
    truncateLabel (VStr s) maxLength = Ret (VStr t) /\
    (String.length t <= maxLength + 3)%nat /\
    ((String.length s <= maxLength)%nat -> t = s) /\
    ((maxLength < String.length s)%nat ->
       t = substring 0 maxLength s ++ "..." /\
       String.length t = (maxLength + 3)%nat /\
       forall i, (i < maxLength)%nat -> String.get i t = String.get i s).
Proof.
  unfold truncateLabel. cbn [truthy].
  destruct (String.eqb_spec s EmptyString) as [->|Hne]; cbn [negb].
  { exists EmptyString. split; [done|]. cbn [String.length].
    split; [lia|]. split; [done|]. lia. }
  cbn [get String.eqb Ascii.eqb Bool.eqb mbind outcome_bind].
  rewrite gt_length. cbn [mbind outcome_bind].
  case_bool_decide as Hlen.
  - eexists. split; [reflexivity|].
    assert (Hl : String.length (substring 0 maxLength s ++ "...")
                 = (maxLength + 3)%nat).
    { rewrite string_app_length, substring_length by lia. done. }
    split; [lia|]. split; [lia|]. intros _. split; [done|]. split; [done|].
    intros i Hi. rewrite <- append_correct1 by (rewrite substring_length; lia).
    rewrite substring_correct1 by done. by rewrite Nat.add_0_r.
  - exists s. split; [done|]. split; [lia|]. split; [done|]. lia.
Qed.

(** X1.  [truncateLabel] on a string returns a string: the label itself
    when it has at most [maxLength] characters, else its first [maxLength]
    characters followed by three dots, so never more than [maxLength + 3]
    characters.  A label that is [undefined], [null] or the empty string
    gives the empty string, and a number other than zero is returned as it
    is. *)
Theorem truncateLabel_bounds (s : string) (maxLength : nat) :
  (exists t,
     truncateLabel (VStr s) maxLength = Ret (VStr t) /\
     (String.length t <= maxLength + 3)%nat /\
     ((String.length s <= maxLength)%nat -> t = s) /\
     ((maxLength < String.length s)%nat ->
        t = substring 0 maxLength s ++ "..." /\
        String.length t = (maxLength + 3)%nat /\
        forall i, (i < maxLength)%nat -> String.get i t = String.get i s)) /\
  truncateLabel VUndef maxLength = Ret (VStr EmptyString) /\
  truncateLabel VNull maxLength = Ret (VStr EmptyString) /\
  (forall q, Qeq_bool q 0 = false ->
             truncateLabel (num q) maxLength = Ret (num q)).
Proof.
  split; [apply truncateLabel_string|split; [done|split; [done|]]].
  intros q Hq. unfold truncateLabel, num. cbn [truthy]. rewrite Hq. done.
Qed.

(** X2.  The name written into the [onclick] attribute of a row of the
    recipients table has no bare quote: in [escape_quotes s] every quote
    comes right after a backslash.  A name without quotes is written as it
    is, and the escaped name is never shorter than the name nor more than
    twice as long. *)
Theorem escape_quotes_escapes (s : string) :
  (forall i, String.get i (escape_quotes s) = Some "'"%char ->
             exists j, i = S j /\ String.get j (escape_quotes s) = Some "\"%char) /\
  ((forall i, String.get i s <> Some "'"%char) -> escape_quotes s = s) /\
  (String.length s <= String.length (escape_quotes s) <= 2 * String.length s)%nat.
Proof.
  split; [|split].
  - induction s as [|c s IH]; intros i Hi; [done|].
    cbn [escape_quotes] in *.
    destruct (Ascii.eqb_spec c "'"%char) as [->|Hc].
    + destruct i as [|[|i]]; cbn in Hi |- *.
      * discriminate Hi.
      * by exists 0%nat.
      * destruct (IH i Hi) as (j & -> & Hj). exists (S (S j)). by cbn.
    + destruct i as [|i]; cbn in Hi |- *; [congruence|].
      destruct (IH i Hi) as (j & -> & Hj). exists (S j). by cbn.
  - induction s as [|c s IH]; intros H; [done|].
    cbn [escape_quotes].
    destruct (Ascii.eqb_spec c "'"%char) as [->|Hc].
    + by destruct (H 0%nat).
    + f_equal. apply IH. intros i. apply (H (S i)).
  - induction s as [|c s IH]; [cbn; lia|].
    cbn [escape_quotes]. destruct (Ascii.eqb c "'"%char); cbn; lia.
Qed.

(** ** Sorting *)

Lemma ordered_nil {A} (R : A -> A -> Prop) : ordered R [].
Proof. intros i j a b _ H. done. Qed.

Lemma ordered_cons {A} (R : A -> A -> Prop) (x : A) (l : list A) :
  ordered R (x :: l) <-> Forall (R x) l /\ ordered R l.
Proof.
  split.
  - intros H. split.
    + apply Forall_lookup. intros i y Hy. by apply (H 0%nat (S i) x y); [lia| |].
    + intros i j a b Hij Ha Hb. by apply (H (S i) (S j) a b); [lia| |].
  - intros [Hx Hl] [|i] [|j] a b Hij Ha Hb; try lia; cbn in Ha, Hb.
    + injection Ha as <-. by apply (proj1 (Forall_lookup _ _) Hx j).
    + apply (Hl i j a b); [lia|done..].
Qed.

Lemma ascii_compare_lt_trans (a b c : ascii) :
  Ascii.compare a b = Lt -> Ascii.compare b c = Lt -> Ascii.compare a c = Lt.
Proof. unfold Ascii.compare. rewrite !N.compare_lt_iff. lia. Qed.

Lemma string_compare_lt_trans (a b c : string) :
  String.compare a b = Lt -> String.compare b c = Lt -> String.compare a c = Lt.
Proof.
  revert b c. induction a as [|x a IH]; intros [|y b] [|z c]; cbn; try done.
  destruct (Ascii.compare x y) eqn:Exy; try done;
    destruct (Ascii.compare y z) eqn:Eyz; try done.
  - apply Ascii.compare_eq_iff in Exy as ->. rewrite Eyz. apply IH.
  - apply Ascii.compare_eq_iff in Exy as ->. by rewrite Eyz.
  - apply Ascii.compare_eq_iff in Eyz as <-. by rewrite Exy.
  - by rewrite (ascii_compare_lt_trans x y z).
Qed.

Lemma string_lt_le (a b : string) : String.ltb a b = true -> string_le a b.
Proof.
  unfold string_le, String.ltb. rewrite (String.compare_antisym a b).
  by destruct (String.compare b a).
Qed.

Lemma string_le_trans (a b c : string) :
  string_le a b -> string_le b c -> string_le a c.
Proof.
  unfold string_le, String.ltb. intros Hab Hbc.
  destruct (String.compare c a) eqn:Hca; try done. exfalso.
  destruct (String.compare a b) eqn:Eab.
  - apply String.compare_eq_iff in Eab as ->. by rewrite Hca in Hbc.
  - by rewrite (string_compare_lt_trans c a b Hca Eab) in Hbc.
  - rewrite (String.compare_antisym b a), Eab in Hab. done.
Qed.

Lemma insert_sorted_perm (k : string) (l : list string) : insert_sorted k l ≡ₚ k :: l.
Proof.
  induction l as [|k' l IH]; [done|]. cbn [insert_sorted].
  destruct (String.ltb k k'); [done|]. rewrite IH. apply Permutation_swap.
Qed.

Lemma sort_strings_perm (l : list string) : sort_strings l ≡ₚ l.
Proof.
  induction l as [|k l IH]; [done|]. cbn [sort_strings foldr].
  rewrite insert_sorted_perm. by f_equiv.
Qed.

Lemma insert_sorted_ordered (k : string) (l : list string) :
  ordered string_le l -> ordered string_le (insert_sorted k l).
Proof.
  induction l as [|k' l IH]; intros H.
  - apply ordered_cons. split; [constructor|apply ordered_nil].
  - cbn [insert_sorted]. destruct (String.ltb k k') eqn:E.
    + apply ordered_cons. split; [|done].
      apply ordered_cons in H as [Hk' _]. constructor.
      * by apply string_lt_le.
      * eapply Forall_impl; [exact Hk'|]. intros y Hy.
        eapply string_le_trans; [|exact Hy]. by apply string_lt_le.
    + apply ordered_cons in H as [Hk' Hl]. apply ordered_cons. split; [|by apply IH].
      rewrite insert_sorted_perm. by constructor.
Qed.

Lemma sort_strings_ordered (l : list string) : ordered string_le (sort_strings l).
Proof.
  induction l as [|k l IH]; [apply ordered_nil|].
  cbn [sort_strings foldr]. by apply insert_sorted_ordered.
Qed.

Lemma insert_desc_perm (x : Q * value) (l : list (Q * value)) :
  insert_desc x l ≡ₚ x :: l.
Proof.
  induction l as [|y l IH]; [done|]. cbn [insert_desc].
  destruct (Qle_bool (fst y) (fst x)); [done|]. rewrite IH. apply Permutation_swap.
Qed.

Lemma sort_desc_perm (l : list (Q * value)) : sort_desc l ≡ₚ l.
Proof.
  induction l as [|x l IH]; [done|]. cbn [sort_desc foldr].
  rewrite insert_desc_perm. by f_equiv.
Qed.

Lemma insert_desc_ordered (x : Q * value) (l : list (Q * value)) :
  ordered (fun a b => (fst b <= fst a)%Q) l ->
  ordered (fun a b => (fst b <= fst a)%Q) (insert_desc x l).
Proof.
  induction l as [|y l IH]; intros H.
  - apply ordered_cons. split; [constructor|apply ordered_nil].
  - cbn [insert_desc]. destruct (Qle_bool (fst y) (fst x)) eqn:E.
    + apply ordered_cons. split; [|done].
      apply Qle_bool_iff in E.
      apply ordered_cons in H as [Hy _]. constructor; [done|].
      eapply Forall_impl; [exact Hy|]. intros z Hz. cbn beta in Hz |- *.
      by apply (Qle_trans _ (fst y)).
    + apply ordered_cons in H as [Hy Hl]. apply ordered_cons. split; [|by apply IH].
      rewrite insert_desc_perm. constructor; [|done].
      apply Qlt_le_weak, Qnot_le_lt. intros Hle.
      apply Qle_bool_iff in Hle. congruence.
Qed.

Lemma sort_desc_ordered (l : list (Q * value)) :
  ordered (fun a b => (fst b <= fst a)%Q) (sort_desc l).
Proof.
  induction l as [|x l IH]; [apply ordered_nil|].
  cbn [sort_desc foldr]. by apply insert_desc_ordered.
Qed.

(** ** The chart of the ministries by decade *)

Lemma set_add_string (v : string) (ws : list string) :
  set_add (VStr v) (map VStr ws)
  = Ret (map VStr (if bool_decide (v ∈ ws) then ws else ws ++ [v])%list).
Proof.
  induction ws as [|w ws IH]; [done|].
  cbn [map set_add same_value_zero strict_eq mbind outcome_bind].
  destruct (String.eqb_spec w v) as [->|Hne].
  - rewrite bool_decide_eq_true_2 by apply list_elem_of_here. done.
  - rewrite IH. cbn [mbind outcome_bind]. f_equal.
    case_bool_decide as H1; case_bool_decide as H2; try done.
    + exfalso. apply H2. by apply list_elem_of_further.
    + apply elem_of_cons in H2 as [->|H2]; done.
Qed.

Lemma add_ministries_strings (l : list value) (ws : list string) :
  forallb (fun e => is_object e && is_string (field "ministry" e)) l = true ->
  exists ws', add_ministries l (map VStr ws) = Ret (map VStr ws') /\
    (NoDup ws -> NoDup ws') /\
    forall m, m ∈ ws' <-> m ∈ ws \/ exists e, e ∈ l /\ field "ministry" e = VStr m.
Proof.
  revert ws. induction l as [|e l IH]; intros ws H.
  - exists ws. split; [done|]. split; [done|]. intros m. split; [by left|].
    intros [Hm|(e & He & _)]; [done|]. by apply elem_of_nil in He.
  - cbn [forallb] in H. apply andb_prop in H as [He Hl].
    apply andb_prop in He as [Hobj Hstr].
    destruct (field "ministry" e) as [| | | |x| | |] eqn:Hx; try discriminate Hstr.
    cbn [add_ministries]. rewrite (get_object _ e Hobj), Hx.
    cbn [mbind outcome_bind]. rewrite set_add_string. cbn [mbind outcome_bind].
    destruct (IH (if bool_decide (x ∈ ws) then ws else ws ++ [x])%list Hl)
      as (ws' & Hrun & Hnd & Hin).
    exists ws'. split; [exact Hrun|]. split.
    + intros Hws. apply Hnd. case_bool_decide as Hxin; [done|].
      apply NoDup_app. split; [done|]. split; [|apply NoDup_singleton].
      intros y Hy Hy'. apply list_elem_of_singleton in Hy' as ->. done.
    + intros m. rewrite Hin. split.
      * intros [Hm|(e' & He' & Hm)].
        -- case_bool_decide; [by left|]. apply elem_of_app in Hm as [Hm|Hm]; [by left|].
           apply list_elem_of_singleton in Hm as ->. right. exists e.
           split; [apply list_elem_of_here|done].
        -- right. exists e'. split; [by apply list_elem_of_further|done].
      * intros [Hm|(e' & He' & Hm)].
        -- left. case_bool_decide; [done|]. apply elem_of_app. by left.
        -- apply elem_of_cons in He' as [->|He'].
           ++ left. rewrite Hx in Hm. injection Hm as ->.
              case_bool_decide; [done|]. apply elem_of_app. right.
              by apply list_elem_of_singleton.
           ++ right. by exists e'.
Qed.

Lemma collect_ministries_strings (vs : list value) (ws : list string) :
  Forall (fun v => decade_shares v = true) vs ->
  exists ws', collect_ministries vs (map VStr ws) = Ret (map VStr ws') /\
    (NoDup ws -> NoDup ws') /\
    forall m, m ∈ ws' <->
              m ∈ ws \/ exists l e, VArr l ∈ vs /\ e ∈ l /\ field "ministry" e = VStr m.
Proof.
  intros H. revert ws. induction H as [|v vs Hv _ IH]; intros ws.
  - exists ws. split; [done|]. split; [done|]. intros m. split; [by left|].
    intros [Hm|(l & e & Hl & _)]; [done|]. by apply elem_of_nil in Hl.
  - destruct v as [| | | | |l| |]; try discriminate Hv. cbn [decade_shares] in Hv.
    cbn [collect_ministries as_array mbind outcome_bind].
    destruct (add_ministries_strings l ws Hv) as (ws1 & Hrun1 & Hnd1 & Hin1).
    rewrite Hrun1. cbn [mbind outcome_bind].
    destruct (IH ws1) as (ws' & Hrun & Hnd & Hin).
    exists ws'. split; [exact Hrun|]. split; [by intros; apply Hnd, Hnd1|].
    intros m. rewrite Hin, Hin1. split.
    + intros [[Hm|(e & He & Hm)]|(l' & e & Hl' & He & Hm)].
      * by left.
      * right. exists l, e. split; [apply list_elem_of_here|done].
      * right. exists l', e. split; [by apply list_elem_of_further|done].
    + intros [Hm|(l' & e & Hl' & He & Hm)]; [by left; left|].
      apply elem_of_cons in Hl' as [[= ->]|Hl'].
      * left. right. by exists e.
      * right. by exists l', e.
Qed.

Lemma find_named (m : string) (l : list value) :
  forallb (fun e => is_object e && is_string (field "ministry" e)) l = true ->
  findO (fun e => v ← get e "ministry"; strict_eq v (VStr m)) l
  = Ret (default VUndef (List.find (named m) l)).
Proof.
  induction l as [|e l IH]; intros H; [done|].
  cbn [forallb] in H. apply andb_prop in H as [He Hl].
  apply andb_prop in He as [Hobj Hstr].
  cbn [findO List.find]. rewrite (get_object _ e Hobj). unfold named.
  destruct (field "ministry" e) as [| | | |x| | |]; try discriminate Hstr.
  cbn [mbind outcome_bind strict_eq]. destruct (String.eqb x m); [done|by apply IH].
Qed.

Lemma decadeShare_ret (share : list (string * value)) (m d : string) (l : list value) :
  lookup_prop d share = Some (VArr l) ->
  decade_shares (VArr l) = true ->
  decadeShare (VObj share) (VStr m) d = Ret (share_of share m d).
Proof.
  intros Hd Hl. unfold decadeShare, share_of. cbn [get]. rewrite Hd.
  cbn [from_option id mbind outcome_bind or_else truthy as_array].
  rewrite (find_named m l Hl). cbn [mbind outcome_bind].
  destruct (List.find (named m) l) as [e|] eqn:He; [|done].
  cbn [from_option id]. apply find_some in He as [He _].
  cbn [decade_shares] in Hl. rewrite forallb_forall in Hl.
  apply Hl, andb_prop in He as [Hobj _].
  destruct e; try discriminate Hobj. done.
Qed.

Lemma lookup_prop_elem (d : string) (props : list (string * value)) :
  d ∈ map fst props -> exists v, lookup_prop d props = Some v /\ (d, v) ∈ props.
Proof.
  induction props as [|[k v] props IH]; intros H; [by apply elem_of_nil in H|].
  cbn [lookup_prop]. destruct (String.eqb_spec d k) as [->|Hne].
  - exists v. split; [done|apply list_elem_of_here].
  - cbn in H. apply elem_of_cons in H as [H|H]; [done|].
    destruct (IH H) as (v' & Hv' & Hin). exists v'.
    split; [done|by apply list_elem_of_further].
Qed.

Lemma decadeMinistryConfig_ret (temporal share : list (string * value)) :
  lookup_prop "decade_ministry_share" temporal = Some (VObj share) ->
  Forall (fun p => decade_shares (snd p) = true) share ->
  exists ministries,
    decadeMinistryConfig (VObj temporal)
    = Ret {| ch_type := "bar";
             ch_labels := map (fun d => VStr (d ++ "s")) (sort_strings (map fst share));
             ch_datasets :=
               map (fun m => {| ds_label := VStr m;
                                ds_data := map (share_of share m)
                                             (sort_strings (map fst share)) |})
                   ministries |} /\
    NoDup ministries /\
    forall m, m ∈ ministries <-> has_share share m.
Proof.
  intros Hshare Hwf.
  destruct (collect_ministries_strings (map snd share) [])
    as (ministries & Hrun & Hnd & Hin).
  { apply Forall_fmap. exact Hwf. }
  exists ministries. split; [|split].
  - unfold decadeMinistryConfig. cbn [get]. rewrite Hshare.
    cbn [from_option id mbind outcome_bind or_else truthy object_entries].
    change (@nil value) with (map VStr []). rewrite Hrun. cbn [mbind outcome_bind].
    rewrite (mapO_ret _ (fun v => {| ds_label := v;
                                     ds_data := match v with
                                                | VStr m => map (share_of share m)
                                                              (sort_strings (map fst share))
                                                | _ => []
                                                end |})).
    + cbn [mbind outcome_bind]. do 2 f_equal. by rewrite map_map.
    + apply Forall_fmap, Forall_forall. intros m _. unfold compose. cbn beta.
      rewrite (mapO_ret _ (share_of share m)); [done|].
      apply Forall_forall. intros d Hd.
      rewrite sort_strings_perm in Hd.
      destruct (lookup_prop_elem d share Hd) as (v & Hv & Hdv).
      pose proof (proj1 (Forall_forall _ _) Hwf _ Hdv) as Hok. cbn [snd] in Hok.
      destruct v as [| | | | |l| |]; try discriminate Hok.
      by apply (decadeShare_ret share m d l).
  - apply Hnd. constructor.
  - intros m. rewrite Hin. unfold has_share. split.
    + intros [Hm|(l & e & Hl & He & Hm)]; [by apply elem_of_nil in Hm|].
      apply list_elem_of_fmap in Hl as ([d v] & Hv & Hl). cbn in Hv. subst v.
      by exists d, l, e.
    + intros (d & l & e & Hl & He & Hm). right. exists l, e.
      split; [|done]. apply list_elem_of_fmap. by exists (d, VArr l).
Qed.

(** X3.  The axis of the decade chart: over a [decade_ministry_share]
    object that holds the shares of each decade as an array of entries with
    their ministry, [createDecadeMinistryChart] draws a bar chart whose
    labels are the keys of the object, each once and followed by an [s],
    in ascending order of their code units whatever their order in the
    document. *)
Theorem decade_axis_sorted (s : state) (temporal share : list (string * value)) :
  get (globalData s) "temporal" = Ret (VObj temporal) ->
  lookup_prop "decade_ministry_share" temporal = Some (VObj share) ->
  Forall (fun p => decade_shares (snd p) = true) share ->
  exists decades datasets,
    createDecadeMinistryChart s
    = (Ret tt,
       with_chart "decadeMinistry" "decadeMinistryChart"
         {| ch_type := "bar";
            ch_labels := map (fun d => VStr (d ++ "s")) decades;
            ch_datasets := datasets |} s) /\
    decades ≡ₚ map fst share /\
    ordered string_le decades.
Proof.
  intros Hdoc Hshare Hwf.
  destruct (decadeMinistryConfig_ret temporal share Hshare Hwf) as (ms & Hrun & _).
  eexists _, _. split; [|split].
  - unfold createDecadeMinistryChart.
    rewrite run_bind, run_document_of, Hdoc, run_bind, run_lift, Hrun. reflexivity.
  - apply sort_strings_perm.
  - apply sort_strings_ordered.
Qed.

(** X4.  The series of the decade chart: there is one series per ministry
    that has an entry in some decade, no ministry twice, and each series
    has one value per decade of the axis: the [share_pct] of the first
    entry of that decade for the ministry, and [0] when the decade has no
    entry for it.  A document without [decade_ministry_share] gives a chart
    without labels and series. *)
Theorem decade_series (s : state) (temporal : list (string * value)) :
  get (globalData s) "temporal" = Ret (VObj temporal) ->
  (forall share,
     lookup_prop "decade_ministry_share" temporal = Some (VObj share) ->
     Forall (fun p => decade_shares (snd p) = true) share ->
     exists ministries,
       createDecadeMinistryChart s
       = (Ret tt,
          with_chart "decadeMinistry" "decadeMinistryChart"
            {| ch_type := "bar";
               ch_labels := map (fun d => VStr (d ++ "s")) (sort_strings (map fst share));
               ch_datasets :=
                 map (fun m => {| ds_label := VStr m;
                                  ds_data := map (share_of share m)
                                               (sort_strings (map fst share)) |})
                     ministries |} s) /\
       NoDup ministries /\
       (forall m, m ∈ ministries <-> has_share share m) /\
       (forall m d, lookup_prop d share = None -> share_of share m d = int 0)) /\
  (lookup_prop "decade_ministry_share" temporal = None ->
   createDecadeMinistryChart s
   = (Ret tt,
      with_chart "decadeMinistry" "decadeMinistryChart"
        {| ch_type := "bar"; ch_labels := []; ch_datasets := [] |} s)).
Proof.
  intros Hdoc. split.
  - intros share Hshare Hwf.
    destruct (decadeMinistryConfig_ret temporal share Hshare Hwf)
      as (ms & Hrun & Hnd & Hin).
    exists ms. split; [|split; [done|split; [done|]]].
    + unfold createDecadeMinistryChart.
      rewrite run_bind, run_document_of, Hdoc, run_bind, run_lift, Hrun. reflexivity.
    + intros m d Hd. unfold share_of. by rewrite Hd.
  - intros Hnone. unfold createDecadeMinistryChart.
    rewrite run_bind, run_document_of, Hdoc, run_bind, run_lift.
    unfold decadeMinistryConfig. cbn [get]. rewrite Hnone. reflexivity.
Qed.

(** ** The chart of the states *)

Lemma state_entry_object (d : value) : state_entry d = true -> is_object d = true.
Proof. unfold state_entry. by intros [H _]%andb_prop. Qed.

Lemma state_entry_per_capita (d : value) :
  state_entry d = true -> has_per_capita d = true ->
  exists q, field "per_capita_funding" d = num q /\ per_capita d = Some q.
Proof.
  unfold state_entry, has_per_capita, per_capita. intros [_ H]%andb_prop Ht.
  destruct (field "per_capita_funding" d) as [| | |[|q]| | | |];
    try discriminate H; try discriminate Ht.
  by exists q.
Qed.

Lemma ordered_fmap {A B} (R : A -> A -> Prop) (R' : B -> B -> Prop) (f : A -> B)
    (l : list A) :
  (forall a b, a ∈ l -> b ∈ l -> R a b -> R' (f a) (f b)) ->
  ordered R l -> ordered R' (map f l).
Proof.
  intros Hf H i j a' b' Hij Ha Hb.
  change (map f l) with (f <$> l) in Ha, Hb.
  apply list_lookup_fmap_Some in Ha as (a & -> & Ha).
  apply list_lookup_fmap_Some in Hb as (b & -> & Hb).
  apply Hf; [by eapply list_elem_of_lookup_2..|]. by apply (H i j).
Qed.

Lemma geoData_per_capita (l : list value) :
  Forall (fun d => state_entry d = true) l ->
  exists data,
    geoData "percapita" (VArr l) = Ret data /\
    data ≡ₚ List.filter has_per_capita (take 16 l) /\
    ordered (fun a b => exists qa qb, per_capita a = Some qa /\
                                      per_capita b = Some qb /\ (qb <= qa)%Q) data.
Proof.
  intros Hl.
  assert (Hraw : Forall (fun d => state_entry d = true) (take 16 l))
    by (by apply Forall_take).
  set (raw := take 16 l) in *. set (kept := List.filter has_per_capita raw).
  set (keyed := map (fun d => (default 0%Q (per_capita d), d)) kept).
  assert (Hkept : forall d, d ∈ kept -> state_entry d = true /\ has_per_capita d = true).
  { intros d Hd. apply list_elem_of_In, filter_In in Hd as [Hd Hp]. split; [|done].
    apply list_elem_of_In in Hd. by apply (proj1 (Forall_forall _ _) Hraw). }
  exists (map snd (sort_desc keyed)). split; [|split].
  - unfold geoData. cbn [slice_to mbind outcome_bind String.eqb Ascii.eqb Bool.eqb].
    fold raw. rewrite (filterO_ret _ has_per_capita).
    2:{ eapply Forall_impl; [exact Hraw|]. intros d Hd. cbn beta.
        by rewrite (get_object _ d (state_entry_object d Hd)). }
    fold kept. cbn [mbind outcome_bind].
    rewrite (mapO_ret _ (fun d => (default 0%Q (per_capita d), d))); [done|].
    apply Forall_forall. intros d Hd. destruct (Hkept d Hd) as [Hs Hp].
    destruct (state_entry_per_capita d Hs Hp) as (q & Hq & Hq').
    rewrite (get_object _ d (state_entry_object d Hs)), Hq, Hq'. done.
  - rewrite sort_desc_perm. unfold keyed. rewrite map_map. cbn [snd].
    by rewrite map_id.
  - apply (ordered_fmap (fun a b => (fst b <= fst a)%Q)); [|apply sort_desc_ordered].
    intros [qa a] [qb b] Ha Hb Hle. rewrite sort_desc_perm in Ha, Hb.
    unfold keyed in Ha, Hb. change (map ?f ?l) with (f <$> l) in Ha, Hb.
    apply list_elem_of_fmap in Ha as (a' & [= -> ->] & Ha).
    apply list_elem_of_fmap in Hb as (b' & [= -> ->] & Hb).
    destruct (Hkept _ Ha) as [Hsa Hpa]. destruct (Hkept _ Hb) as [Hsb Hpb].
    destruct (state_entry_per_capita _ Hsa Hpa) as (q1 & _ & Hq1).
    destruct (state_entry_per_capita _ Hsb Hpb) as (q2 & _ & Hq2).
    cbn [fst snd] in *. rewrite Hq1, Hq2 in Hle |- *. by exists q1, q2.
Qed.

(** X5.  The two modes of the chart of the states.  In every mode but
    [percapita] the chart shows the first sixteen states of the document in
    their order, with their total funding.  In mode [percapita] it shows
    exactly those of the first sixteen that have a per capita figure
    other than zero, the largest figure first, with that figure. *)
Theorem geo_chart_modes (s : state) (geographic : list (string * value))
    (l : list value) :
  get (globalData s) "geographic" = Ret (VObj geographic) ->
  lookup_prop "states" geographic = Some (VArr l) ->
  Forall (fun d => state_entry d = true) l ->
  let drawn label key data :=
    (Ret tt,
     with_chart "geo" "geoChart"
       (bar (map (field "name") data) label (map (field key) data))
       (without_chart "geo" "geoChart" s)) in
  (forall mode, String.eqb mode "percapita" = false ->
     createGeoChart mode s = drawn "Total Funding" "total_funding" (take 16 l)) /\
  exists data,
    createGeoChart "percapita" s
    = drawn "Per Capita Funding (€)" "per_capita_funding" data /\
    data ≡ₚ List.filter has_per_capita (take 16 l) /\
    ordered (fun a b => exists qa qb, per_capita a = Some qa /\
                                      per_capita b = Some qb /\ (qb <= qa)%Q) data.
Proof.
  intros Hdoc Hstates Hl drawn. subst drawn. cbn beta.
  assert (Hobj : Forall (fun d => is_object d = true) l)
    by (eapply Forall_impl; [exact Hl|apply state_entry_object]).
  split.
  - intros mode Hmode. unfold createGeoChart.
    rewrite run_bind, run_document_of, Hdoc, run_bind, run_lift.
    cbn [get]. rewrite Hstates. cbn [from_option id mbind outcome_bind].
    unfold geoData. cbn [slice_to mbind outcome_bind]. rewrite Hmode.
    rewrite run_bind, run_destroyChart, run_bind, run_lift.
    rewrite !(pluck_objects _ (take 16 l)) by (by apply Forall_take).
    reflexivity.
  - destruct (geoData_per_capita l Hl) as (data & Hrun & Hperm & Hord).
    exists data. split; [|done].
    assert (Hdata : Forall (fun d => is_object d = true) data).
    { apply Forall_forall. intros d Hd. rewrite Hperm in Hd.
      apply list_elem_of_In, filter_In in Hd as [Hd _]. apply list_elem_of_In in Hd.
      apply elem_of_take in Hd as (i & Hd & _). apply list_elem_of_lookup_2 in Hd.
      by apply (proj1 (Forall_forall _ _) Hobj). }
    unfold createGeoChart.
    rewrite run_bind, run_document_of, Hdoc, run_bind, run_lift.
    cbn [get]. rewrite Hstates. cbn [from_option id mbind outcome_bind].
    rewrite Hrun. rewrite run_bind, run_destroyChart, run_bind, run_lift.
    cbn [String.eqb Ascii.eqb Bool.eqb].
    rewrite !(pluck_objects _ data Hdata). reflexivity.
Qed.

(** ** The size of the charts *)

Lemma mapO_length {A B} (f : A -> outcome B) (l : list A) (r : list B) :
  mapO f l = Ret r -> length r = length l.
Proof.
  revert r. induction l as [|x l IH]; intros r H; cbn [mapO] in H.
  - by injection H as <-.
  - apply bind_Ret_inv in H as (y & _ & H). apply bind_Ret_inv in H as (ys & Hys & H).
    injection H as <-. cbn. by rewrite (IH ys).
Qed.

Lemma mapO_Forall {A B} (f : A -> outcome B) (P : B -> Prop) (l : list A) (r : list B) :
  (forall x y, f x = Ret y -> P y) -> mapO f l = Ret r -> Forall P r.
Proof.
  intros Hf. revert r. induction l as [|x l IH]; intros r H; cbn [mapO] in H.
  - injection H as <-. constructor.
  - apply bind_Ret_inv in H as (y & Hy & H). apply bind_Ret_inv in H as (ys & Hys & H).
    injection H as <-. constructor; [by apply (Hf x)|by apply IH].
Qed.

Lemma filterO_length {A} (p : A -> outcome bool) (l r : list A) :
  filterO p l = Ret r -> (length r <= length l)%nat.
Proof.
  revert r. induction l as [|x l IH]; intros r H; cbn [filterO] in H.
  - by injection H as <-.
  - apply bind_Ret_inv in H as (b & _ & H). apply bind_Ret_inv in H as (ys & Hys & H).
    injection H as <-. specialize (IH ys Hys). destruct b; cbn; lia.
Qed.

Lemma slice_to_length (n : nat) (v : value) (l : list value) :
  slice_to n v = Ret l -> (length l <= n)%nat.
Proof.
  destruct v; try discriminate. intros [= <-]. rewrite length_take. lia.
Qed.

Lemma geoData_length (mode : string) (states : value) (data : list value) :
  geoData mode states = Ret data -> (length data <= 16)%nat.
Proof.
  unfold geoData. intros H. apply bind_Ret_inv in H as (raw & Hraw & H).
  apply slice_to_length in Hraw. destruct (String.eqb mode "percapita").
  - apply bind_Ret_inv in H as (kept & Hkept & H).
    apply bind_Ret_inv in H as (keyed & Hkeyed & H). injection H as <-.
    apply filterO_length in Hkept. apply mapO_length in Hkeyed.
    rewrite length_map, (Permutation_length (sort_desc_perm keyed)). lia.
  - injection H as <-. done.
Qed.

Lemma draws_config (slot id doc : string) (P : chart -> Prop)
    (cfg : value -> outcome chart) :
  (forall d c, cfg d = Ret c -> P c) ->
  draws slot P (d ← document_of doc; c ← lift (cfg d); newChart slot id c).
Proof.
  intros Hcfg s. rewrite run_bind, run_document_of.
  destruct (get (globalData s) doc) as [d|e|]; [|discriminate..].
  rewrite run_bind, run_lift. destruct (cfg d) as [c|e|] eqn:Hc; [|discriminate..].
  intros _. exists c. split; [apply charts_with_chart|by apply (Hcfg d)].
Qed.

Ltac unbind H :=
  repeat (let x := fresh "x" in
          let Hx := fresh "Hx" in
          apply bind_Ret_inv in H as (x & Hx & H)).

Ltac lengths :=
  repeat match goal with
         | H : slice_to _ _ = Ret _ |- _ => apply slice_to_length in H
         | H : geoData _ _ = Ret _ |- _ => apply geoData_length in H
         | H : pluck _ _ = Ret _ |- _ => apply mapO_length in H
         | H : mapO _ _ = Ret _ |- _ => apply mapO_length in H
         end.

Ltac case_outcome H :=
  match goal with
  | |- fst (match ?o with Ret _ => _ | Throw _ => _ | Unmodelled => _ end) = _ -> _ =>
      destruct o eqn:H
  end.

Ltac config_limits :=
  apply draws_config;
  let d := fresh "d" in
  let c := fresh "c" in
  let H := fresh "H" in
  intros d c H; unbind H; injection H as <-; lengths;
  split; [cbn; lia|repeat constructor; cbn; lia].

(** X6.  The charts of the largest entries are cut to a fixed number of
    bars and their series match their labels: whenever one of these
    functions returns, the chart it has put in its slot of [charts] has at
    most 15 (cities, countries), 16 (states, in either mode), 10
    (recipients, topics), 5 (funding types), 12 (Projektträger) or 6
    (funding profiles) labels, and each of its series has one value per
    label, however long the list in the document is.
    [createInternationalChart] can also return without a chart, on the path
    without data. *)
Theorem chart_limits :
  draws "city" (limited 15) createCityChart /\
  (forall mode, draws "geo" (limited 16) (createGeoChart mode)) /\
  draws "recipient" (limited 10) createRecipientChart /\
  draws "topic" (limited 10) createTopicChart /\
  draws "fundingType" (limited 5) createFundingTypeChart /\
  draws "projekttraeger" (limited 12) createProjekttraegerChart /\
  draws "foerderprofil" (limited 6) createFoerderprofilChart /\
  (forall s, fst (createInternationalChart s) = Ret tt ->
     (innerHTML (snd (createInternationalChart s)) !! "internationalChart.parentElement"
      = Some no_international_data /\
      charts (snd (createInternationalChart s)) = charts s) \/
     exists c, charts (snd (createInternationalChart s)) !! "international" = Some c /\
               limited 15 c).
Proof.
  repeat match goal with |- _ /\ _ => split end.
  - unfold createCityChart. config_limits.
  - intros mode s. unfold createGeoChart.
    rewrite run_bind, run_document_of.
    destruct (get (globalData s) "geographic") as [g|e|]; [|discriminate..].
    rewrite run_bind, run_lift.
    destruct (states ← get g "states"; geoData mode states) as [data|e|] eqn:Hdata;
      [|discriminate..].
    rewrite run_bind, run_destroyChart, run_bind, run_lift.
    case_outcome Hc; [|discriminate..].
    intros _. eexists. split; [apply charts_with_chart|].
    apply bind_Ret_inv in Hdata as (states & _ & Hdata).
    apply geoData_length in Hdata. unbind Hc. injection Hc as <-. lengths.
    split; [cbn; lia|repeat constructor; cbn; lia].
  - unfold createRecipientChart. config_limits.
  - unfold createTopicChart. config_limits.
  - unfold createFundingTypeChart. config_limits.
  - unfold createProjekttraegerChart. config_limits.
  - unfold createFoerderprofilChart. config_limits.
  - intros s. unfold createInternationalChart.
    rewrite run_bind, run_document_of.
    destruct (get (globalData s) "geographic") as [g|e|]; [|discriminate..].
    rewrite run_bind, run_lift.
    destruct (get g "international") as [intl|e|]; [|discriminate..].
    rewrite run_bind, run_lift.
    case_outcome Hempty; [|discriminate..].
    match goal with |- context [if ?b then _ else _] => destruct b end.
    + intros _. left. unfold setInnerHTML. rewrite run_modify. cbn.
      by rewrite lookup_insert_eq.
    + rewrite run_bind, run_lift.
      case_outcome Hc; [|discriminate..].
      intros _. right. eexists. split; [apply charts_with_chart|].
      unbind Hc. injection Hc as <-. lengths.
      split; [cbn; lia|repeat constructor; cbn; lia].
Qed.

Lemma map_field_entries (data : value) (k : string) (r : list value) :
  map_field data k = Ret r ->
  length r = length match data with
                    | VArr l => l
                    | _ => []
                    end.
Proof.
  unfold map_field. destruct data; try discriminate.
  cbn [as_array mbind outcome_bind]. apply mapO_length.
Qed.

Ltac entries :=
  repeat match goal with
         | H : map_field _ _ = Ret _ |- _ => apply map_field_entries in H
         end.

(** X7.  Series and labels match in the charts that plot a whole list:
    whenever [createMinistryChart], [createDurationChart],
    [createJointChart], [createDecadeMinistryChart] or, for a range other
    than [forecast], [createTemporalChart] returns, every series of the
    chart it has put in its slot has exactly one value per label;
    [createMonthlyChart] returns either with such a chart or, on the path
    without data, with the charts as they were. *)
Theorem series_match_labels :
  draws "ministry" aligned createMinistryChart /\
  draws "duration" aligned createDurationChart /\
  draws "joint" aligned createJointChart /\
  draws "decadeMinistry" aligned createDecadeMinistryChart /\
  (forall range, String.eqb range "forecast" = false ->
                 draws "temporal" aligned (createTemporalChart range)) /\
  (forall s, fst (createMonthlyChart s) = Ret tt ->
     charts (snd (createMonthlyChart s)) = charts s \/
     exists c, charts (snd (createMonthlyChart s)) !! "monthly" = Some c /\ aligned c).
Proof.
  repeat match goal with |- _ /\ _ => split end.
  - unfold createMinistryChart. apply draws_config. intros d c H.
    unbind H. injection H as <-. entries. repeat constructor; cbn; lia.
  - unfold createDurationChart. apply draws_config. intros d c H.
    unbind H. injection H as <-. entries. repeat constructor; cbn; lia.
  - unfold createJointChart. apply draws_config. intros d c H.
    unbind H. injection H as <-. repeat constructor.
  - unfold createDecadeMinistryChart. apply draws_config. intros d c H.
    unfold decadeMinistryConfig in H.
    apply bind_Ret_inv in H as (share & _ & H).
    apply bind_Ret_inv in H as (props & _ & H).
    apply bind_Ret_inv in H as (ministries & _ & H).
    apply bind_Ret_inv in H as (datasets & Hd & H). injection H as <-.
    unfold aligned. cbn [ch_datasets ch_labels]. rewrite length_map.
    eapply mapO_Forall; [|exact Hd]. intros m ds Hds. cbn beta in Hds.
    apply bind_Ret_inv in Hds as (data & Hdata & Hds). injection Hds as <-.
    by apply mapO_length in Hdata.
  - intros range Hrange s. unfold createTemporalChart.
    rewrite run_bind, run_destroyChart, Hrange.
    refine (draws_config _ _ _ _ _ _ (without_chart _ _ s)). intros d c H.
    apply bind_Ret_inv in H as (yearly & _ & H).
    apply bind_Ret_inv in H as (data & _ & H).
    unbind H. injection H as <-. entries. repeat constructor; cbn; lia.
  - intros s. unfold createMonthlyChart.
    rewrite run_bind, run_document_of.
    destruct (get (globalData s) "temporal") as [t|e|]; [|discriminate..].
    rewrite run_bind, run_lift.
    destruct (get t "monthly_distribution") as [md|e|]; [|discriminate..].
    rewrite run_bind, run_lift.
    case_outcome Hempty; [|discriminate..].
    match goal with |- context [if ?b then _ else _] => destruct b end.
    + intros _. by left.
    + rewrite run_bind, run_lift. case_outcome Hc; [|discriminate..].
      intros _. right. eexists. split; [apply charts_with_chart|].
      unbind Hc. injection Hc as <-. entries. repeat constructor; cbn; lia.
Qed.

Lemma stitched_length (recent series : list value) :
  length (stitched recent series)
  = (match recent with
     | [] => 1
     | _ => length recent
     end + length series)%nat.
Proof.
  unfold stitched. rewrite !length_app, nulls_length, length_take.
  destruct recent; cbn [length]; lia.
Qed.

(** X8.  The forecast chart is the one chart whose series can miss their
    labels.  With a year of history in the window (from [current_year - 10]
    to [current_year]) every one of its five series has one value per
    label.  With no such year the historical and the approved series still
    do, but the predicted, upper and lower series are one value longer than
    the labels: they start with the [0] that stands for the last historical
    value, so the figures of the forecast year [j] sit at position [j + 1],
    under the label of the next year. *)
Theorem forecast_alignment (s : state) (forecast temporal : list (string * value))
    (h fd : list value) (cy : Q) :
  get (globalData s) "forecast" = Ret (VObj forecast) ->
  get (globalData s) "temporal" = Ret (VObj temporal) ->
  lookup_prop "yearly_totals" temporal = Some (VArr h) ->
  Forall (fun d => dated d = true) h ->
  lookup_prop "current_year" forecast = Some (num cy) ->
  lookup_prop "forecast" forecast = Some (VArr fd) ->
  Forall (fun d => is_object d = true) fd ->
  let recent := List.filter (year_within (binary64 (cy - 10)) cy) h in
  exists labels historical predicted upper lower approved,
    createForecastChart s
    = (Ret tt,
       with_chart "temporal" "temporalChart"
         {| ch_type := "line"; ch_labels := labels;
            ch_datasets :=
              [ {| ds_label := VStr "Historical Funding"; ds_data := historical |};
                {| ds_label := VStr "Forecast (Prophet ML)"; ds_data := predicted |};
                {| ds_label := VStr "80% Confidence Upper"; ds_data := upper |};
                {| ds_label := VStr "80% Confidence Lower"; ds_data := lower |};
                {| ds_label := VStr "Already Approved"; ds_data := approved |} ] |} s) /\
    length labels = (length recent + length fd)%nat /\
    length historical = length labels /\
    length approved = length labels /\
    (recent <> [] ->
       length predicted = length labels /\ length upper = length labels /\
       length lower = length labels) /\
    (recent = [] ->
       length predicted = S (length labels) /\ length upper = S (length labels) /\
       length lower = S (length labels) /\
       forall j d, fd !! j = Some d ->
         labels !! j = Some (field "year" d) /\
         predicted !! S j = Some (field "predicted_funding" d) /\
         upper !! S j = Some (field "upper_bound" d) /\
         lower !! S j = Some (field "lower_bound" d)).
Proof.
  intros Hf Ht Hh Hdated Hcy Hfd Hobj recent.
  do 6 eexists. split.
  { apply (createForecastChart_draws s forecast temporal h fd cy); eassumption. }
  fold recent. rewrite !stitched_length, !length_app, !length_map, !nulls_length.
  split; [done|]. split; [done|]. split; [done|]. split.
  - intros Hne. destruct recent; [done|]. done.
  - intros Hempty. rewrite Hempty. cbn [length Nat.add].
    split; [done|]. split; [done|]. split; [done|].
    intros j d Hj. cbn [map app].
    change (stitched [] ?series !! S j) with (series !! j).
    repeat split; by rewrite list_lookup_fmap, Hj.
Qed.

(** ** Loading and failing *)

Lemma initializeDashboard_globalData : preserves globalData initializeDashboard.
Proof.
  unfold initializeDashboard, updateOverviewCards, updateLastUpdate,
    createTemporalChart, createForecastChart, createMonthlyChart,
    createDecadeMinistryChart, createMinistryChart, createInternationalChart,
    createGeoChart, createCityChart, createRecipientChart, createFundingTypeChart,
    createDurationChart, createTopicChart, createJointChart,
    createProjekttraegerChart, createFoerderprofilChart, createKeywordsCloud,
    populateRecipientsTable, initializeEventListeners,
    document_of, setTextContent, setInnerHTML, console_log, newChart, destroyChart.
  frame.
Qed.

Lemma loadData_stored (s : state) :
  Forall (fun f => is_Some (network s ("data/" ++ f))) files ->
  loadData s
  = try_catch initializeDashboard
      (fun _ => console_error "Error loading data:";;
                setInnerHTML ".main-content" error_panel)
      (stored s).
Proof. apply loadData_ok. Qed.

(** X9.  [loadData] never lets an exception escape, and a document that
    makes [initializeDashboard] throw has the same effect on the page as a
    failed request: when every request is answered and
    [initializeDashboard] throws on the documents, [loadData] returns
    normally with the error logged and the error panel in place of the main
    content, on top of what [initializeDashboard] had done before it threw
    (the charts drawn until then stay in [charts]). *)
Theorem loadData_catches (s : state) :
  (forall e, fst (loadData s) <> Throw e) /\
  (Forall (fun f => is_Some (network s ("data/" ++ f))) files ->
   forall e, fst (initializeDashboard (stored s)) = Throw e ->
     let s' := snd (initializeDashboard (stored s)) in
     loadData s
     = (Ret tt,
        set_innerHTML (<[".main-content" := error_panel]> (innerHTML s'))
          (set_console (console s' ++ [ConsoleError "Error loading data:"])%list s')) /\
     charts (snd (loadData s)) = charts s').
Proof.
  split.
  - intros e. unfold loadData, try_catch.
    match goal with |- context [match ?m s with _ => _ end] => destruct (m s) as [[a|e'|] s'] end;
      done.
  - intros Hok e He s'. rewrite (loadData_stored s Hok). unfold try_catch.
    subst s'. destruct (initializeDashboard (stored s)) as [[a|e'|] s'];
      cbn [fst snd] in *; try discriminate He. done.
Qed.

(** X10.  Which document ends up under which key.  When every request is
    answered, [loadData] leaves in [globalData] the thirteen answers under
    fixed keys: that for [summary_stats.json] as [summary], for
    [ministry_funding.json] as [ministry], and so on in the order of the
    requests, whatever [initializeDashboard] does with them afterwards.
    When a request fails, [globalData] is left as it was. *)
Theorem loadData_stores (s : state) :
  (Forall (fun f => is_Some (network s ("data/" ++ f))) files ->
   globalData (snd (loadData s))
   = VObj [ ("summary", answer s "summary_stats.json");
            ("ministry", answer s "ministry_funding.json");
            ("geographic", answer s "geographic_distribution.json");
            ("temporal", answer s "temporal_trends.json");
            ("recipients", answer s "top_recipients.json");
            ("topics", answer s "topic_analysis.json");
            ("duration", answer s "duration_analysis.json");
            ("fundingTypes", answer s "funding_types.json");
            ("jointProjects", answer s "joint_projects.json");
            ("projekttraeger", answer s "projekttraeger.json");
            ("keywordTrends", answer s "keyword_trends.json");
            ("entityTrends", answer s "entity_trends.json");
            ("forecast", answer s "funding_forecast.json") ]) /\
  (Exists (fun f => network s ("data/" ++ f) = None) files ->
   globalData (snd (loadData s)) = globalData s).
Proof.
  split.
  - intros Hok. rewrite (loadData_stored s Hok).
    rewrite (try_catch_frame globalData).
    + by rewrite initializeDashboard_globalData.
    + intros e. unfold console_error, setInnerHTML. frame.
  - intros Hfail. by rewrite (loadData_fails s Hfail).
Qed.

(** ** What the handlers leave alone *)

(** X11.  After loading, nothing the user does changes the documents or
    asks the network for anything: opening and closing the drill-down
    leaves [globalData], the requests, the charts of the dashboard and the
    generated markup as they were (closing also the texts), and redrawing
    the temporal chart, switching the mode of the chart of the states or
    sorting the recipients table leaves [globalData], the requests and the
    modal (its chart and its visibility) as they were. *)
Theorem interactions_keep_data :
  (forall type name,
     preserves (fun s => (globalData s, requests s, charts s, innerHTML s))
       (showDrilldown type name)) /\
  preserves (fun s => (globalData s, requests s, charts s, innerHTML s, textContent s))
    closeModal /\
  (forall range,
     preserves (fun s => (globalData s, requests s, drilldownChart s, display s,
                          textContent s, innerHTML s))
       (createTemporalChart range)) /\
  (forall mode,
     preserves (fun s => (globalData s, requests s, drilldownChart s, display s,
                          textContent s, innerHTML s))
       (createGeoChart mode)) /\
  (forall sortBy,
     preserves (fun s => (globalData s, requests s, drilldownChart s, display s,
                          textContent s, charts s, canvas s))
       (populateRecipientsTable sortBy)).
Proof.
  repeat match goal with |- _ /\ _ => split end.
  - intros type name.
    unfold showDrilldown, drilldownSelect, presentDrilldown, console_error,
      document_of, setTextContent, setDisplay.
    frame.
  - unfold closeModal, setDisplay. frame.
  - intros range.
    unfold createTemporalChart, createForecastChart, document_of, newChart, destroyChart.
    frame.
  - intros mode. unfold createGeoChart, document_of, newChart, destroyChart. frame.
  - intros sortBy. unfold populateRecipientsTable, document_of, setInnerHTML. frame.
Qed.

(** ** The modal *)

Lemma keeps_ret {A} (I : state -> Prop) (a : A) : keeps I (mret a).
Proof. by intros s. Qed.

Lemma keeps_lift {A} (I : state -> Prop) (o : outcome A) : keeps I (lift o).
Proof. by intros s. Qed.

Lemma keeps_gets {A} (I : state -> Prop) (f : state -> A) : keeps I (gets f).
Proof. by intros s. Qed.

Lemma keeps_modify (I : state -> Prop) (f : state -> state) :
  (forall s, I s -> I (f s)) -> keeps I (modify f).
Proof. intros H s. apply H. Qed.

Lemma keeps_bind {A B} (I : state -> Prop) (m : M A) (f : A -> M B) :
  keeps I m -> (forall a, keeps I (f a)) -> keeps I (m ≫= f).
Proof.
  intros Hm Hf s Hs. rewrite run_bind. specialize (Hm s Hs).
  destruct (m s) as [[a|e|] s']; cbn [snd] in *; [|done..].
  by apply Hf.
Qed.

Lemma keeps_try_catch {A} (I : state -> Prop) (m : M A) (h : string -> M A) :
  keeps I m -> (forall e, keeps I (h e)) -> keeps I (try_catch m h).
Proof.
  intros Hm Hh s Hs. unfold try_catch. specialize (Hm s Hs).
  destruct (m s) as [[a|e|] s']; cbn [snd] in *; [done| |done].
  by apply Hh.
Qed.

Ltac consistent_step :=
  lazymatch goal with
  | |- keeps _ (_ ≫= _) => apply keeps_bind; [|intros ?]
  | |- keeps _ (mret _) => apply keeps_ret
  | |- keeps _ (lift _) => apply keeps_lift
  | |- keeps _ (gets _) => apply keeps_gets
  | |- keeps _ (modify _) =>
      apply keeps_modify;
      let s := fresh "s" in
      let Hs := fresh "Hs" in
      let Hd := fresh "Hd" in
      intros s Hs; unfold modal_consistent, with_chart, without_chart in *;
      repeat case_match; cbn; intros Hd;
      rewrite ?lookup_insert_ne, ?lookup_delete_ne, ?lookup_delete_eq by done;
      first [done | by apply Hs | congruence]
  | |- keeps _ (if ?b then _ else _) => destruct b
  | |- keeps _ (match ?x with _ => _ end) => destruct x
  end.

Ltac consistent :=
  unfold document_of, setTextContent, setInnerHTML, setDisplay, console_log,
    console_error, newChart, destroyChart;
  repeat consistent_step.

Lemma showDrilldown_consistent (type name : string) :
  keeps modal_consistent (showDrilldown type name).
Proof. unfold showDrilldown, drilldownSelect, presentDrilldown. consistent. Qed.

Lemma closeModal_consistent : keeps modal_consistent closeModal.
Proof. unfold closeModal. consistent. Qed.

Lemma initializeDashboard_consistent : keeps modal_consistent initializeDashboard.
Proof.
  unfold initializeDashboard, updateOverviewCards, updateLastUpdate,
    createTemporalChart, createForecastChart, createMonthlyChart,
    createDecadeMinistryChart, createMinistryChart, createInternationalChart,
    createGeoChart, createCityChart, createRecipientChart, createFundingTypeChart,
    createDurationChart, createTopicChart, createJointChart,
    createProjekttraegerChart, createFoerderprofilChart, createKeywordsCloud,
    populateRecipientsTable, initializeEventListeners.
  consistent.
Qed.

Lemma loadData_consistent : keeps modal_consistent loadData.
Proof.
  unfold loadData. apply keeps_try_catch.
  - apply keeps_bind.
    + intros s Hs. by rewrite fetch_all_run.
    + intros answers. apply keeps_bind; [apply keeps_lift|intros results].
      apply keeps_bind; [by apply keeps_modify|intros _].
      apply initializeDashboard_consistent.
  - intros e. consistent.
Qed.

Lemma closeModal_run (s : state) :
  let s' := snd (closeModal s) in
  fst (closeModal s) = Ret tt /\
  display s' !! "drilldownModal" = Some "none" /\
  drilldownChart s' = None /\
  (modal_consistent s -> canvas s' !! "drilldownChart" = None) /\
  closeModal s' = (Ret tt, s').
Proof.
  unfold closeModal, setDisplay, modal_consistent.
  rewrite !run_bind, !run_modify. cbn [fst snd drilldownChart set_display].
  destruct (drilldownChart s) as [c|] eqn:Hc; cbn; rewrite ?Hc.
  - rewrite lookup_insert_eq, lookup_delete_eq.
    repeat match goal with |- _ /\ _ => split end; try done.
    unfold set_display at 1. cbn. by rewrite insert_insert_eq.
  - rewrite lookup_insert_eq.
    repeat match goal with |- _ /\ _ => split end; try done; [auto|].
    unfold set_display at 1. cbn. by rewrite insert_insert_eq.
Qed.

(** X12.  The life of the modal.  The canvas of the modal holds a chart
    only while [drilldownChart] does: loading, opening and closing the
    drill-down, redrawing the temporal chart or the chart of the states
    and sorting the table all keep this, also when they throw.
    [closeModal] always returns, hides the modal and drops the chart, and
    with the invariant the canvas is empty afterwards, so opening a
    drill-down and closing it leaves no chart behind; closing twice is
    closing once.  The Escape key and a click on the overlay close the
    modal, any other key or click changes nothing. *)
Theorem modal_lifecycle :
  (keeps modal_consistent loadData /\
   (forall type name, keeps modal_consistent (showDrilldown type name)) /\
   keeps modal_consistent closeModal /\
   (forall range, keeps modal_consistent (createTemporalChart range)) /\
   (forall mode, keeps modal_consistent (createGeoChart mode)) /\
   (forall sortBy, keeps modal_consistent (populateRecipientsTable sortBy))) /\
  (forall s,
     let s' := snd (closeModal s) in
     fst (closeModal s) = Ret tt /\
     display s' !! "drilldownModal" = Some "none" /\
     drilldownChart s' = None /\
     (modal_consistent s -> canvas s' !! "drilldownChart" = None) /\
     closeModal s' = (Ret tt, s')) /\
  (forall type name s,
     modal_consistent s ->
     let s' := snd (closeModal (snd (showDrilldown type name s))) in
     display s' !! "drilldownModal" = Some "none" /\
     drilldownChart s' = None /\
     canvas s' !! "drilldownChart" = None) /\
  (forall s, document_onKeydown "Escape" s = closeModal s /\
             document_onClick "drilldownModal" s = closeModal s) /\
  (forall key id s,
     key <> "Escape" -> id <> "drilldownModal" ->
     document_onKeydown key s = (Ret tt, s) /\ document_onClick id s = (Ret tt, s)).
Proof.
  split; [|split; [|split; [|split]]].
  - repeat match goal with |- _ /\ _ => split end.
    + exact loadData_consistent.
    + exact showDrilldown_consistent.
    + exact closeModal_consistent.
    + intros range. unfold createTemporalChart, createForecastChart. consistent.
    + intros mode. unfold createGeoChart. consistent.
    + intros sortBy. unfold populateRecipientsTable. consistent.
  - exact closeModal_run.
  - intros type name s Hs s'.
    destruct (closeModal_run (snd (showDrilldown type name s))) as (_ & H1 & H2 & H3 & _).
    split; [exact H1|]. split; [exact H2|].
    apply H3. by apply showDrilldown_consistent.
  - intros s. split; reflexivity.
  - intros key id s Hkey Hid. unfold document_onKeydown, document_onClick.
    destruct (String.eqb_spec key "Escape"); [done|].
    destruct (String.eqb_spec id "drilldownModal"); done.
Qed.

(** ** Drawing a chart again *)

Lemma without_chart_twice (slot id : string) (s : state) :
  without_chart slot id (without_chart slot id s) = without_chart slot id s.
Proof.
  unfold without_chart. destruct (charts s !! slot) eqn:E; cbn; rewrite E; [|done].
  unfold set_canvas. cbn. by rewrite delete_delete_eq.
Qed.

Lemma with_chart_twice (slot id : string) (c1 c2 : chart) (s : state) :
  with_chart slot id c2 (without_chart slot id (with_chart slot id c1 s))
  = with_chart slot id c2 s.
Proof.
  unfold without_chart. rewrite charts_with_chart.
  unfold with_chart, set_charts, set_canvas. cbn.
  by rewrite insert_insert_eq, insert_delete_eq, insert_insert_eq.
Qed.

Lemma redraws_replaces (slot id : string) (m1 m2 : M unit) (s : state) :
  redraws slot id m1 -> redraws slot id m2 ->
  fst (m2 s) = Ret tt -> m2 (snd (m1 s)) = m2 s.
Proof.
  intros H1 H2 Hret.
  destruct (H2 s) as [o2 Ho2]. destruct (H1 s) as [o1 Ho1].
  specialize (Ho1 s eq_refl).
  destruct o2 as [c2|e2|]; [|by destruct (Ho2 s eq_refl)..].
  rewrite (Ho2 s eq_refl).
  assert (Hcases : snd (m1 s) = s \/ snd (m1 s) = without_chart slot id s \/
                   exists c1, snd (m1 s) = with_chart slot id c1 (without_chart slot id s)).
  { destruct o1 as [c1|e1|].
    - right. right. exists c1. by rewrite Ho1.
    - destruct Ho1 as [_ [->| ->]]; auto.
    - destruct Ho1 as [_ [->| ->]]; auto. }
  destruct Hcases as [Hs|[Hs|[c1 Hs]]]; rewrite Hs.
  - apply (Ho2 s eq_refl).
  - rewrite (Ho2 _ (globalData_without_chart slot id s)).
    by rewrite without_chart_twice.
  - rewrite (Ho2 (with_chart slot id c1 (without_chart slot id s))).
    + by rewrite with_chart_twice.
    + cbn. apply globalData_without_chart.
Qed.

Lemma createTemporalChart_redraws (range : string) :
  redraws "temporal" "temporalChart" (createTemporalChart range).
Proof.
  intros s. unfold createTemporalChart, createForecastChart.
  destruct (String.eqb range "forecast").
  - exists (f ← get (globalData s) "forecast"; t ← get (globalData s) "temporal";
            forecastConfig f t).
    intros s' Hg.
    rewrite run_bind, run_destroyChart, run_bind, run_document_of,
      globalData_without_chart, Hg.
    destruct (get (globalData s) "forecast") as [f|e|]; cbn [mbind outcome_bind];
      [|by split; [|right]..].
    rewrite run_bind, run_document_of, globalData_without_chart, Hg.
    destruct (get (globalData s) "temporal") as [t|e|]; cbn [mbind outcome_bind];
      [|by split; [|right]..].
    rewrite run_bind, run_lift.
    destruct (forecastConfig f t) as [c|e|]; [done|by split; [|right]..].
  - exists (t ← get (globalData s) "temporal";
            yearly ← get t "yearly_totals";
            data ← temporalData range yearly;
            labels ← map_field data "year";
            totals ← map_field data "total_funding";
            counts ← map_field data "project_count";
            Ret {| ch_type := "line"; ch_labels := labels;
                   ch_datasets :=
                     [ {| ds_label := VStr "Total Funding (€)"; ds_data := totals |};
                       {| ds_label := VStr "Project Count"; ds_data := counts |} ] |}).
    intros s' Hg.
    rewrite run_bind, run_destroyChart, run_bind, run_document_of,
      globalData_without_chart, Hg.
    destruct (get (globalData s) "temporal") as [t|e|]; cbn [mbind outcome_bind];
      [|by split; [|right]..].
    rewrite run_bind, run_lift.
    match goal with |- context [match ?o with Ret _ => _ | _ => _ end] =>
      destruct o as [c|e|] end; [done|by split; [|right]..].
Qed.

Lemma createGeoChart_redraws (mode : string) :
  redraws "geo" "geoChart" (createGeoChart mode).
Proof.
  intros s. unfold createGeoChart.
  exists (g ← get (globalData s) "geographic";
          data ← (states ← get g "states"; geoData mode states);
          chartData ← pluck (if String.eqb mode "percapita"
                             then "per_capita_funding" else "total_funding") data;
          labels ← pluck "name" data;
          Ret (bar labels (if String.eqb mode "percapita"
                           then "Per Capita Funding (€)" else "Total Funding")
                   chartData)).
  intros s' Hg. rewrite run_bind, run_document_of, Hg.
  destruct (get (globalData s) "geographic") as [g|e|]; cbn [mbind outcome_bind];
    [|by split; [|left]..].
  rewrite run_bind, run_lift.
  destruct (mbind _ (get g "states")) as [data|e|]; cbn [mbind outcome_bind];
    [|by split; [|left]..].
  rewrite run_bind, run_destroyChart, run_bind, run_lift.
  match goal with |- context [match ?o with Ret _ => _ | _ => _ end] =>
    destruct o as [c|e|] end; [done|by split; [|right]..].
Qed.

Lemma populateRecipientsTable_run (sortBy : string) (s : state) :
  exists o : outcome (list table_row),
    forall s', globalData s' = globalData s ->
      populateRecipientsTable sortBy s'
      = match o with
        | Ret rows =>
            (Ret tt,
             set_innerHTML (<["recipientTable.tbody" := TableRows rows]> (innerHTML s')) s')
        | Throw e => (Throw e, s')
        | Unmodelled => (Unmodelled, s')
        end.
Proof.
  unfold populateRecipientsTable.
  exists (recipients ← get (globalData s) "recipients";
          data ← (top ← get recipients (if String.eqb sortBy "funding"
                                        then "top_by_funding" else "top_by_count");
                  slice_to 20 top);
          entityTrends ← get (globalData s) "entityTrends";
          recipientRows entityTrends 0 data).
  intros s' Hg. rewrite run_bind, run_document_of, Hg.
  destruct (get (globalData s) "recipients") as [r|e|]; cbn [mbind outcome_bind];
    [|done..].
  rewrite run_bind, run_lift.
  destruct (mbind _ (get r _)) as [data|e|]; cbn [mbind outcome_bind]; [|done..].
  rewrite run_bind, run_document_of, Hg.
  destruct (get (globalData s) "entityTrends") as [t|e|]; cbn [mbind outcome_bind];
    [|done..].
  rewrite run_bind, run_lift.
  destruct (recipientRows t 0 data) as [rows|e|]; done.
Qed.

(** X13.  Drawing again replaces, it does not pile up.  Whatever range
    was shown before, and whether drawing it succeeded or threw, a range
    of the temporal chart that can be drawn leaves the page exactly as if
    it had been drawn first: the state after [createTemporalChart r2]
    following [createTemporalChart r1] is the state after
    [createTemporalChart r2] alone.  The same holds for the two modes of
    the chart of the states and for the two orders of the recipients
    table. *)
Theorem redraw_replaces :
  (forall r1 r2 s,
     fst (createTemporalChart r2 s) = Ret tt ->
     createTemporalChart r2 (snd (createTemporalChart r1 s)) = createTemporalChart r2 s) /\
  (forall m1 m2 s,
     fst (createGeoChart m2 s) = Ret tt ->
     createGeoChart m2 (snd (createGeoChart m1 s)) = createGeoChart m2 s) /\
  (forall o1 o2 s,
     fst (populateRecipientsTable o2 s) = Ret tt ->
     populateRecipientsTable o2 (snd (populateRecipientsTable o1 s))
     = populateRecipientsTable o2 s).
Proof.
  split; [|split].
  - intros r1 r2 s. apply (redraws_replaces "temporal" "temporalChart");
      apply createTemporalChart_redraws.
  - intros m1 m2 s. apply (redraws_replaces "geo" "geoChart");
      apply createGeoChart_redraws.
  - intros o1 o2 s Hret.
    destruct (populateRecipientsTable_run o1 s) as [r1 H1].
    destruct (populateRecipientsTable_run o2 s) as [r2 H2].
    rewrite (H1 s eq_refl). rewrite (H2 s eq_refl) in Hret |- *.
    destruct r2 as [rows2|e|]; try discriminate Hret.
    destruct r1 as [rows1|e|]; cbn [snd]; rewrite ?(H2 s eq_refl); try done.
    rewrite (H2 (set_innerHTML _ s)) by done.
    unfold set_innerHTML. cbn. by rewrite insert_insert_eq.
Qed.

(** ** The keyword cloud *)

Lemma sizeClass_by_ratio (r : Q) :
  ((binary64 (7 # 10) < r)%Q -> sizeClass (Fin r) = "keyword-xlarge") /\
  ((r <= binary64 (7 # 10))%Q -> (binary64 (4 # 10) < r)%Q ->
     sizeClass (Fin r) = "keyword-large") /\
  ((r <= binary64 (4 # 10))%Q -> (binary64 (2 # 10) < r)%Q ->
     sizeClass (Fin r) = "keyword-medium") /\
  ((r <= binary64 (2 # 10))%Q -> sizeClass (Fin r) = "keyword-small").
Proof.
  assert (H47 : (binary64 (4 # 10) <= binary64 (7 # 10))%Q) by (by vm_compute).
  assert (H24 : (binary64 (2 # 10) <= binary64 (4 # 10))%Q) by (by vm_compute).
  unfold sizeClass. repeat split.
  - intros H. by rewrite (Qlt_bool_true _ _ H).
  - intros H1 H2. by rewrite (Qlt_bool_false _ _ H1), (Qlt_bool_true _ _ H2).
  - intros H1 H2. rewrite (Qlt_bool_true _ _ H2), (Qlt_bool_false _ _ H1).
    rewrite Qlt_bool_false; [done|]. eapply Qle_trans; [exact H1|exact H47].
  - intros H. rewrite !Qlt_bool_false; [done|exact H| |].
    + eapply Qle_trans; [exact H|exact H24].
    + eapply Qle_trans; [exact H|]. eapply Qle_trans; [exact H24|exact H47].
Qed.

Lemma keyword_entry_fields (k : value) :
  keyword_entry k = true ->
  is_object k = true /\
  exists w c, field "word" k = VStr w /\ field "count" k = num c /\
              count_of k = Some c /\ (0 < c)%Q.
Proof.
  unfold keyword_entry, count_of.
  intros [[Hobj Hw]%andb_prop Hc]%andb_prop. split; [done|].
  destruct (field "word" k) as [| | | |w| | |]; try discriminate Hw.
  destruct (field "count" k) as [| | |[|c]| | | |]; try discriminate Hc.
  apply andb_prop in Hc as [[Hc _]%andb_prop _].
  exists w, c. repeat split. by apply Qlt_bool_lt.
Qed.

(** The count of a keyword is shown by its digits. *)
Lemma keyword_entry_count (k : value) (c : Q) :
  keyword_entry k = true -> count_of k = Some c ->
  to_string (num c) = Ret (pretty (Qfloor c)).
Proof.
  unfold keyword_entry. intros [_ Hc]%andb_prop Hcount. rewrite Hcount in Hc.
  apply andb_prop in Hc as [[Hpos Hwhole]%andb_prop Hbound].
  apply Qlt_bool_lt in Hpos, Hbound.
  unfold to_string, num. rewrite Hwhole, Qlt_bool_true; [done|].
  rewrite Qabs_pos; [exact Hbound|by apply Qlt_le_weak].
Qed.

Lemma math_max_cons (v : value) (vs : list value) :
  vs <> [] ->
  math_max (v :: vs)
  = (n ← to_number v;
     m ← math_max vs;
     Ret match n, m with
         | Fin a, Fin b => Fin (if Qle_bool a b then b else a)
         | _, _ => NaN
         end).
Proof. by destruct vs. Qed.

Lemma math_max_counts (l : list value) :
  l <> [] -> Forall (fun k => keyword_entry k = true) l ->
  exists m, math_max (map (field "count") l) = Ret (Fin m) /\ max_count m l /\ (0 < m)%Q.
Proof.
  intros Hne H. induction H as [|k l Hk Hl IH]; [done|].
  destruct (keyword_entry_fields k Hk) as (_ & w & c & _ & Hc & Hc' & Hpos).
  destruct l as [|k' l'].
  - exists c. cbn [map math_max]. rewrite Hc. split; [done|]. split; [|done].
    split.
    + exists k. split; [apply list_elem_of_here|done].
    + intros k0 c0 Hin Hc0. apply list_elem_of_singleton in Hin as ->.
      rewrite Hc' in Hc0. injection Hc0 as <-. apply Qle_refl.
  - destruct IH as (m & Hm & [(km & Hkm & Hkm') Hmax] & Hmpos); [done|].
    change (map (field "count") (k :: k' :: l'))
      with (field "count" k :: map (field "count") (k' :: l')).
    rewrite math_max_cons, Hc, Hm by done.
    cbn [num to_number mbind outcome_bind]. destruct (Qle_bool c m) eqn:E.
    + apply Qle_bool_iff in E. exists m. split; [done|]. split; [|done]. split.
      * exists km. split; [by apply list_elem_of_further|done].
      * intros k0 c0 Hin Hc0. apply elem_of_cons in Hin as [->|Hin].
        -- rewrite Hc' in Hc0. by injection Hc0 as <-.
        -- by apply (Hmax k0).
    + assert (Hlt : (m < c)%Q).
      { apply Qnot_le_lt. intros Hle. apply Qle_bool_iff in Hle. congruence. }
      exists c. split; [done|]. split; [|done]. split.
      * exists k. split; [apply list_elem_of_here|done].
      * intros k0 c0 Hin Hc0. apply elem_of_cons in Hin as [->|Hin].
        -- rewrite Hc' in Hc0. injection Hc0 as <-. apply Qle_refl.
        -- apply Qlt_le_weak. eapply Qle_lt_trans; [|exact Hlt]. by apply (Hmax k0).
Qed.

(** The quotient of a count by a count that is not smaller is a finite
    number. *)
Lemma ratio_finite (c m : Q) :
  (0 < c)%Q -> (c <= m)%Q ->
  Qle_bool (pow2 1024) (Qabs (binary64 (c / m))) = false.
Proof.
  intros Hc Hm. apply Qle_bool_false.
  assert (H0 : (0 <= c / m)%Q) by (apply Qle_shift_div_l; lra).
  assert (H1 : (c / m <= 1)%Q) by (apply Qle_shift_div_r; lra).
  rewrite Qabs_pos by (by apply binary64_nonneg).
  eapply Qle_lt_trans; [by apply binary64_bound|].
  assert (3 < pow2 1024)%Q by (by vm_compute). lra.
Qed.

Lemma keywordTag_ret (trends k : value) (m : Q) :
  keyed trends "keywords" = true -> keyword_entry k = true ->
  forall c, count_of k = Some c -> (c <= m)%Q ->
  exists w,
    field "word" k = VStr w /\
    keywordTag trends (Fin m) k
    = Ret {| kw_class := sizeClass (Fin (binary64 (c / m)));
             kw_onclick := if truthy (trend_of trends "keywords" w)
                           then Some w else None;
             kw_title := pretty (Qfloor c)
                         ++ (if truthy (trend_of trends "keywords" w)
                             then " word matches - Click to see related projects"
                             else " word matches");
             kw_word := w |}.
Proof.
  intros Hkeyed Hk c Hcount Hm.
  destruct (keyword_entry_fields k Hk) as (Hobj & w & c' & Hw & Hc & Hc' & Hpos).
  assert (c' = c) as -> by congruence.
  pose proof (keyword_entry_count k c Hk Hcount) as Hdigits.
  destruct (trend_lookup trends "keywords" eq_refl Hkeyed) as (known & Hknown & _ & Hhit).
  exists w. split; [done|].
  unfold keywordTag. rewrite !(get_object _ k Hobj), Hc, Hw.
  cbn [mbind outcome_bind]. unfold div_values. cbn [num to_number mbind outcome_bind].
  destruct (Qeq_bool m 0) eqn:E.
  { apply Qeq_bool_iff in E. lra. }
  rewrite (ratio_finite c m Hpos Hm).
  cbn [mbind outcome_bind]. rewrite Hknown. cbn [mbind outcome_bind].
  rewrite Hhit. cbn [mbind outcome_bind]. fold (num c). rewrite Hdigits.
  by destruct (truthy (trend_of trends "keywords" w)).
Qed.

(** X14.  The keyword cloud.  Over keywords that carry a word and a whole
    count above zero, [createKeywordsCloud] writes one tag per keyword for
    the first fifty keywords of the document, in their order.  The size of
    a tag depends on the quotient of its count [c] by the largest count
    [m] among the fifty, as a binary64 number, against the binary64 numbers
    next to [0.7], [0.4] and [0.2]: [xlarge] above the first (so the most
    frequent keyword is always [xlarge]), [large] above the second,
    [medium] above the third, else [small].  A tag gets a handler exactly
    when the lookup of its word in the keyword trends is truthy: when the
    trends have an entry for the word, or the word is the name of a member
    every object inherits ([constructor], [toString], ...).  The word is
    written as it is, without escaping, into the handler and into the
    element, the count into the title.  No keywords give an empty cloud. *)
Theorem keyword_cloud (s : state) (topics : list (string * value)) (all : list value)
    (trends : value) :
  get (globalData s) "topics" = Ret (VObj topics) ->
  lookup_prop "keywords" topics = Some (VArr all) ->
  Forall (fun k => keyword_entry k = true) all ->
  get (globalData s) "keywordTrends" = Ret trends ->
  keyed trends "keywords" = true ->
  exists tags m,
    createKeywordsCloud s
    = (Ret tt, set_innerHTML (<["keywordsCloud" := KeywordTags tags]> (innerHTML s)) s) /\
    length tags = (length all `min` 50)%nat /\
    (all = [] -> tags = []) /\
    (all <> [] -> max_count m (take 50 all)) /\
    forall i k, take 50 all !! i = Some k ->
      exists tag w c,
        tags !! i = Some tag /\ field "word" k = VStr w /\ count_of k = Some c /\
        let clickable := truthy (trend_of trends "keywords" w) in
        let ratio := binary64 (c / m) in
        kw_word tag = w /\
        kw_onclick tag = (if clickable then Some w else None) /\
        kw_title tag
        = pretty (Qfloor c)
          ++ (if clickable then " word matches - Click to see related projects"
              else " word matches") /\
        (c == m -> kw_class tag = "keyword-xlarge")%Q /\
        ((binary64 (7 # 10) < ratio)%Q -> kw_class tag = "keyword-xlarge") /\
        ((ratio <= binary64 (7 # 10))%Q -> (binary64 (4 # 10) < ratio)%Q ->
           kw_class tag = "keyword-large") /\
        ((ratio <= binary64 (4 # 10))%Q -> (binary64 (2 # 10) < ratio)%Q ->
           kw_class tag = "keyword-medium") /\
        ((ratio <= binary64 (2 # 10))%Q -> kw_class tag = "keyword-small") /\
        tag_markup tag
        = "<span " ++ attribute "class" ("keyword-tag " ++ kw_class tag) ++ " "
          ++ (if clickable then attribute "onclick" ("showKeywordTrends('" ++ w ++ "')")
              else EmptyString)
          ++ " " ++ (if clickable then EmptyString
                     else attribute "style" "cursor: default;")
          ++ " " ++ attribute "title" (kw_title tag) ++ ">" ++ w ++ "</span>".
Proof.
  intros Hdoc Hall Hwf Htrends Hkeyed.
  remember (take 50 all) as keywords eqn:Hkeywords.
  assert (Hkw : Forall (fun k => keyword_entry k = true) keywords)
    by (subst keywords; by apply Forall_take).
  assert (Hobj : Forall (fun k => is_object k = true) keywords).
  { eapply Forall_impl; [exact Hkw|]. intros k Hk.
    by destruct (keyword_entry_fields k Hk). }
  assert (Hlen : length keywords = (length all `min` 50)%nat)
    by (subst keywords; rewrite length_take; lia).
  assert (Hstart : forall tags,
            (match keywords with
             | [] => Ret []
             | _ => maxCount ← math_max (map (field "count") keywords);
                    mapO (keywordTag trends maxCount) keywords
             end) = Ret tags ->
            createKeywordsCloud s
            = (Ret tt,
               set_innerHTML (<["keywordsCloud" := KeywordTags tags]> (innerHTML s)) s)).
  { intros tags Htags. unfold createKeywordsCloud.
    rewrite run_bind, run_document_of, Hdoc, run_bind, run_lift.
    cbn [get]. rewrite Hall. cbn [from_option id mbind outcome_bind slice_to].
    rewrite <- Hkeywords. rewrite run_bind, run_lift, (pluck_objects _ keywords Hobj).
    rewrite run_bind, run_document_of, Htrends, run_bind, run_lift, Htags.
    reflexivity. }
  destruct (decide (keywords = [])) as [Hnil|Hne].
  { exists [], 0%Q. rewrite Hnil in *. split; [by apply Hstart|].
    split; [done|]. split; [done|]. split.
    - intros Hall'. destruct all; [done|]. cbn in Hlen. lia.
    - intros i k Hi. done. }
  destruct (math_max_counts keywords Hne Hkw) as (m & Hmax & Hm & Hpos).
  set (tag := fun k =>
         let w := match field "word" k with VStr w => w | _ => EmptyString end in
         let c := default 0%Q (count_of k) in
         {| kw_class := sizeClass (Fin (binary64 (c / m)));
            kw_onclick := if truthy (trend_of trends "keywords" w) then Some w else None;
            kw_title := pretty (Qfloor c)
                        ++ (if truthy (trend_of trends "keywords" w)
                            then " word matches - Click to see related projects"
                            else " word matches");
            kw_word := w |}).
  assert (Htags : mapO (keywordTag trends (Fin m)) keywords = Ret (map tag keywords)).
  { apply mapO_ret. apply Forall_forall. intros k Hin.
    assert (Hk : keyword_entry k = true) by (by apply (proj1 (Forall_forall _ _) Hkw)).
    destruct (keyword_entry_fields k Hk) as (_ & w' & c & _ & _ & Hc & _).
    destruct (keywordTag_ret trends k m Hkeyed Hk c Hc) as (w & Hw & ->);
      [by apply (proj2 Hm k)|].
    unfold tag. by rewrite Hw, Hc. }
  exists (map tag keywords), m. split; [|split; [|split; [|split]]].
  - apply Hstart. rewrite Hmax. cbn [mbind outcome_bind]. rewrite Htags.
    by destruct keywords.
  - by rewrite length_map.
  - intros ->. by subst keywords.
  - done.
  - intros i k Hi.
    assert (Hk : keyword_entry k = true).
    { apply list_elem_of_lookup_2 in Hi. by apply (proj1 (Forall_forall _ _) Hkw). }
    destruct (keyword_entry_fields k Hk) as (_ & w & c & Hw & _ & Hc & Hcpos).
    exists (tag k), w, c. split; [by rewrite list_lookup_fmap, Hi|].
    split; [done|]. split; [done|]. cbv zeta. unfold tag, tag_markup.
    cbn [kw_word kw_class kw_onclick kw_title].
    rewrite Hw, Hc. cbn [from_option id].
    destruct (sizeClass_by_ratio (binary64 (c / m))) as (H1 & H2 & H3 & H4).
    split; [done|]. split; [done|]. split; [done|].
    split; [|split; [done|split; [done|split; [done|split; [done|]]]]].
    + intros Heq. apply H1.
      assert (E : (c / m == 1)%Q) by (rewrite Heq; field; lra).
      rewrite (binary64_proper _ _ E). by vm_compute.
    + by destruct (truthy (trend_of trends "keywords" w)).
Qed.

(** ** The recipients table *)

Lemma average_ret (r average : value) :
  average_of r = Some average ->
  (if truthy (field "avg_funding" r)
   then formatCurrency (field "avg_funding" r) false
   else n ← to_number (field "project_count" r);
        q ← div_values (field "total_funding" r) n;
        formatCurrency (VNum q) false)
  = Ret (Intl_NumberFormat "de-DE" nf_euro average).
Proof.
  unfold average_of. destruct (truthy (field "avg_funding" r)); [by intros [= <-]|].
  destruct (field "total_funding" r) as [| | |[|t]| | | |]; try discriminate;
    destruct (field "project_count" r) as [| | |[|c]| | | |]; try discriminate;
    cbn [to_number div_values mbind outcome_bind];
    destruct (Qeq_bool c 0); try discriminate; cbn [orb].
  - by intros [= <-].
  - destruct (Qle_bool (pow2 1024) (Qabs (binary64 (t / c)))); [discriminate|].
    by intros [= <-].
Qed.

Lemma recipientRow_ret (trends r : value) (index : nat) :
  keyed trends "recipients" = true -> recipient_entry r = true ->
  exists row, recipientRow trends index r = Ret row /\ row_for trends (S index) r row.
Proof.
  intros Hkeyed Hr. unfold recipient_entry in Hr.
  apply andb_prop in Hr as [[Hobj Hname]%andb_prop Havg].
  apply bool_decide_eq_true in Havg as [average Havg].
  destruct (field "name" r) as [| | | |n| | |] eqn:Hn; try discriminate Hname.
  destruct (trend_lookup trends "recipients" eq_refl Hkeyed) as (known & Hknown & _ & Hhit).
  destruct (truncateLabel_string n 50) as (t & Ht & _).
  pose proof (average_ret r average Havg) as Haverage.
  exists {| row_onclick := if truthy (trend_of trends "recipients" n)
                           then Some (escape_quotes n) else None;
            row_title := if truthy (trend_of trends "recipients" n)
                         then "Click to see funding trends" else n;
            row_rank := S index; row_name := t;
            row_funding := Intl_NumberFormat "de-DE" nf_euro (field "total_funding" r);
            row_projects :=
              Intl_NumberFormat "de-DE" nf_default (field "project_count" r);
            row_average := Intl_NumberFormat "de-DE" nf_euro average |}.
  split.
  - unfold recipientRow. rewrite !(get_object _ r Hobj), Hn.
    cbn [mbind outcome_bind]. rewrite Hknown. cbn [mbind outcome_bind].
    rewrite Hhit. cbn [mbind outcome_bind].
    change (formatCurrency (field "total_funding" r) false)
      with (Ret (Intl_NumberFormat "de-DE" nf_euro (field "total_funding" r))).
    change (formatNumber (field "project_count" r) false)
      with (Ret (Intl_NumberFormat "de-DE" nf_default (field "project_count" r))).
    destruct (truthy (trend_of trends "recipients" n)) eqn:Hclick;
      cbn [to_string mbind outcome_bind]; rewrite Ht; cbn [to_string mbind outcome_bind];
      rewrite Haverage; reflexivity.
  - exists n, average. cbv zeta.
    cbn [row_rank row_name row_onclick row_title row_funding row_projects row_average].
    rewrite Ht. unfold row_markup.
    cbn [row_rank row_name row_onclick row_title row_funding row_projects row_average].
    repeat match goal with |- _ /\ _ => split end; try done.
    by destruct (truthy (trend_of trends "recipients" n)).
Qed.

Lemma recipientRows_ret (trends : value) (data : list value) (index : nat) :
  keyed trends "recipients" = true ->
  Forall (fun r => recipient_entry r = true) data ->
  exists rows,
    recipientRows trends index data = Ret rows /\
    length rows = length data /\
    forall i r, data !! i = Some r ->
      exists row, rows !! i = Some row /\ row_for trends (S (index + i)) r row.
Proof.
  intros Hkeyed H. revert index. induction H as [|r data Hr _ IH]; intros index.
  - exists []. split; [done|]. split; [done|]. intros i r Hi. done.
  - destruct (recipientRow_ret trends r index Hkeyed Hr) as (row & Hrow & Hfor).
    destruct (IH (S index)) as (rows & Hrows & Hlen & Hall).
    exists (row :: rows). split; [|split].
    + cbn [recipientRows]. rewrite Hrow. cbn [mbind outcome_bind].
      rewrite Hrows. done.
    + cbn. by rewrite Hlen.
    + intros [|i] r' Hi; cbn in Hi.
      * injection Hi as <-. exists row. split; [done|]. by rewrite Nat.add_0_r.
      * destruct (Hall i r' Hi) as (row' & Hrow' & Hfor'). exists row'.
        split; [done|]. by replace (index + S i)%nat with (S index + i)%nat by lia.
Qed.

(** X15.  The recipients table.  Over recipients that carry a name and
    either an average or a total with a count other than zero,
    [populateRecipientsTable] writes one row for each of the first twenty
    entries of [top_by_funding] (for the order [funding]) or of
    [top_by_count] (for any other order), in their order.  The row of the
    entry at position [i] has the rank [i + 1], the name cut to fifty
    characters, the total and the count in the German number format, and
    as its average the [avg_funding] of the entry or else the binary64
    quotient of the total by the count.  It gets a handler, with the name
    as the argument and the quotes in it escaped, exactly when the lookup
    of the name in the entity trends is truthy: when the trends have an
    entry for the name, or the name is that of a member every object
    inherits ([constructor], [toString], ...).  Without a handler the text
    put between the quotes of the [title] attribute is the name as it is:
    nothing in it is escaped, so a double quote in the name ends the
    attribute in the markup. *)
Theorem recipients_table (s : state) (sortBy : string)
    (recipients : list (string * value)) (top : list value) (trends : value) :
  get (globalData s) "recipients" = Ret (VObj recipients) ->
  lookup_prop (if String.eqb sortBy "funding" then "top_by_funding" else "top_by_count")
    recipients = Some (VArr top) ->
  Forall (fun r => recipient_entry r = true) top ->
  get (globalData s) "entityTrends" = Ret trends ->
  keyed trends "recipients" = true ->
  exists rows,
    populateRecipientsTable sortBy s
    = (Ret tt,
       set_innerHTML (<["recipientTable.tbody" := TableRows rows]> (innerHTML s)) s) /\
    length rows = (length top `min` 20)%nat /\
    forall i r, take 20 top !! i = Some r ->
      exists row, rows !! i = Some row /\ row_for trends (S i) r row.
Proof.
  intros Hdoc Htop Hwf Htrends Hkeyed.
  destruct (recipientRows_ret trends (take 20 top) 0 Hkeyed) as (rows & Hrows & Hlen & Hall);
    [by apply Forall_take|].
  exists rows. split; [|split].
  - unfold populateRecipientsTable.
    rewrite run_bind, run_document_of, Hdoc, run_bind, run_lift.
    cbn [get]. destruct (String.eqb sortBy "funding"); rewrite Htop;
      cbn [from_option id mbind outcome_bind slice_to];
      rewrite run_bind, run_document_of, Htrends, run_bind, run_lift, Hrows;
      reflexivity.
  - rewrite Hlen, length_take. lia.
  - exact Hall.
Qed.

(** ** Opening the drill-down *)

Lemma trend_hit (trends : value) (kind name : string) (entry : list (string * value)) :
  trend_of trends kind name = VObj entry ->
  (known ← get_opt trends kind; get_opt known name) = Ret (VObj entry).
Proof.
  unfold trend_of. intros H.
  destruct trends as [| | | | | |d|]; try discriminate H. cbn.
  destruct (lookup_prop kind d) as [[| | | | | |known|]|]; try discriminate H. cbn.
  by rewrite H.
Qed.

Lemma presentDrilldown_opens (entry : list (string * value)) (title subtitle : string)
    (tf : Q) (yearly : list value) (s : state) :
  lookup_prop "total_funding" entry = Some (num tf) ->
  (0 <= tf)%Q -> (tf < e10 21)%Q ->
  lookup_prop "yearly" entry = Some (VArr yearly) ->
  Forall (fun d => is_object d = true) yearly ->
  let r := presentDrilldown (VObj entry) title subtitle s in
  let c := {| ch_type := "bar"; ch_labels := map (field "year") yearly;
              ch_datasets :=
                [ {| ds_label := VStr "Funding (€)";
                     ds_data := map (field "funding") yearly |};
                  {| ds_label := VStr "Projects";
                     ds_data := map (field "projects") yearly |} ] |} in
  fst r = Ret tt /\
  display (snd r) !! "drilldownModal" = Some "flex" /\
  drilldownChart (snd r) = Some c /\
  canvas (snd r) !! "drilldownChart" = Some c /\
  textContent (snd r) !! "modalTitle" = Some title /\
  textContent (snd r) !! "modalSubtitle" = Some subtitle /\
  textContent (snd r) !! "modalTotalProjects"
  = Some (Intl_NumberFormat "de-DE" nf_default (field "total_projects" (VObj entry))) /\
  exists t, formatCurrency (num tf) true = Ret t /\
            textContent (snd r) !! "modalTotalFunding" = Some t.
Proof.
  intros Htf Hpos Hbound Hyearly Hobj r c. subst r.
  destruct (formatCurrency_total tf Hpos Hbound) as [t Ht].
  assert (Hcfg : drilldownConfig (VObj entry) = Ret c).
  { unfold drilldownConfig. cbn [get]. rewrite Hyearly.
    cbn [from_option id mbind outcome_bind]. unfold map_field.
    cbn [as_array mbind outcome_bind]. by rewrite !(pluck_objects _ yearly Hobj). }
  unfold presentDrilldown, setTextContent, setDisplay.
  rewrite run_bind, run_modify, run_bind, run_modify, run_bind, run_lift.
  cbn [get mbind outcome_bind formatNumber].
  rewrite run_bind, run_modify, run_bind, run_lift. cbn [get]. rewrite Htf.
  cbn [from_option id mbind outcome_bind]. rewrite Ht.
  rewrite run_bind, run_modify, run_bind, run_modify, run_bind, run_modify.
  rewrite run_bind, run_lift, Hcfg, run_modify.
  cbn [fst snd]. split; [done|].
  cbn [display drilldownChart canvas textContent set_display set_drilldownChart
         set_canvas set_textContent].
  destruct (drilldownChart s); cbn;
    repeat match goal with |- _ /\ _ => split end;
    repeat first [rewrite lookup_insert_eq|rewrite lookup_insert_ne by done];
    eauto.
Qed.

Lemma city_suffix (entry : list (string * value)) :
  is_string (field "state" (VObj entry)) || negb (truthy (field "state" (VObj entry)))
  = true ->
  (st ← get_opt (VObj entry) "state";
   if truthy st then t ← to_key st; Ret (" (" ++ t ++ ")") else Ret EmptyString)
  = Ret match field "state" (VObj entry) with
        | VStr st => if String.eqb st EmptyString then EmptyString
                     else " (" ++ st ++ ")"
        | _ => EmptyString
        end.
Proof.
  cbn [get_opt get field mbind outcome_bind].
  change (inherited "state") with VUndef.
  destruct (default VUndef (lookup_prop "state" entry)) as [| |b|[|q]|st|l|o|m];
    cbn [is_string truthy orb negb to_key to_string mbind outcome_bind]; try done.
  - by destruct b.
  - by destruct (Qeq_bool q 0).
  - by destruct (String.eqb st EmptyString).
Qed.

(** X16.  Opening a drill-down.  When the collection of a type holds an
    entry for the name, with a total funding from zero below [1e21] and the
    yearly figures as an array of entries, [showDrilldown] returns with the
    modal shown, the totals of the entry in the texts of the modal and a
    chart of the yearly figures, funding and projects per year, as
    [drilldownChart].  The title is the name: in quotes for a keyword,
    followed by the state in brackets for a city that has one, cut to 47
    characters and three dots for a recipient of more than 50 characters.
    A type other than the four known ones only logs an error. *)
Theorem showDrilldown_opens_entry (s : state) (type doc kind name : string)
    (trends : value) (entry : list (string * value)) (tf : Q) (yearly : list value) :
  trend_source type = Some (doc, kind) ->
  get (globalData s) doc = Ret trends ->
  trend_of trends kind name = VObj entry ->
  lookup_prop "total_funding" entry = Some (num tf) ->
  (0 <= tf)%Q -> (tf < e10 21)%Q ->
  lookup_prop "yearly" entry = Some (VArr yearly) ->
  Forall (fun d => is_object d = true) yearly ->
  (type = "city" ->
   is_string (field "state" (VObj entry)) || negb (truthy (field "state" (VObj entry)))
   = true) ->
  let r := showDrilldown type name s in
  let c := {| ch_type := "bar"; ch_labels := map (field "year") yearly;
              ch_datasets :=
                [ {| ds_label := VStr "Funding (€)";
                     ds_data := map (field "funding") yearly |};
                  {| ds_label := VStr "Projects";
                     ds_data := map (field "projects") yearly |} ] |} in
  (fst r = Ret tt /\
   display (snd r) !! "drilldownModal" = Some "flex" /\
   drilldownChart (snd r) = Some c /\
   canvas (snd r) !! "drilldownChart" = Some c /\
   textContent (snd r) !! "modalTotalProjects"
   = Some (Intl_NumberFormat "de-DE" nf_default (field "total_projects" (VObj entry))) /\
   exists t, formatCurrency (num tf) true = Ret t /\
             textContent (snd r) !! "modalTotalFunding" = Some t) /\
  (exists title,
     textContent (snd r) !! "modalTitle" = Some title /\
     (type = "keyword" -> title = dquote ++ name ++ dquote) /\
     (type = "state" -> title = name) /\
     (type = "city" ->
        title = name ++ match field "state" (VObj entry) with
                        | VStr st => if String.eqb st EmptyString then EmptyString
                                     else " (" ++ st ++ ")"
                        | _ => EmptyString
                        end) /\
     (type = "recipient" ->
        title = if (50 <? String.length name)%nat
                then substring 0 47 name ++ "..." else name)) /\
  (forall other s',
     trend_source other = None ->
     showDrilldown other name s'
     = (Ret tt,
        set_console (console s' ++ [ConsoleError ("Unknown drilldown type: " ++ other)])%list
          s')).
Proof.
  intros Hsrc Hg Hentry Htf Hpos Hbound Hyearly Hobj Hstate r c.
  pose proof (trend_hit trends kind name entry Hentry) as Hhit.
  assert (Hopen : forall title subtitle,
            let r' := presentDrilldown (VObj entry) title subtitle s in
            (fst r' = Ret tt /\
             display (snd r') !! "drilldownModal" = Some "flex" /\
             drilldownChart (snd r') = Some c /\
             canvas (snd r') !! "drilldownChart" = Some c /\
             textContent (snd r') !! "modalTotalProjects"
             = Some (Intl_NumberFormat "de-DE" nf_default
                       (field "total_projects" (VObj entry))) /\
             exists t, formatCurrency (num tf) true = Ret t /\
                       textContent (snd r') !! "modalTotalFunding" = Some t) /\
            textContent (snd r') !! "modalTitle" = Some title).
  { intros title subtitle r'.
    destruct (presentDrilldown_opens entry title subtitle tf yearly s
                Htf Hpos Hbound Hyearly Hobj) as (H1 & H2 & H3 & H4 & H5 & H6 & H7 & H8).
    repeat split; assumption. }
  split; [|split].
  - subst r.
    apply trend_source_cases in Hsrc
      as [(-> & -> & ->)|[(-> & -> & ->)|[(-> & -> & ->)|(-> & -> & ->)]]];
      unfold showDrilldown, drilldownSelect; cbn [String.eqb Ascii.eqb Bool.eqb];
      rewrite !run_bind, run_document_of, Hg, run_bind, run_lift, Hhit.
    + apply Hopen.
    + apply Hopen.
    + rewrite run_bind, run_lift, (city_suffix entry (Hstate eq_refl)). apply Hopen.
    + apply Hopen.
  - subst r.
    apply trend_source_cases in Hsrc
      as [(-> & -> & ->)|[(-> & -> & ->)|[(-> & -> & ->)|(-> & -> & ->)]]];
      unfold showDrilldown, drilldownSelect; cbn [String.eqb Ascii.eqb Bool.eqb];
      rewrite !run_bind, run_document_of, Hg, run_bind, run_lift, Hhit.
    + eexists. split; [apply Hopen|]. repeat split; by intros [=].
    + eexists. split; [apply Hopen|]. repeat split; by intros [=].
    + rewrite run_bind, run_lift, (city_suffix entry (Hstate eq_refl)).
      eexists. split; [apply Hopen|]. repeat split; by intros [=].
    + eexists. split; [apply Hopen|]. repeat split; by intros [=].
  - intros other s' Hother. unfold showDrilldown, drilldownSelect.
    unfold trend_source in Hother.
    destruct (String.eqb other "keyword"); [discriminate|].
    destruct (String.eqb other "state"); [discriminate|].
    destruct (String.eqb other "city"); [discriminate|].
    destruct (String.eqb other "recipient"); [discriminate|]. reflexivity.
Qed.

(** ** Clicks that open the drill-down *)



(** ** The ranges of the temporal chart *)

Lemma filter_narrows {A} (p q : A -> bool) (l : list A) :
  (forall x, p x = true -> q x = true) ->
  List.filter p l = List.filter p (List.filter q l).
Proof.
  intros H. induction l as [|x l IH]; [done|]. cbn [List.filter].
  destruct (q x) eqn:Hq; cbn [List.filter].
  - destruct (p x); by rewrite <- IH.
  - destruct (p x) eqn:Hp; [|done]. rewrite (H x Hp) in Hq. discriminate.
Qed.

Lemma filter_sublist {A} (p : A -> bool) (l : list A) : sublist (List.filter p l) l.
Proof.
  induction l as [|x l IH]; [done|]. cbn [List.filter].
  destruct (p x); by constructor.
Qed.

Lemma filter_all {A} (p : A -> bool) (l : list A) :
  Forall (fun x => p x = true) l -> List.filter p l = l.
Proof.
  induction 1 as [|x l Hx _ IH]; [done|]. cbn [List.filter]. by rewrite Hx, IH.
Qed.

(** X18.  The ranges of the temporal chart are nested.  Over entries with
    a numeric year, the chart of the range [decade] shows a part of what
    the range [recent] shows, and that a part of what the range [all]
    shows, always in the order of the document: the entries from 2015 on
    are those of the entries from 2005 on that are from 2015 on.  A range
    the script does not know is drawn as [all]. *)
Theorem ranges_nest (s : state) (temporal : list (string * value))
    (l : list value) :
  get (globalData s) "temporal" = Ret (VObj temporal) ->
  lookup_prop "yearly_totals" temporal = Some (VArr l) ->
  Forall (fun d => dated d = true) l ->
  exists recent decade,
    let drawn data :=
      (Ret tt, with_chart "temporal" "temporalChart" (temporalChartOf data)
                 (without_chart "temporal" "temporalChart" s)) in
    createTemporalChart "recent" s = drawn recent /\
    createTemporalChart "decade" s = drawn decade /\
    decade = List.filter (year_from 2015) recent /\
    sublist decade recent /\ sublist recent l /\
    (Forall (fun d => year_from 2005 d = true) l -> recent = l) /\
    forall range,
      String.eqb range "recent" = false -> String.eqb range "decade" = false ->
      String.eqb range "forecast" = false ->
      createTemporalChart range s = drawn l.
Proof.
  intros Hdoc Hl Hdated.
  assert (Hobj : Forall (fun d => is_object d = true) l)
    by (eapply Forall_impl; [exact Hdated|apply dated_object]).
  exists (List.filter (year_from 2005) l), (List.filter (year_from 2015) l).
  cbn zeta. repeat match goal with |- _ /\ _ => split end.
  - apply (createTemporalChart_draws s temporal "recent" l _ Hdoc Hl); [done| |].
    + by apply temporalData_recent.
    + by apply Forall_filter_keep.
  - apply (createTemporalChart_draws s temporal "decade" l _ Hdoc Hl); [done| |].
    + by apply temporalData_decade.
    + by apply Forall_filter_keep.
  - apply filter_narrows. intros d. unfold year_from.
    destruct (year_of d) as [y|]; [|done]. intros H.
    apply Qle_bool_iff in H. apply Qle_bool_iff.
    eapply Qle_trans; [|exact H]. by vm_compute.
  - rewrite (filter_narrows (year_from 2015) (year_from 2005) l).
    + apply filter_sublist.
    + intros d. unfold year_from. destruct (year_of d) as [y|]; [|done]. intros H.
      apply Qle_bool_iff in H. apply Qle_bool_iff.
      eapply Qle_trans; [|exact H]. by vm_compute.
  - apply filter_sublist.
  - apply filter_all.
  - intros range Hr Hd Hf.
    apply (createTemporalChart_draws s temporal range l _ Hdoc Hl); [done| |done].
    unfold temporalData. by rewrite Hr, Hd.
Qed.

(** ** The documents behind the cards and the drill-down *)

(** X19.  The documents the rest of the page needs.  The overview cards
    and the date of the last update are computed from the summary document
    alone; the drill-down of a keyword reads the keyword trends and
    nothing else of [globalData], the drill-down of any other type the
    entity trends; the handlers of the bars read the entity trends, and
    closing the modal reads no document at all.  None of them assigns
    [globalData]. *)
Theorem documents_behind_page :
  reads_only ["summary"] updateOverviewCards /\
  reads_only ["summary"] updateLastUpdate /\
  (forall name, reads_only ["keywordTrends"] (showDrilldown "keyword" name)) /\
  (forall type name,
     String.eqb type "keyword" = false ->
     reads_only ["entityTrends"] (showDrilldown type name)) /\
  (forall mode data elements,
     reads_only ["entityTrends"] (geoChart_onClick mode data elements)) /\
  (forall data elements, reads_only ["entityTrends"] (cityChart_onClick data elements)) /\
  reads_only [] closeModal.
Proof.
  repeat match goal with |- _ /\ _ => split end.
  - unfold updateOverviewCards. reads.
  - unfold updateLastUpdate. reads.
  - intros name. unfold showDrilldown, drilldownSelect, presentDrilldown.
    cbn [String.eqb Ascii.eqb Bool.eqb]. reads.
  - intros type name Htype. unfold showDrilldown, drilldownSelect, presentDrilldown.
    rewrite Htype. reads.
  - intros mode data elements.
    unfold geoChart_onClick, barClick, showStateTrends, showDrilldown, drilldownSelect,
      presentDrilldown.
    cbn [String.eqb Ascii.eqb Bool.eqb]. reads.
  - intros data elements.
    unfold cityChart_onClick, barClick, showCityTrends, showDrilldown, drilldownSelect,
      presentDrilldown.
    cbn [String.eqb Ascii.eqb Bool.eqb]. reads.
  - unfold closeModal. reads.
Qed.

(** ** The length of the labels *)

Lemma truncateLabel_fits (label v : value) (maxLength : nat) :
  truncateLabel label maxLength = Ret v -> fits (maxLength + 3) v.
Proof.
  unfold truncateLabel, fits. intros H t ->.
  destruct (truthy label) eqn:Ht; cbn [negb] in H.
  2:{ injection H as <-. cbn. lia. }
  destruct label as [| |b|n|s|l|o|]; try discriminate Ht;
    cbn [get String.eqb Ascii.eqb Bool.eqb mbind outcome_bind] in H;
    try (match type of H with
         | context [gt_num ?a ?c] => destruct (gt_num a c) as [[|]|e|]
         end; cbn [mbind outcome_bind] in H; discriminate H);
    try (by cbn in H).
  rewrite gt_length in H. cbn [mbind outcome_bind] in H.
  case_bool_decide as Hlen; injection H as <-.
  - rewrite string_app_length, substring_length by lia. cbn. lia.
  - lia.
Qed.

(** The text of a value that is not a string is short. *)
Lemma to_string_short (v : value) (t : string) :
  to_string v = Ret t -> is_string v = false -> (String.length t <= 22)%nat.
Proof.
  intros H Hv. destruct v as [| |b|[|q]|x|l|o|m]; try discriminate Hv;
    try discriminate H; cbn [to_string] in H.
  - injection H as <-. cbn. lia.
  - injection H as <-. cbn. lia.
  - injection H as <-. destruct b; cbn; lia.
  - injection H as <-. cbn. lia.
  - destruct (whole q) eqn:Hw; [|discriminate H].
    destruct (Qlt_bool (Qabs q) (pow2 53)) eqn:Hb; [|discriminate H].
    injection H as <-. apply (pretty_Z_length 21).
    apply Qlt_bool_lt in Hb. unfold whole in Hw. apply Qeq_bool_iff in Hw.
    rewrite <- Hw in Hb. rewrite Zlt_Qlt.
    eapply Qlt_trans; [exact Hb|]. by vm_compute.
Qed.

Lemma label_text_fits (label v : value) (t : string) (maxLength : nat) :
  truncateLabel label maxLength = Ret v -> to_string v = Ret t ->
  (String.length t <= Nat.max (maxLength + 3) 22)%nat.
Proof.
  intros Hv Ht. destruct (is_string v) eqn:E.
  - destruct v; try discriminate E. injection Ht as <-.
    pose proof (truncateLabel_fits _ _ _ Hv _ eq_refl). lia.
  - pose proof (to_string_short v t Ht E). lia.
Qed.

Lemma recipientRows_Forall (P : table_row -> Prop) (trends : value) (data : list value)
    (index : nat) (rows : list table_row) :
  (forall i r row, recipientRow trends i r = Ret row -> P row) ->
  recipientRows trends index data = Ret rows -> Forall P rows.
Proof.
  intros HP. revert index rows.
  induction data as [|r data IH]; intros index rows H; cbn [recipientRows] in H.
  - injection H as <-. constructor.
  - apply bind_Ret_inv in H as (row & Hrow & H).
    apply bind_Ret_inv in H as (rest & Hrest & H). injection H as <-.
    constructor; [by apply (HP index r)|by apply (IH (S index))].
Qed.

Ltac cut_labels :=
  apply draws_config;
  let d := fresh "d" in
  let c := fresh "c" in
  let H := fresh "H" in
  intros d c H;
  apply bind_Ret_inv in H as (? & _ & H);
  apply bind_Ret_inv in H as (? & _ & H);
  let labels := fresh "labels" in
  let Hlabels := fresh "Hlabels" in
  apply bind_Ret_inv in H as (labels & Hlabels & H);
  apply bind_Ret_inv in H as (? & _ & H);
  injection H as <-; cbn [ch_labels];
  eapply mapO_Forall; [|exact Hlabels];
  let x := fresh "x" in
  let y := fresh "y" in
  let Hy := fresh "Hy" in
  intros x y Hy; cbn beta in Hy; unbind Hy;
  by apply truncateLabel_fits in Hy.

(** X20.  Long names are cut before they reach a chart or the table:
    whenever the function returns, every label of the recipient chart and
    of the chart of the funding profiles that is a string has at most 33
    characters, of the chart of the funding types at most 28, of the chart
    of the topics at most 43, and every name written into a cell of the
    recipients table at most 53 (the limit of the function plus the three
    dots). *)
Theorem labels_fit :
  draws "recipient" (fun c => Forall (fits 33) (ch_labels c)) createRecipientChart /\
  draws "foerderprofil" (fun c => Forall (fits 33) (ch_labels c))
    createFoerderprofilChart /\
  draws "fundingType" (fun c => Forall (fits 28) (ch_labels c)) createFundingTypeChart /\
  draws "topic" (fun c => Forall (fits 43) (ch_labels c)) createTopicChart /\
  (forall sortBy s,
     fst (populateRecipientsTable sortBy s) = Ret tt ->
     exists rows,
       innerHTML (snd (populateRecipientsTable sortBy s)) !! "recipientTable.tbody"
       = Some (TableRows rows) /\
       Forall (fun row => (String.length (row_name row) <= 53)%nat) rows).
Proof.
  repeat match goal with |- _ /\ _ => split end.
  - unfold createRecipientChart. cut_labels.
  - unfold createFoerderprofilChart. cut_labels.
  - unfold createFundingTypeChart. cut_labels.
  - unfold createTopicChart. cut_labels.
  - assert (Hall : forall trends data index rs,
              recipientRows trends index data = Ret rs ->
              Forall (fun row => (String.length (row_name row) <= 53)%nat) rs).
    { intros trends data index rs. apply recipientRows_Forall.
      intros i r row Hrow. unfold recipientRow in Hrow.
      apply bind_Ret_inv in Hrow as (name & _ & Hrow).
      apply bind_Ret_inv in Hrow as (known & _ & Hrow).
      apply bind_Ret_inv in Hrow as (hit & _ & Hrow).
      apply bind_Ret_inv in Hrow as (click & _ & Hrow).
      apply bind_Ret_inv in Hrow as (title & _ & Hrow).
      apply bind_Ret_inv in Hrow as (label & Hlabel & Hrow).
      apply bind_Ret_inv in Hrow as (cell & Hcell & Hrow).
      repeat (apply bind_Ret_inv in Hrow as (? & _ & Hrow)).
      injection Hrow as <-. cbn [row_name].
      by apply (label_text_fits name label cell 50). }
    intros sortBy s. unfold populateRecipientsTable.
    rewrite run_bind, run_document_of.
    destruct (get (globalData s) "recipients") as [r|e|]; [|discriminate..].
    rewrite run_bind, run_lift.
    destruct (mbind _ (get r _)) as [data|e|]; [|discriminate..].
    rewrite run_bind, run_document_of.
    destruct (get (globalData s) "entityTrends") as [t|e|]; [|discriminate..].
    rewrite run_bind, run_lift.
    destruct (recipientRows t 0 data) as [rows|e|] eqn:Hrows; [|discriminate..].
    intros _. exists rows. split; [cbn; apply lookup_insert_eq|].
    by apply (Hall t data 0%nat).
Qed.

(** ** Documents that lack what a function reads *)

Ltac throws :=
  let s := fresh "s" in
  let d := fresh "d" in
  let Hdoc := fresh "Hdoc" in
  let Hnone := fresh "Hnone" in
  intros s d Hdoc Hnone;
  rewrite run_bind, run_document_of, Hdoc, run_bind, run_lift;
  cbn [get]; rewrite Hnone; reflexivity.

(** X21.  Only the chart of the countries, the monthly chart and the
    decade chart are guarded against a missing list.  When the document of
    any other chart, of the keyword cloud or of the recipients table is an
    object that lacks the list it is drawn from, the function throws a
    [TypeError] and leaves the page as it was: no chart is stored and
    nothing is written.  [createTemporalChart] has destroyed the chart
    on its canvas by then, so the canvas is left empty.  (Within
    [loadData] the exception ends [initializeDashboard] and the error panel
    is shown.) *)
Theorem missing_lists_throw :
  throws_without "ministry" "ministries" createMinistryChart /\
  (forall mode, throws_without "geographic" "states" (createGeoChart mode)) /\
  throws_without "geographic" "top_cities" createCityChart /\
  throws_without "recipients" "top_by_funding" createRecipientChart /\
  throws_without "fundingTypes" "funding_types" createFundingTypeChart /\
  throws_without "fundingTypes" "funding_profiles" createFoerderprofilChart /\
  throws_without "duration" "distribution" createDurationChart /\
  throws_without "topics" "classifications" createTopicChart /\
  throws_without "jointProjects" "summary" createJointChart /\
  throws_without "projekttraeger" "projekttraeger" createProjekttraegerChart /\
  throws_without "topics" "keywords" createKeywordsCloud /\
  throws_without "recipients" "top_by_funding" (populateRecipientsTable "funding") /\
  (forall range s d,
     String.eqb range "forecast" = false ->
     get (globalData s) "temporal" = Ret (VObj d) ->
     lookup_prop "yearly_totals" d = None ->
     createTemporalChart range s
     = (TypeError, without_chart "temporal" "temporalChart" s)).
Proof.
  repeat match goal with |- _ /\ _ => split end.
  - unfold createMinistryChart. throws.
  - intros mode. unfold createGeoChart. throws.
  - unfold createCityChart. throws.
  - unfold createRecipientChart. throws.
  - unfold createFundingTypeChart. throws.
  - unfold createFoerderprofilChart. throws.
  - unfold createDurationChart. throws.
  - unfold createTopicChart. throws.
  - unfold createJointChart. throws.
  - unfold createProjekttraegerChart. throws.
  - unfold createKeywordsCloud. throws.
  - unfold populateRecipientsTable. cbn [String.eqb Ascii.eqb Bool.eqb]. throws.
  - intros range s d Hrange Hdoc Hnone. unfold createTemporalChart.
    rewrite run_bind, run_destroyChart, Hrange.
    rewrite run_bind, run_document_of, globalData_without_chart, Hdoc.
    rewrite run_bind, run_lift. cbn [get]. rewrite Hnone.
    cbn [from_option id mbind outcome_bind]. unfold temporalData.
    destruct (String.eqb range "recent"); [reflexivity|].
    destruct (String.eqb range "decade"); reflexivity.
Qed.

(** X22.  A drill-down entry without yearly figures.  When the entry for
    the name has its totals but no [yearly] list, [showDrilldown] throws a
    [TypeError] only after it has filled in the texts and shown the modal:
    the modal is open, the chart of the drill-down shown before is
    destroyed and its canvas empty, and [drilldownChart] still holds that
    destroyed chart. *)
Theorem drilldown_without_yearly (s : state) (type doc kind name : string)
    (trends : value) (entry : list (string * value)) (tf : Q) :
  trend_source type = Some (doc, kind) ->
  get (globalData s) doc = Ret trends ->
  trend_of trends kind name = VObj entry ->
  lookup_prop "total_funding" entry = Some (num tf) ->
  (0 <= tf)%Q -> (tf < e10 21)%Q ->
  lookup_prop "yearly" entry = None ->
  lookup_prop "state" entry = None ->
  let r := showDrilldown type name s in
  fst r = TypeError /\
  display (snd r) !! "drilldownModal" = Some "flex" /\
  drilldownChart (snd r) = drilldownChart s /\
  (drilldownChart s <> None -> canvas (snd r) !! "drilldownChart" = None) /\
  (drilldownChart s = None -> canvas (snd r) = canvas s) /\
  is_Some (textContent (snd r) !! "modalTitle").
Proof.
  intros Hsrc Hg Hentry Htf Hpos Hbound Hyearly Hstate r.
  pose proof (trend_hit trends kind name entry Hentry) as Hhit.
  destruct (formatCurrency_total tf Hpos Hbound) as [t Ht].
  assert (Hpresent : forall title subtitle,
            let r' := presentDrilldown (VObj entry) title subtitle s in
            fst r' = TypeError /\
            display (snd r') !! "drilldownModal" = Some "flex" /\
            drilldownChart (snd r') = drilldownChart s /\
            (drilldownChart s <> None -> canvas (snd r') !! "drilldownChart" = None) /\
            (drilldownChart s = None -> canvas (snd r') = canvas s) /\
            is_Some (textContent (snd r') !! "modalTitle")).
  { intros title subtitle r'. subst r'.
    unfold presentDrilldown, setTextContent, setDisplay.
    rewrite run_bind, run_modify, run_bind, run_modify, run_bind, run_lift.
    cbn [get mbind outcome_bind formatNumber].
    rewrite run_bind, run_modify, run_bind, run_lift. cbn [get]. rewrite Htf.
    cbn [from_option id mbind outcome_bind]. rewrite Ht.
    rewrite run_bind, run_modify, run_bind, run_modify, run_bind, run_modify.
    rewrite run_bind, run_lift. unfold drilldownConfig. cbn [get]. rewrite Hyearly.
    cbn [from_option id mbind outcome_bind map_field as_array fst snd].
    cbn [display drilldownChart canvas textContent set_display set_drilldownChart
           set_canvas set_textContent].
    destruct (drilldownChart s) eqn:Hc; cbn;
      repeat match goal with |- _ /\ _ => split end;
      repeat first [rewrite lookup_insert_eq|rewrite lookup_insert_ne by done
                   |rewrite lookup_delete_eq];
      eauto; done. }
  subst r.
  apply trend_source_cases in Hsrc
    as [(-> & -> & ->)|[(-> & -> & ->)|[(-> & -> & ->)|(-> & -> & ->)]]];
    unfold showDrilldown, drilldownSelect; cbn [String.eqb Ascii.eqb Bool.eqb];
    rewrite !run_bind, run_document_of, Hg, run_bind, run_lift, Hhit;
    try apply Hpresent.
  rewrite run_bind, run_lift. cbn [get_opt get]. rewrite Hstate. apply Hpresent.
Qed.

(** X23.  A summary that lacks a figure.  Without [total_funding] in the
    summary, [updateOverviewCards] throws a [TypeError] before it has
    written any card.  Without [highlights] it throws only at the last
    card: the total funding, the number of projects and the number of
    recipients are already written, the average is left as it was. *)
Theorem overview_cards_missing :
  throws_without "summary" "total_funding" updateOverviewCards /\
  (forall s summary tf ur,
     get (globalData s) "summary" = Ret (VObj summary) ->
     lookup_prop "total_funding" summary = Some (num tf) ->
     (0 <= tf)%Q -> (tf < e10 21)%Q ->
     lookup_prop "unique_recipients" summary = Some (num ur) ->
     lookup_prop "highlights" summary = None ->
     let r := updateOverviewCards s in
     fst r = TypeError /\
     (exists t, formatCurrency (num tf) true = Ret t /\
                textContent (snd r) !! "totalFunding" = Some t) /\
     textContent (snd r) !! "totalProjects"
     = Some (Intl_NumberFormat "de-DE" nf_default (field "total_projects" (VObj summary))) /\
     textContent (snd r) !! "uniqueRecipients"
     = Some (Intl_NumberFormat "de-DE" nf_default (num (binary64 (ur - 1))) ++ "+") /\
     textContent (snd r) !! "avgFunding" = textContent s !! "avgFunding").
Proof.
  split.
  - intros s d Hdoc Hnone. unfold updateOverviewCards.
    rewrite run_bind, run_document_of, Hdoc, run_bind, run_lift.
    cbn [get]. rewrite Hnone. reflexivity.
  - intros s summary tf ur Hdoc Htf Hpos Hbound Hur Hnone r. subst r.
    destruct (formatCurrency_total tf Hpos Hbound) as [t Ht].
    unfold updateOverviewCards, setTextContent.
    rewrite run_bind, run_document_of, Hdoc, run_bind, run_lift.
    cbn [get]. rewrite Htf. cbn [from_option id mbind outcome_bind]. rewrite Ht.
    rewrite run_bind, run_modify, run_bind, run_lift.
    cbn [mbind outcome_bind formatNumber].
    rewrite run_bind, run_modify, run_bind, run_lift. rewrite Hur.
    cbn [from_option id mbind outcome_bind sub_num num to_number formatNumber].
    rewrite run_bind, run_modify, run_bind, run_lift. rewrite Hnone.
    cbn [from_option id]. change (inherited "highlights") with VUndef.
    cbn [get]. unfold TypeError.
    cbn [mbind outcome_bind fst snd textContent set_textContent].
    repeat match goal with |- _ /\ _ => split end;
      repeat first [rewrite lookup_insert_eq|rewrite lookup_insert_ne by done];
      eauto.
Qed.

End Dashboard.

(** ** Conservation in the aggregation engine *)



Section Conservation.
Context {K : Type} `{EqDecision K}.




End Conservation.



(** ** The script on the sample documents *)


Lemma uniqueRecipients_minimum_witness :
  get (globalData Sample.loaded) "summary" = Ret (VObj Sample.summary_props) /\
  lookup_prop "total_funding" Sample.summary_props = Some (num 125000000000) /\
  lookup_prop "unique_recipients" Sample.summary_props = Some (num 42001) /\
  exists t,
    formatNumber plain_NumberFormat (num (binary64 (42001 - 1))) false = Ret t /\
    textContent (snd (updateOverviewCards plain_NumberFormat Sample.loaded))
      !! "uniqueRecipients" = Some (t ++ "+").
Proof.
  split; [reflexivity|]. split; [reflexivity|]. split; [reflexivity|].
  apply (uniqueRecipients_minimum plain_NumberFormat Sample.loaded Sample.summary_props
           125000000000 42001).
  - reflexivity.
  - reflexivity.
  - vm_compute. discriminate.
  - vm_compute. reflexivity.
  - reflexivity.
Defined.


Lemma temporal_ranges_witness :
  get (globalData Sample.loaded) "temporal" = Ret (VObj Sample.temporal_props) /\
  createTemporalChart "decade" Sample.loaded
  = (Ret tt,
     with_chart "temporal" "temporalChart"
       (temporalChartOf
          [ Sample.year_entry 2016 3000 30; Sample.year_entry 2024 4000 40;
            Sample.year_entry 2025 5000 50 ])
       (without_chart "temporal" "temporalChart" Sample.loaded)).
Proof.
  split; [reflexivity|].
  refine (proj1 (proj2 (proj2 (temporal_ranges Sample.loaded Sample.temporal_props
                                 _ eq_refl eq_refl _)))).
  repeat constructor.
Defined.


Lemma fields_by_name_witness :
  Exists (fun d => field "upper_bound" d <> VUndef)
    [ Sample.forecast_entry 2026 5200 4800 5600 700;
      Sample.forecast_entry 2027 5400 4700 6100 0 ] /\
  forecastConfig
    (VObj [ ("current_year", int 2025);
            ("forecast",
             VArr (map (rename_field "upper_bound" "upper")
                       [ Sample.forecast_entry 2026 5200 4800 5600 700;
                         Sample.forecast_entry 2027 5400 4700 6100 0 ])) ])
    Sample.temporal
  <> forecastConfig Sample.forecast Sample.temporal.
Proof.
  assert (H : Exists (fun d => field "upper_bound" d <> VUndef)
                [ Sample.forecast_entry 2026 5200 4800 5600 700;
                  Sample.forecast_entry 2027 5400 4700 6100 0 ])
    by (apply Exists_cons_hd; discriminate).
  split; [exact H|].
  refine (proj1 (proj2 fields_by_name) Sample.forecast_props
            [ ("current_year", int 2025);
              ("forecast",
               VArr (map (rename_field "upper_bound" "upper")
                         [ Sample.forecast_entry 2026 5200 4800 5600 700;
                           Sample.forecast_entry 2027 5400 4700 6100 0 ])) ]
            Sample.temporal_props
            _ _ 2025%Q "upper_bound" "upper" (or_introl eq_refl) _ eq_refl _
            eq_refl eq_refl eq_refl eq_refl _ H).
  - discriminate.
  - repeat constructor.
  - repeat constructor.
Defined.

(** Renaming [approved_funding] in a forecast whose entries have none
    approved leaves the forecast chart as it was. *)
Lemma renaming_unapproved_funding_unseen :
  Sample.forecast_renamed_props
  = [ ("current_year", int 2025);
      ("forecast",
       VArr (map (rename_field "approved_funding" "approved")
                 [ Sample.forecast_entry 2026 5200 4800 5600 0;
                   Sample.forecast_entry 2027 5400 4700 6100 0 ])) ] /\
  Forall (fun d => field "approved_funding" d = int 0)
    [ Sample.forecast_entry 2026 5200 4800 5600 0;
      Sample.forecast_entry 2027 5400 4700 6100 0 ] /\
  forecastConfig (VObj Sample.forecast_renamed_props) Sample.temporal
  = forecastConfig Sample.forecast_unapproved Sample.temporal.
Proof.
  split; [reflexivity|]. split; [by repeat constructor|]. by vm_compute.
Qed.

Lemma documents_per_chart_witness :
  Exists (fun f => Sample.server_without "data/funding_forecast.json" ("data/" ++ f) = None)
    files /\
  loadData plain_NumberFormat plain_Date
    (Sample.page (Sample.server_without "data/funding_forecast.json"))
  = (Ret tt, load_failed (Sample.page (Sample.server_without "data/funding_forecast.json"))).
Proof.
  assert (H : Exists (fun f => Sample.server_without "data/funding_forecast.json"
                                 ("data/" ++ f) = None) files).
  { unfold files. do 12 apply Exists_cons_tl. by apply Exists_cons_hd. }
  split; [exact H|].
  exact (proj1 (proj1 (proj2 (proj2 (proj2 (documents_per_chart plain_NumberFormat
                                               plain_Date))))
                  (Sample.page (Sample.server_without "data/funding_forecast.json")) H)).
Defined.

(** The forecast chart needs two documents, and one failed fetch keeps
    every chart from being drawn, those of the documents that did load
    included. *)
Lemma forecast_reads_two_and_one_failure_stops_all :
  (~ exists k, reads_only [k] createForecastChart) /\
  (let s := Sample.page (Sample.server_without "data/funding_forecast.json") in
   network s "data/ministry_funding.json" = Some Sample.ministry /\
   charts (snd (loadData plain_NumberFormat plain_Date s)) = ∅ /\
   is_Some (charts (snd (loadData plain_NumberFormat plain_Date
                           (Sample.page Sample.server))) !! "ministry")).
Proof.
  split.
  - intros [k Hk]. destruct (String.eqb k "temporal") eqn:E.
    + apply String.eqb_eq in E as ->.
      destruct (Hk Sample.loaded
                  (VObj (("forecast", Sample.forecast_unapproved)
                           :: [("temporal", Sample.temporal)]))) as [Hrun _].
      { intros k Hin. apply list_elem_of_singleton in Hin as ->. reflexivity. }
      apply (f_equal (fun r => charts (snd r) !! "temporal")) in Hrun.
      vm_compute in Hrun. discriminate Hrun.
    + destruct (Hk Sample.loaded
                  (VObj (("temporal", VObj [("yearly_totals", VArr [])])
                           :: match globalData Sample.loaded with
                              | VObj props => props
                              | _ => []
                              end))) as [Hrun _].
      { intros k' Hin. apply list_elem_of_singleton in Hin as ->.
        cbn [get lookup_prop]. by rewrite E. }
      apply (f_equal (fun r => charts (snd r) !! "temporal")) in Hrun.
      vm_compute in Hrun. discriminate Hrun.
  - split; [reflexivity|]. split; [by vm_compute|]. vm_compute. eauto.
Qed.

Lemma drilldown_by_key_witness :
  trend_source "state" = Some ("entityTrends", "states") /\
  keyed Sample.entityTrends "states" = true /\
  entry_of (globalData Sample.loaded) "entityTrends" "states" "Atlantis" = None /\
  is_member "Atlantis" prototype_members = false /\
  showDrilldown plain_NumberFormat "state" "Atlantis" Sample.loaded
  = (Ret tt,
     set_console [ConsoleError "No trend data for state: Atlantis"] Sample.loaded).
Proof.
  split; [reflexivity|]. split; [reflexivity|]. split; [reflexivity|].
  split; [reflexivity|].
  exact (proj1 (proj2 (proj2 (proj2 (proj2 (proj2 (drilldown_by_key plain_NumberFormat
                                                      plain_argument))))))
           "state" "entityTrends" "states" "Atlantis" Sample.entityTrends
           Sample.loaded eq_refl eq_refl eq_refl eq_refl eq_refl).
Defined.

(** C8.  A name without an entry that is the name of a member every
    object inherits.  The keyword trends have no entry for [constructor],
    yet the cloud gives a keyword of that name a handler, and the click
    calls [showDrilldown] with it; [showDrilldown] then neither logs an
    error nor returns: the lookup finds the inherited member, the title is
    written, and the total funding throws a [TypeError].  The same happens
    for a state of that name.  The modal stays hidden in both. *)
Theorem drilldown_inherited_name_throws :
  let keyword := VObj [ ("word", VStr "constructor"); ("count", int 30) ] in
  let tag := {| kw_class := "keyword-medium"; kw_onclick := Some "constructor";
                kw_title := "30 word matches - Click to see related projects";
                kw_word := "constructor" |} in
  let r := keywordTag_click plain_NumberFormat plain_argument tag Sample.loaded in
  let r' := showDrilldown plain_NumberFormat "state" "constructor" Sample.loaded in
  console Sample.loaded = [] /\
  (entry_of (globalData Sample.loaded) "keywordTrends" "keywords" "constructor" = None /\
   is_key (globalData Sample.loaded) "keyword" "constructor" = false /\
   keywordTag Sample.keywordTrends (Fin 120) keyword = Ret tag /\
   r = showDrilldown plain_NumberFormat "keyword" "constructor" Sample.loaded /\
   fst r = TypeError /\
   textContent (snd r) !! "modalTitle" = Some (dquote ++ "constructor" ++ dquote) /\
   console (snd r) = [] /\
   modal (snd r) = modal Sample.loaded) /\
  (entry_of (globalData Sample.loaded) "entityTrends" "states" "constructor" = None /\
   is_key (globalData Sample.loaded) "state" "constructor" = false /\
   fst r' = TypeError /\
   textContent (snd r') !! "modalTitle" = Some "constructor" /\
   console (snd r') = [] /\
   modal (snd r') = modal Sample.loaded).
Proof. by vm_compute. Qed.


Example loadData_draws_charts :
  let r := loadData plain_NumberFormat plain_Date (Sample.page Sample.server) in
  fst r = Ret tt /\
  textContent (snd r) !! "uniqueRecipients" = Some "42000+" /\
  textContent (snd r) !! "totalFunding" = Some "€125.0B" /\
  size (charts (snd r)) = 12%nat /\
  charts (snd r) !! "international" = None /\
  charts (snd r) !! "monthly" = None.
Proof. by vm_compute. Qed.

Example formatCurrency_examples :
  formatCurrency plain_NumberFormat (num ((15 # 10) * e10 12)) true = Ret "€1.5T" /\
  formatCurrency plain_NumberFormat (int 125000000000) true = Ret "€125.0B" /\
  formatCurrency plain_NumberFormat (int 1450000) true = Ret "€1.4M" /\
  formatCurrency plain_NumberFormat (int 1250000) true = Ret "€1.3M" /\
  formatCurrency plain_NumberFormat (int 999999) true = Ret "€1000K" /\
  formatCurrency plain_NumberFormat (int 1499) true = Ret "€1K" /\
  formatCurrency plain_NumberFormat (num (9995 # 10)) true = Ret "€1000" /\
  formatCurrency plain_NumberFormat (int (-3)) true = Ret "€-3" /\
  formatCurrency plain_NumberFormat VUndef true = TypeError.
Proof. by vm_compute. Qed.

(** The quotient [1.15] is not a binary64 number: the nearest one is just
    below it, so one decimal shows [1.1]; whole numbers are their own
    rounding. *)
Example binary64_examples :
  (binary64 (1150000000 / e10 9) < 115 # 100)%Q /\
  (binary64 (1250000 / e10 6) == 125 # 100)%Q /\
  (binary64 (42001 - 1) == 42000)%Q /\
  (binary64 (7 # 10) < 7 # 10)%Q /\
  (4 # 10 < binary64 (4 # 10))%Q.
Proof. by vm_compute. Qed.

Example showDrilldown_opens :
  let r := showDrilldown plain_NumberFormat "state" "Bayern" Sample.loaded in
  fst r = Ret tt /\
  display (snd r) !! "drilldownModal" = Some "flex" /\
  textContent (snd r) !! "modalTotalFunding" = Some "€20.0B" /\
  is_Some (drilldownChart (snd r)).
Proof. vm_compute. eauto. Qed.

Example recipient_row_opens :
  let s := snd (loadData plain_NumberFormat plain_Date (Sample.page Sample.server)) in
  let row := {| row_onclick := Some "Fraunhofer";
                row_title := "Click to see funding trends";
                row_rank := 1; row_name := "Fraunhofer";
                row_funding := "9000000000 €"; row_projects := "12000";
                row_average := "750000 €" |} in
  innerHTML s !! "recipientTable.tbody" = Some (TableRows [row]) /\
  display (snd (recipientRow_click plain_NumberFormat plain_argument row s))
    !! "drilldownModal" = Some "flex".
Proof. by vm_compute. Qed.

Example anonymized_rows_kept_apart :
  map fst (Aggregation.grouping_pass Aggregation.by_recipient Aggregation.sample)
  = [inr 0%nat; inr 1%nat; inl "Fraunhofer"].
Proof. reflexivity. Qed.

Example sample_passes_conserve :
  (Aggregation.sum_funding
     (Aggregation.grouping_pass Aggregation.by_state Aggregation.sample)
   == Aggregation.grand_total Aggregation.sample)%Q /\
  (Aggregation.sum_funding
     (Aggregation.grouping_pass Aggregation.by_joint Aggregation.sample)
   == Aggregation.grand_total Aggregation.sample)%Q /\
  Aggregation.sum_count
    (Aggregation.grouping_pass Aggregation.by_recipient Aggregation.sample) = 3%nat.
Proof. by vm_compute. Qed.

(** ** Further runs on sample documents *)

Lemma decade_axis_sorted_witness :
  Forall (fun p => decade_shares (snd p) = true) decade_share_props /\
  map fst decade_share_props = ["2010"; "1990"] /\
  exists decades datasets,
    createDecadeMinistryChart (on_documents [ ("temporal", VObj temporal_by_decade_props) ])
    = (Ret tt,
       with_chart "decadeMinistry" "decadeMinistryChart"
         {| ch_type := "bar";
            ch_labels := map (fun d => VStr (d ++ "s")) decades;
            ch_datasets := datasets |}
         (on_documents [ ("temporal", VObj temporal_by_decade_props) ])) /\
    decades ≡ₚ map fst decade_share_props /\
    ordered string_le decades.
Proof.
  assert (H : Forall (fun p => decade_shares (snd p) = true) decade_share_props)
    by (by repeat constructor).
  split; [exact H|]. split; [reflexivity|].
  exact (decade_axis_sorted (on_documents [ ("temporal", VObj temporal_by_decade_props) ])
           temporal_by_decade_props decade_share_props eq_refl eq_refl H).
Defined.

Lemma decade_series_witness :
  Forall (fun p => decade_shares (snd p) = true) decade_share_props /\
  exists ministries,
    createDecadeMinistryChart (on_documents [ ("temporal", VObj temporal_by_decade_props) ])
    = (Ret tt,
       with_chart "decadeMinistry" "decadeMinistryChart"
         {| ch_type := "bar";
            ch_labels := map (fun d => VStr (d ++ "s"))
                           (sort_strings (map fst decade_share_props));
            ch_datasets :=
              map (fun m => {| ds_label := VStr m;
                               ds_data := map (share_of decade_share_props m)
                                            (sort_strings (map fst decade_share_props)) |})
                  ministries |}
         (on_documents [ ("temporal", VObj temporal_by_decade_props) ])) /\
    NoDup ministries /\
    (forall m, m ∈ ministries <-> has_share decade_share_props m) /\
    (forall m d, lookup_prop d decade_share_props = None ->
                 share_of decade_share_props m d = int 0).
Proof.
  assert (H : Forall (fun p => decade_shares (snd p) = true) decade_share_props)
    by (by repeat constructor).
  split; [exact H|].
  exact (proj1 (decade_series (on_documents [ ("temporal", VObj temporal_by_decade_props) ])
                  temporal_by_decade_props eq_refl)
           decade_share_props eq_refl H).
Defined.

Lemma geo_chart_modes_witness :
  Forall (fun d => state_entry d = true) states_sample /\
  List.filter has_per_capita (take 16 states_sample)
  = [ state_with "Bayern" 20000 (Some 150%Z); state_with "Berlin" 15000 (Some 400%Z) ] /\
  exists data,
    createGeoChart "percapita" (on_documents [ ("geographic", VObj geographic_states_props) ])
    = (Ret tt,
       with_chart "geo" "geoChart"
         (bar (map (field "name") data) "Per Capita Funding (€)"
              (map (field "per_capita_funding") data))
         (without_chart "geo" "geoChart"
            (on_documents [ ("geographic", VObj geographic_states_props) ]))) /\
    data ≡ₚ List.filter has_per_capita (take 16 states_sample) /\
    ordered (fun a b => exists qa qb, per_capita a = Some qa /\
                                      per_capita b = Some qb /\ (qb <= qa)%Q) data.
Proof.
  assert (H : Forall (fun d => state_entry d = true) states_sample)
    by (by repeat constructor).
  split; [exact H|]. split; [reflexivity|].
  exact (proj2 (geo_chart_modes (on_documents [ ("geographic", VObj geographic_states_props) ])
                  geographic_states_props states_sample eq_refl eq_refl H)).
Defined.

Lemma chart_limits_witness :
  fst (createCityChart Sample.loaded) = Ret tt /\
  exists c, charts (snd (createCityChart Sample.loaded)) !! "city" = Some c /\ limited 15 c.
Proof.
  assert (H : fst (createCityChart Sample.loaded) = Ret tt) by reflexivity.
  split; [exact H|].
  exact (proj1 chart_limits Sample.loaded H).
Defined.

Lemma series_match_labels_witness :
  fst (createMinistryChart Sample.loaded) = Ret tt /\
  exists c, charts (snd (createMinistryChart Sample.loaded)) !! "ministry" = Some c /\
            aligned c.
Proof.
  assert (H : fst (createMinistryChart Sample.loaded) = Ret tt) by reflexivity.
  split; [exact H|].
  exact (proj1 series_match_labels Sample.loaded H).
Defined.

Lemma forecast_alignment_witness :
  List.filter (year_within (binary64 (2025 - 10)) 2025) [ Sample.year_entry 1999 1000 10 ] = [] /\
  exists labels historical predicted upper lower approved,
    createForecastChart
      (on_documents [ ("forecast", Sample.forecast); ("temporal", VObj temporal_old_props) ])
    = (Ret tt,
       with_chart "temporal" "temporalChart"
         {| ch_type := "line"; ch_labels := labels;
            ch_datasets :=
              [ {| ds_label := VStr "Historical Funding"; ds_data := historical |};
                {| ds_label := VStr "Forecast (Prophet ML)"; ds_data := predicted |};
                {| ds_label := VStr "80% Confidence Upper"; ds_data := upper |};
                {| ds_label := VStr "80% Confidence Lower"; ds_data := lower |};
                {| ds_label := VStr "Already Approved"; ds_data := approved |} ] |}
         (on_documents [ ("forecast", Sample.forecast);
                         ("temporal", VObj temporal_old_props) ])) /\
    length labels = 2%nat /\ length predicted = 3%nat /\
    labels !! 0%nat = Some (int 2026) /\ predicted !! 1%nat = Some (int 5200).
Proof.
  assert (Hempty : List.filter (year_within (binary64 (2025 - 10)) 2025)
                     [ Sample.year_entry 1999 1000 10 ] = []) by reflexivity.
  split; [exact Hempty|].
  destruct (forecast_alignment
              (on_documents [ ("forecast", Sample.forecast);
                              ("temporal", VObj temporal_old_props) ])
              Sample.forecast_props temporal_old_props
              [ Sample.year_entry 1999 1000 10 ] _ 2025
              eq_refl eq_refl eq_refl ltac:(repeat constructor) eq_refl eq_refl
              ltac:(repeat constructor))
    as (labels & historical & predicted & upper & lower & approved
        & Hrun & Hlabels & _ & _ & _ & Hshift).
  exists labels, historical, predicted, upper, lower, approved.
  split; [exact Hrun|].
  destruct (Hshift Hempty) as (Hp & _ & _ & Hat).
  destruct (Hat 0%nat _ eq_refl) as (Hl0 & Hp1 & _).
  rewrite Hempty in Hlabels. split; [exact Hlabels|].
  split; [by rewrite Hp, Hlabels|]. split; [exact Hl0|exact Hp1].
Defined.

Lemma loadData_catches_witness :
  let s := Sample.page (server_with "data/ministry_funding.json" VNull) in
  Forall (fun f => is_Some (network s ("data/" ++ f))) files /\
  fst (initializeDashboard plain_NumberFormat plain_Date (stored s)) = Throw "TypeError" /\
  fst (loadData plain_NumberFormat plain_Date s) = Ret tt /\
  innerHTML (snd (loadData plain_NumberFormat plain_Date s)) !! ".main-content"
  = Some error_panel /\
  is_Some (charts (snd (loadData plain_NumberFormat plain_Date s)) !! "temporal") /\
  charts (snd (loadData plain_NumberFormat plain_Date s)) !! "ministry" = None.
Proof.
  cbv zeta.
  assert (Hok : Forall (fun f => is_Some (network
                          (Sample.page (server_with "data/ministry_funding.json" VNull))
                          ("data/" ++ f))) files).
  { unfold files. repeat constructor; by eexists. }
  assert (Hthrow : fst (initializeDashboard plain_NumberFormat plain_Date
                          (stored (Sample.page
                                     (server_with "data/ministry_funding.json" VNull))))
                   = Throw "TypeError") by (by vm_compute).
  split; [exact Hok|]. split; [exact Hthrow|].
  destruct (proj2 (loadData_catches plain_NumberFormat plain_Date
                     (Sample.page (server_with "data/ministry_funding.json" VNull)))
              Hok "TypeError" Hthrow) as [Hrun Hcharts].
  rewrite Hcharts. rewrite Hrun. cbn [fst snd innerHTML set_innerHTML].
  split; [reflexivity|]. split; [apply lookup_insert_eq|].
  split; [by vm_compute; eauto|by vm_compute].
Defined.

Lemma loadData_stores_witness :
  Forall (fun f => is_Some (network (Sample.page Sample.server) ("data/" ++ f))) files /\
  get (globalData (snd (loadData plain_NumberFormat plain_Date (Sample.page Sample.server))))
    "topics" = Ret Sample.topics.
Proof.
  assert (Hok : Forall (fun f => is_Some (network (Sample.page Sample.server)
                                            ("data/" ++ f))) files).
  { unfold files. repeat constructor; by eexists. }
  split; [exact Hok|].
  rewrite (proj1 (loadData_stores plain_NumberFormat plain_Date (Sample.page Sample.server))
             Hok).
  reflexivity.
Defined.

Lemma redraw_replaces_witness :
  fst (createTemporalChart "decade" Sample.loaded) = Ret tt /\
  createTemporalChart "decade" (snd (createTemporalChart "forecast" Sample.loaded))
  = createTemporalChart "decade" Sample.loaded.
Proof.
  assert (H : fst (createTemporalChart "decade" Sample.loaded) = Ret tt) by reflexivity.
  split; [exact H|].
  exact (proj1 (redraw_replaces plain_NumberFormat) "forecast" "decade" Sample.loaded H).
Defined.

Lemma keyword_cloud_witness :
  let s := on_documents [ ("topics", VObj [ ("keywords", VArr keywords_inherited) ]);
                          ("keywordTrends", Sample.keywordTrends) ] in
  Forall (fun k => keyword_entry k = true) keywords_inherited /\
  keyed Sample.keywordTrends "keywords" = true /\
  trend_of Sample.keywordTrends "keywords" "constructor" = VNative "constructor" /\
  exists tags m,
    createKeywordsCloud s
    = (Ret tt, set_innerHTML (<["keywordsCloud" := KeywordTags tags]> (innerHTML s)) s) /\
    length tags = 2%nat /\
    max_count m keywords_inherited /\
    exists tag, tags !! 1%nat = Some tag /\
      kw_onclick tag = Some "constructor" /\
      kw_title tag = "30 word matches - Click to see related projects".
Proof.
  cbv zeta.
  assert (H : Forall (fun k => keyword_entry k = true) keywords_inherited)
    by (by repeat constructor).
  split; [exact H|]. split; [reflexivity|]. split; [reflexivity|].
  destruct (keyword_cloud
              (on_documents [ ("topics", VObj [ ("keywords", VArr keywords_inherited) ]);
                              ("keywordTrends", Sample.keywordTrends) ])
              _ _ Sample.keywordTrends eq_refl eq_refl H eq_refl eq_refl)
    as (tags & m & Hrun & Hlen & _ & Hmax & Hat).
  exists tags, m. split; [exact Hrun|]. split; [exact Hlen|].
  split; [by apply Hmax|].
  destruct (Hat 1%nat _ eq_refl)
    as (tag & w & c & Htag & [= <-] & [= <-] & _ & Hclick & Htitle & _).
  exists tag. split; [exact Htag|]. split; [exact Hclick|exact Htitle].
Defined.

Lemma recipients_table_witness :
  let s := on_documents [ ("recipients", VObj [ ("top_by_funding", VArr [quoted_recipient]) ]);
                          ("entityTrends", Sample.entityTrends) ] in
  Forall (fun r => recipient_entry r = true) [quoted_recipient] /\
  keyed Sample.entityTrends "recipients" = true /\
  exists rows,
    populateRecipientsTable plain_NumberFormat "funding" s
    = (Ret tt,
       set_innerHTML (<["recipientTable.tbody" := TableRows rows]> (innerHTML s)) s) /\
    length rows = 1%nat /\
    exists row, rows !! 0%nat = Some row /\
      row_onclick row = None /\
      row_title row = "Verein " ++ dquote ++ "Pro Natur" ++ dquote ++ " eV" /\
      row_average row = "750 €".
Proof.
  cbv zeta.
  assert (H : Forall (fun r => recipient_entry r = true) [quoted_recipient])
    by (by repeat constructor).
  split; [exact H|]. split; [reflexivity|].
  destruct (recipients_table plain_NumberFormat
              (on_documents
                 [ ("recipients", VObj [ ("top_by_funding", VArr [quoted_recipient]) ]);
                   ("entityTrends", Sample.entityTrends) ])
              "funding" _ _ Sample.entityTrends eq_refl eq_refl H eq_refl eq_refl)
    as (rows & Hrun & Hlen & Hat).
  exists rows. split; [exact Hrun|]. split; [exact Hlen|].
  destruct (Hat 0%nat _ eq_refl)
    as (row & Hrow & n & average & [= <-] & [= <-] & _ & _ & Hclick & Htitle & _ & _
        & Haverage & _).
  exists row. split; [exact Hrow|]. split; [exact Hclick|]. split; [exact Htitle|].
  rewrite Haverage. by vm_compute.
Defined.

(** The markup of that row: the double quotes of the name stand as they
    are between the quotes of the [title] attribute. *)
Example quoted_title_markup :
  (row ← recipientRow plain_NumberFormat Sample.entityTrends 0 quoted_recipient;
   Ret (row_markup row))
  = Ret (newline ++ "        <tr   title=" ++ dquote ++ "Verein " ++ dquote ++ "Pro Natur"
         ++ dquote ++ " eV" ++ dquote ++ ">"
         ++ table_cell "1"
         ++ table_cell ("Verein " ++ dquote ++ "Pro Natur" ++ dquote ++ " eV")
         ++ table_cell "3000 €" ++ table_cell "4" ++ table_cell "750 €"
         ++ newline ++ "        </tr>").
Proof. by vm_compute. Qed.

Lemma showDrilldown_opens_entry_witness :
  trend_of Sample.entityTrends "states" "Bayern"
  = Sample.trend 50000 20000000000 /\
  fst (showDrilldown plain_NumberFormat "state" "Bayern" Sample.loaded) = Ret tt /\
  display (snd (showDrilldown plain_NumberFormat "state" "Bayern" Sample.loaded))
    !! "drilldownModal" = Some "flex" /\
  textContent (snd (showDrilldown plain_NumberFormat "state" "Bayern" Sample.loaded))
    !! "modalTitle" = Some "Bayern".
Proof.
  split; [reflexivity|].
  destruct (showDrilldown_opens_entry plain_NumberFormat Sample.loaded
              "state" "entityTrends" "states" "Bayern" Sample.entityTrends
              _ 20000000000 _ eq_refl eq_refl eq_refl eq_refl
              ltac:(by vm_compute) ltac:(by vm_compute) eq_refl
              ltac:(repeat constructor) ltac:(discriminate))
    as ((Hret & Hshown & _) & (title & Htitle & _ & Hstate & _) & _).
  split; [exact Hret|]. split; [exact Hshown|].
  rewrite Htitle. by rewrite (Hstate eq_refl).
Defined.


Lemma ranges_nest_witness :
  Forall (fun d => dated d = true)
    [ Sample.year_entry 1999 1000 10; Sample.year_entry 2010 2000 20;
      Sample.year_entry 2016 3000 30; Sample.year_entry 2024 4000 40;
      Sample.year_entry 2025 5000 50 ] /\
  exists recent decade,
    createTemporalChart "recent" Sample.loaded
    = (Ret tt, with_chart "temporal" "temporalChart" (temporalChartOf recent)
                 (without_chart "temporal" "temporalChart" Sample.loaded)) /\
    createTemporalChart "decade" Sample.loaded
    = (Ret tt, with_chart "temporal" "temporalChart" (temporalChartOf decade)
                 (without_chart "temporal" "temporalChart" Sample.loaded)) /\
    sublist decade recent.
Proof.
  assert (H : Forall (fun d => dated d = true)
                [ Sample.year_entry 1999 1000 10; Sample.year_entry 2010 2000 20;
                  Sample.year_entry 2016 3000 30; Sample.year_entry 2024 4000 40;
                  Sample.year_entry 2025 5000 50 ]) by (by repeat constructor).
  split; [exact H|].
  destruct (ranges_nest Sample.loaded Sample.temporal_props _ eq_refl eq_refl H)
    as (recent & decade & Hr & Hd & _ & Hsub & _).
  by exists recent, decade.
Defined.

Example decade_chart_fills_zero :
  exists s,
    createDecadeMinistryChart (on_documents [ ("temporal", VObj temporal_by_decade_props) ])
    = (Ret tt, s) /\
    charts s !! "decadeMinistry"
    = Some {| ch_type := "bar"; ch_labels := [ VStr "1990s"; VStr "2010s" ];
              ch_datasets :=
                [ {| ds_label := VStr "BMFTR"; ds_data := [ int 100; int 60 ] |};
                  {| ds_label := VStr "BMWE"; ds_data := [ int 0; int 40 ] |} ] |}.
Proof. eexists. split; [reflexivity|]. by vm_compute. Qed.

Example per_capita_order :
  exists s,
    createGeoChart "percapita" (on_documents [ ("geographic", VObj geographic_states_props) ])
    = (Ret tt, s) /\
    ch_labels <$> charts s !! "geo" = Some [ VStr "Berlin"; VStr "Bayern" ].
Proof. eexists. split; [reflexivity|]. by vm_compute. Qed.

Example truncateLabel_examples :
  truncateLabel (VStr "Forschungszentrum") 10 = Ret (VStr "Forschungs...") /\
  truncateLabel (VStr "Fraunhofer") 10 = Ret (VStr "Fraunhofer") /\
  escape_quotes "L'Oreal" = "L\'Oreal" /\
  plain_argument (escape_quotes "L'Oreal") = Some "L'Oreal" /\
  plain_argument "L'Oreal" = None.
Proof. by vm_compute. Qed.

Lemma labels_fit_witness :
  fst (createRecipientChart Sample.loaded) = Ret tt /\
  exists c, charts (snd (createRecipientChart Sample.loaded)) !! "recipient" = Some c /\
            Forall (fits 33) (ch_labels c).
Proof.
  assert (H : fst (createRecipientChart Sample.loaded) = Ret tt) by reflexivity.
  split; [exact H|].
  exact (proj1 (labels_fit plain_NumberFormat) Sample.loaded H).
Defined.

Lemma missing_lists_throw_witness :
  get (globalData (on_documents [ ("ministry", VObj [ ("generated_at", VStr "2025") ]) ]))
    "ministry" = Ret (VObj [ ("generated_at", VStr "2025") ]) /\
  createMinistryChart (on_documents [ ("ministry", VObj [ ("generated_at", VStr "2025") ]) ])
  = (TypeError, on_documents [ ("ministry", VObj [ ("generated_at", VStr "2025") ]) ]).
Proof.
  split; [reflexivity|].
  exact (proj1 (missing_lists_throw plain_NumberFormat)
           (on_documents [ ("ministry", VObj [ ("generated_at", VStr "2025") ]) ])
           [ ("generated_at", VStr "2025") ] eq_refl eq_refl).
Defined.

Lemma drilldown_without_yearly_witness :
  let trends := VObj [ ("states", VObj [ ("Bayern", VObj [ ("total_projects", int 5);
                                                           ("total_funding", int 1000) ]) ]) ] in
  let s := on_documents [ ("entityTrends", trends) ] in
  trend_of trends "states" "Bayern"
  = VObj [ ("total_projects", int 5); ("total_funding", int 1000) ] /\
  fst (showDrilldown plain_NumberFormat "state" "Bayern" s) = TypeError /\
  display (snd (showDrilldown plain_NumberFormat "state" "Bayern" s)) !! "drilldownModal"
  = Some "flex".
Proof.
  cbv zeta. split; [reflexivity|].
  destruct (drilldown_without_yearly plain_NumberFormat
              (on_documents
                 [ ("entityTrends",
                    VObj [ ("states", VObj [ ("Bayern", VObj [ ("total_projects", int 5);
                                                               ("total_funding", int 1000) ]) ]) ]) ])
              "state" "entityTrends" "states" "Bayern" _ _ 1000%Q
              eq_refl eq_refl eq_refl eq_refl ltac:(by vm_compute) ltac:(by vm_compute)
              eq_refl eq_refl)
    as (Hthrow & Hshown & _).
  split; [exact Hthrow|exact Hshown].
Defined.

Lemma overview_cards_missing_witness :
  let summary := [ ("total_funding", int 125000000000); ("total_projects", int 317000);
                   ("unique_recipients", int 42001) ] in
  let s := on_documents [ ("summary", VObj summary) ] in
  lookup_prop "highlights" summary = None /\
  fst (updateOverviewCards plain_NumberFormat s) = TypeError /\
  textContent (snd (updateOverviewCards plain_NumberFormat s)) !! "avgFunding" = None.
Proof.
  cbv zeta. split; [reflexivity|].
  destruct (proj2 (overview_cards_missing plain_NumberFormat)
              (on_documents
                 [ ("summary", VObj [ ("total_funding", int 125000000000);
                                      ("total_projects", int 317000);
                                      ("unique_recipients", int 42001) ]) ])
              _ 125000000000%Q 42001%Q eq_refl eq_refl
              ltac:(by vm_compute) ltac:(by vm_compute) eq_refl eq_refl)
    as (Hthrow & _ & _ & _ & Havg).
  split; [exact Hthrow|]. rewrite Havg. reflexivity.
Defined.
